(** * Notification service: state machine, retry policy, rate limiting,
      priority queues and request handling

    A shallow embedding of
      - [src/models/notification.py]           (Notification, its validation,
                                                [can_retry], [update_status]),
      - [src/services/email_service.py]        ([send_email] and its handlers),
      - [src/services/notification_service.py] ([send_notification],
                                                [_check_rate_limit],
                                                [process_queued_notifications]),
      - [src/controllers/notification_controller.py] ([create_notification]
                                                and the request validators),
      - [src/utils/templates.py]               (context validation, escaping,
                                                loading and rendering),
      - [src/app.py]                           (the [send_notification]
                                                endpoint),
    of the notification service, followed by the properties proved about it.

    Conventions.
      - A [datetime] is an integer number of microseconds since the epoch
        (the resolution of Python's [datetime]); a [timedelta] is their
        difference.
      - [datetime.utcnow()], [uuid4()] and the outcome of the external steps
        of an email delivery (recipient check, template rendering, SMTP
        connection and transmission) are read from an environment [Env] of
        oracles; the world counts how many readings were taken, so two calls
        of [utcnow()] are two readings.
      - Python exceptions keep the mutations made before the raise: a
        computation maps a state to an outcome TOGETHER with the state
        reached, also when the outcome is an exception.
      - A [scheduled_for] is naive or timezone-aware, as the caller gave
        it; the [metadata] dictionary is the caller's, written over by
        the code under its own keys. *)

From Stdlib Require Import ZArith List String Ascii Bool Lia Permutation Sorted
  RelationClasses.
Import ListNotations.

Local Open Scope Z_scope.

(* ===================================================================== *)
(** ** Python values, exceptions and the computation monad               *)
(* ===================================================================== *)

(** The dynamically typed values that reach the checks of
    [Notification.__post_init__]. *)
Inductive PyVal : Type :=
| PyNone
| PyBool (b : bool)
| PyInt (z : Z)
| PyStr (s : string)
| PyList (l : list string)
| PyDict (d : list (string * string)).

(** Python truthiness ([not v] is [negb (truthy v)]). *)
Definition truthy (v : PyVal) : bool :=
  match v with
  | PyNone => false
  | PyBool b => b
  | PyInt z => negb (z =? 0)
  | PyStr s => negb (String.eqb s EmptyString)
  | PyList l => negb (Nat.eqb (List.length l) 0)
  | PyDict d => negb (Nat.eqb (List.length d) 0)
  end.

(** [isinstance(v, str)] and [isinstance(v, dict)]. *)
Definition isinstance_str (v : PyVal) : bool :=
  match v with PyStr _ => true | _ => false end.

Definition isinstance_dict (v : PyVal) : bool :=
  match v with PyDict _ => true | _ => false end.

(** Truthiness of an [Optional[str]]. *)
Definition truthy_opt (m : option string) : bool :=
  match m with
  | Some s => negb (String.eqb s EmptyString)
  | None => false
  end.

(** A Python [dict] with string keys: the entries in insertion order;
    setting a key that is there replaces its value in place. *)
Fixpoint dict_get {V} (k : string) (d : list (string * V)) : option V :=
  match d with
  | [] => None
  | (k', v) :: rest => if String.eqb k' k then Some v else dict_get k rest
  end.

Fixpoint dict_set {V} (k : string) (v : V) (d : list (string * V))
  : list (string * V) :=
  match d with
  | [] => [(k, v)]
  | (k', v') :: rest =>
      if String.eqb k' k then (k, v) :: rest else (k', v') :: dict_set k v rest
  end.

Definition dict_mem {V} (k : string) (d : list (string * V)) : bool :=
  match dict_get k d with Some _ => true | None => false end.

(** The exception classes the modelled code raises or catches.
    [SMTPException] and [ConnectionError] are the two classes the email
    service retries on; [Exception] stands for any other subclass of
    Python's [Exception]; [RetryError] is what the retry policy of
    [send_notification] raises once its attempts are used up. *)
Inductive exn : Type :=
| ValueError (msg : string)
| SMTPException (msg : string)
| ConnectionError (msg : string)
| Exception (msg : string)
| RetryError (last : exn)
| HTTPException (status_code : Z) (detail : string).

(** [str(e)]. *)
Fixpoint str (e : exn) : string :=
  match e with
  | ValueError m | SMTPException m | ConnectionError m | Exception m => m
  | RetryError l => String.append "RetryError[" (String.append (str l) "]")
  | HTTPException _ d => d
  end.

(** [TypeError] and [AttributeError] are exceptions of classes no handler
    of the service singles out: an [Exception] with its message. *)
Definition TypeError (msg : string) : exn := Exception msg.

Definition AttributeError (msg : string) : exn := Exception msg.

(** [type(v).__name__]. *)
Definition type_name (v : PyVal) : string :=
  match v with
  | PyNone => "NoneType"
  | PyBool _ => "bool"
  | PyInt _ => "int"
  | PyStr _ => "str"
  | PyList _ => "list"
  | PyDict _ => "dict"
  end.

(** What [v + [...]] raises for a [v] that is not a list. *)
Definition concat_message (v : PyVal) : string :=
  match v with
  | PyStr _ =>
      String.append "can only concatenate str (not "
        (String "034" (String.append "list" (String "034" ") to str")))
  | _ =>
      String.append "unsupported operand type(s) for +: '"
        (String.append (type_name v) "' and 'list'")
  end.

Definition concat_TypeError (v : PyVal) : exn := TypeError (concat_message v).

(** How a call ends: it returns, it raises, it is suspended on an
    [await] that cannot proceed (a [put] on a full queue, a [get] on an
    empty one), or the model's loop bound ran out before the loop ended. *)
Inductive Outcome (A : Type) : Type :=
| Returned (a : A)
| Raised (e : exn)
| Suspended
| Unfinished.

Arguments Returned {A} a.
Arguments Raised {A} e.
Arguments Suspended {A}.
Arguments Unfinished {A}.

(** A computation over a state [S]: the outcome and the state reached. *)
Definition M (S A : Type) : Type := S -> Outcome A * S.

Definition ret {S A} (a : A) : M S A := fun s => (Returned a, s).

Definition bind {S A B} (c : M S A) (k : A -> M S B) : M S B :=
  fun s =>
    match c s with
    | (Returned a, s') => k a s'
    | (Raised e, s') => (Raised e, s')
    | (Suspended, s') => (Suspended, s')
    | (Unfinished, s') => (Unfinished, s')
    end.

Definition raise {S A} (e : exn) : M S A := fun s => (Raised e, s).

Definition suspend {S A} : M S A := fun s => (Suspended, s).

Definition gets {S A} (f : S -> A) : M S A := fun s => (Returned (f s), s).

Definition modify {S} (f : S -> S) : M S unit := fun s => (Returned tt, f s).

(** [try: c  except Exception as e: h e]. An exception raised by the
    handler itself propagates (the handler is not inside the [try]). *)
Definition try_except {S A} (c : M S A) (h : exn -> M S A) : M S A :=
  fun s =>
    match c s with
    | (Raised e, s') => h e s'
    | r => r
    end.

Declare Scope monad_scope.
Delimit Scope monad_scope with monad.
Notation "x <- c ;; k" := (bind c (fun x => k))
  (at level 61, c at next level, right associativity) : monad_scope.
Notation "c ;; k" := (bind c (fun _ => k))
  (at level 61, right associativity) : monad_scope.
Local Open Scope monad_scope.

(* ===================================================================== *)
(** ** models/notification.py: the enumerations                           *)
(* ===================================================================== *)

Inductive NotificationType : Type := EMAIL | IN_APP | SYSTEM.

Inductive NotificationStatus : Type := PENDING | SENT | FAILED | CANCELLED.

(** Members in the order of the class body: iterating the enumeration
    yields them in this order. *)
Inductive NotificationPriority : Type := LOW | MEDIUM | HIGH | URGENT.

Definition NotificationPriority_members : list NotificationPriority :=
  [LOW; MEDIUM; HIGH; URGENT].

Definition type_value (t : NotificationType) : string :=
  match t with
  | EMAIL => "email"
  | IN_APP => "in_app"
  | SYSTEM => "system"
  end.

Definition status_value (s : NotificationStatus) : string :=
  match s with
  | PENDING => "pending"
  | SENT => "sent"
  | FAILED => "failed"
  | CANCELLED => "cancelled"
  end.

Definition priority_value (p : NotificationPriority) : string :=
  match p with
  | LOW => "low"
  | MEDIUM => "medium"
  | HIGH => "high"
  | URGENT => "urgent"
  end.

Definition type_eqb (a b : NotificationType) : bool :=
  match a, b with
  | EMAIL, EMAIL | IN_APP, IN_APP | SYSTEM, SYSTEM => true
  | _, _ => false
  end.

Definition status_eqb (a b : NotificationStatus) : bool :=
  match a, b with
  | PENDING, PENDING | SENT, SENT | FAILED, FAILED | CANCELLED, CANCELLED => true
  | _, _ => false
  end.

Definition priority_eqb (a b : NotificationPriority) : bool :=
  match a, b with
  | LOW, LOW | MEDIUM, MEDIUM | HIGH, HIGH | URGENT, URGENT => true
  | _, _ => false
  end.

(* ===================================================================== *)
(** ** config.py: the settings as the model reads them                    *)
(* ===================================================================== *)

(** [Config.<name>], an attribute read on the class [Config] itself, as
    [can_retry] does. [Config] is a dataclass whose settings are fields
    declared by annotation only, with no default value: they are
    attributes of its instances, and the class has no attribute of that
    name, so the lookup raises [AttributeError]. *)
Definition Config_attribute {S} (name : string) : M S Z :=
  raise (AttributeError
           (String.append "type object 'Config' has no attribute '"
              (String.append name "'"))).

(* ===================================================================== *)
(** ** models/notification.py: the Notification object                    *)
(* ===================================================================== *)

Definition datetime : Type := Z.

(** A [datetime] object as a caller can pass it: naive, like every
    reading of [datetime.utcnow()], or timezone-aware (the instant is
    kept in UTC either way). *)
Inductive pydatetime : Type :=
| Naive (t : datetime)
| Aware (t : datetime).

(** What comparing an aware [datetime] with a naive one raises. *)
Definition compare_TypeError : exn :=
  TypeError "can't compare offset-naive and offset-aware datetimes".

(** One element of [error_messages]: the dictionary
    [{"timestamp": ..., "message": ..., "retry_count": ...}]. *)
Record ErrorEntry : Type := {
  err_timestamp : datetime;
  err_message : string;
  err_retry_count : nat
}.

(** One element of [metadata["status_history"]]. *)
Record StatusChange : Type := {
  sc_status : string;
  sc_timestamp : datetime;
  sc_error : option string
}.

(** The [metadata] dictionary. It is the dictionary the caller supplied,
    [user_entries], written over by the code under six keys of its own: a
    key reads as the value the code has written under it, when it has
    written one, and as the caller's entry otherwise. [correlation_id] to
    [last_status_change] are the values written ([None]: not written
    yet); [status_history] lists the entries [update_status] has appended
    to what it found under ["status_history"]. *)
Record Metadata : Type := {
  user_entries : list (string * PyVal);
  correlation_id : option N;
  source_service : option string;
  priority_level : option string;
  md_notification_type : option string;
  last_status_change : option datetime;
  status_history : list StatusChange
}.

(** What is under the key ["status_history"]: a value of the caller that
    is not a list, or a list, the caller's items (none when the caller
    gave no such entry) followed by the entries appended since. *)
Inductive HistoryValue : Type :=
| NotAList (v : PyVal)
| AList (caller_items : list string) (entries : list StatusChange).

(** [self.metadata.get("status_history", [])]. Nothing is ever appended
    to a value that is not a list. *)
Definition get_status_history (m : Metadata) : HistoryValue :=
  match dict_get "status_history" (user_entries m) with
  | Some (PyList l) => AList l (status_history m)
  | Some v => NotAList v
  | None => AList [] (status_history m)
  end.

Arguments get_status_history : simpl never.

Definition empty_metadata : Metadata :=
  {| user_entries := [];
     correlation_id := None;
     source_service := None;
     priority_level := None;
     md_notification_type := None;
     last_status_change := None;
     status_history := [] |}.

(** The dataclass. [template_name] and [content] hold whatever value the
    caller passed (the validation checks their types); [recipients] is a
    list of strings as annotated (the validation checks only that it is
    not empty). [retry_count] starts at 0 and is only ever incremented. *)
Record Notification : Type := {
  template_name : PyVal;
  notification_type : NotificationType;
  content : PyVal;
  recipients : list string;
  priority : NotificationPriority;
  metadata : Metadata;
  scheduled_for : option pydatetime;
  id : N;
  status : NotificationStatus;
  created_at : datetime;
  updated_at : datetime;
  retry_count : nat;
  error_messages : list ErrorEntry
}.

Definition set_status (s : NotificationStatus) (n : Notification) : Notification :=
  {| template_name := template_name n; notification_type := notification_type n;
     content := content n; recipients := recipients n; priority := priority n;
     metadata := metadata n; scheduled_for := scheduled_for n; id := id n;
     status := s; created_at := created_at n; updated_at := updated_at n;
     retry_count := retry_count n; error_messages := error_messages n |}.

Definition set_updated_at (t : datetime) (n : Notification) : Notification :=
  {| template_name := template_name n; notification_type := notification_type n;
     content := content n; recipients := recipients n; priority := priority n;
     metadata := metadata n; scheduled_for := scheduled_for n; id := id n;
     status := status n; created_at := created_at n; updated_at := t;
     retry_count := retry_count n; error_messages := error_messages n |}.

Definition set_retry_count (k : nat) (n : Notification) : Notification :=
  {| template_name := template_name n; notification_type := notification_type n;
     content := content n; recipients := recipients n; priority := priority n;
     metadata := metadata n; scheduled_for := scheduled_for n; id := id n;
     status := status n; created_at := created_at n; updated_at := updated_at n;
     retry_count := k; error_messages := error_messages n |}.

Definition set_error_messages (l : list ErrorEntry) (n : Notification) : Notification :=
  {| template_name := template_name n; notification_type := notification_type n;
     content := content n; recipients := recipients n; priority := priority n;
     metadata := metadata n; scheduled_for := scheduled_for n; id := id n;
     status := status n; created_at := created_at n; updated_at := updated_at n;
     retry_count := retry_count n; error_messages := l |}.

Definition set_metadata (m : Metadata) (n : Notification) : Notification :=
  {| template_name := template_name n; notification_type := notification_type n;
     content := content n; recipients := recipients n; priority := priority n;
     metadata := m; scheduled_for := scheduled_for n; id := id n;
     status := status n; created_at := created_at n; updated_at := updated_at n;
     retry_count := retry_count n; error_messages := error_messages n |}.

(** [metadata.update({...})] of [__post_init__]. *)
Definition metadata_tracking (c : N) (p : NotificationPriority) (t : NotificationType)
    (m : Metadata) : Metadata :=
  {| user_entries := user_entries m;
     correlation_id := Some c;
     source_service := Some "notification-service"%string;
     priority_level := Some (priority_value p);
     md_notification_type := Some (type_value t);
     last_status_change := last_status_change m;
     status_history := status_history m |}.

(** [metadata.update({...})] of [update_status], once the new history has
    been computed: the list found under the key followed by the new
    entry. *)
Definition metadata_status_change (t_last t_entry : datetime) (s : NotificationStatus)
    (error_message : option string) (m : Metadata) : Metadata :=
  {| user_entries := user_entries m;
     correlation_id := correlation_id m;
     source_service := source_service m;
     priority_level := priority_level m;
     md_notification_type := md_notification_type m;
     last_status_change := Some t_last;
     status_history :=
       status_history m ++
       [ {| sc_status := status_value s;
            sc_timestamp := t_entry;
            sc_error := if truthy_opt error_message then error_message else None |} ] |}.

(* ===================================================================== *)
(** ** The world: service state, counters of oracle readings, ghost trace *)
(* ===================================================================== *)

(** [asyncio.Queue(maxsize=...)]: a FIFO of at most [maxsize] items
    ([maxsize <= 0] means unbounded). *)
Record Queue : Type := {
  maxsize : Z;
  items : list Notification
}.

Definition queue_empty (q : Queue) : bool :=
  match items q with [] => true | _ => false end.

Definition queue_full (q : Queue) : bool :=
  if maxsize q <=? 0 then false
  else maxsize q <=? Z.of_nat (List.length (items q)).

(** [self._priority_queues]. *)
Record PriorityQueues : Type := {
  q_urgent : Queue;
  q_high : Queue;
  q_medium : Queue;
  q_low : Queue
}.

Definition queue_of (p : NotificationPriority) (qs : PriorityQueues) : Queue :=
  match p with
  | URGENT => q_urgent qs
  | HIGH => q_high qs
  | MEDIUM => q_medium qs
  | LOW => q_low qs
  end.

Definition set_queue (p : NotificationPriority) (q : Queue) (qs : PriorityQueues)
    : PriorityQueues :=
  match p with
  | URGENT => {| q_urgent := q; q_high := q_high qs; q_medium := q_medium qs; q_low := q_low qs |}
  | HIGH => {| q_urgent := q_urgent qs; q_high := q; q_medium := q_medium qs; q_low := q_low qs |}
  | MEDIUM => {| q_urgent := q_urgent qs; q_high := q_high qs; q_medium := q; q_low := q_low qs |}
  | LOW => {| q_urgent := q_urgent qs; q_high := q_high qs; q_medium := q_medium qs; q_low := q |}
  end.

(** [self._rate_limiters]: the value of each type's counter. *)
Record RateLimiters : Type := {
  email_rate : Z;
  in_app_rate : Z;
  system_rate : Z
}.

Definition rate_of (t : NotificationType) (r : RateLimiters) : Z :=
  match t with
  | EMAIL => email_rate r
  | IN_APP => in_app_rate r
  | SYSTEM => system_rate r
  end.

(** Ghost trace: what the service did, in the order it did it. It is
    written by the model only and read by no modelled code. *)
Inductive Event : Type :=
| EvEmpty (p : NotificationPriority) (b : bool)   (* the loop evaluated [queue.empty()] *)
| EvGet (p : NotificationPriority) (n : N)        (* [queue.get()] returned notification n *)
| EvPut (p : NotificationPriority) (n : N)        (* notification n was put on queue p *)
| EvDeliver (t : NotificationType) (n : N).       (* a channel was asked to deliver n *)

Record World : Type := {
  reads : nat;                      (* readings of [datetime.utcnow()] taken *)
  draws : nat;                      (* values of [uuid4()] drawn *)
  sends : nat;                      (* runs of the external steps of [send_email] *)
  rate_limiters : RateLimiters;
  priority_queues : PriorityQueues;
  notifications_total : list (string * string * string);  (* [NOTIFICATION_METRICS] increments *)
  sent_count : nat;                 (* [EmailService._metrics] *)
  error_count : nat;
  trace : list Event
}.

Definition set_reads (k : nat) (w : World) : World :=
  {| reads := k; draws := draws w; sends := sends w; rate_limiters := rate_limiters w;
     priority_queues := priority_queues w; notifications_total := notifications_total w;
     sent_count := sent_count w; error_count := error_count w; trace := trace w |}.

Definition set_draws (k : nat) (w : World) : World :=
  {| reads := reads w; draws := k; sends := sends w; rate_limiters := rate_limiters w;
     priority_queues := priority_queues w; notifications_total := notifications_total w;
     sent_count := sent_count w; error_count := error_count w; trace := trace w |}.

Definition set_sends (k : nat) (w : World) : World :=
  {| reads := reads w; draws := draws w; sends := k; rate_limiters := rate_limiters w;
     priority_queues := priority_queues w; notifications_total := notifications_total w;
     sent_count := sent_count w; error_count := error_count w; trace := trace w |}.

Definition set_priority_queues (qs : PriorityQueues) (w : World) : World :=
  {| reads := reads w; draws := draws w; sends := sends w; rate_limiters := rate_limiters w;
     priority_queues := qs; notifications_total := notifications_total w;
     sent_count := sent_count w; error_count := error_count w; trace := trace w |}.

Definition set_notifications_total (l : list (string * string * string)) (w : World) : World :=
  {| reads := reads w; draws := draws w; sends := sends w; rate_limiters := rate_limiters w;
     priority_queues := priority_queues w; notifications_total := l;
     sent_count := sent_count w; error_count := error_count w; trace := trace w |}.

Definition set_sent_count (k : nat) (w : World) : World :=
  {| reads := reads w; draws := draws w; sends := sends w; rate_limiters := rate_limiters w;
     priority_queues := priority_queues w; notifications_total := notifications_total w;
     sent_count := k; error_count := error_count w; trace := trace w |}.

Definition set_error_count (k : nat) (w : World) : World :=
  {| reads := reads w; draws := draws w; sends := sends w; rate_limiters := rate_limiters w;
     priority_queues := priority_queues w; notifications_total := notifications_total w;
     sent_count := sent_count w; error_count := k; trace := trace w |}.

Definition set_trace (t : list Event) (w : World) : World :=
  {| reads := reads w; draws := draws w; sends := sends w; rate_limiters := rate_limiters w;
     priority_queues := priority_queues w; notifications_total := notifications_total w;
     sent_count := sent_count w; error_count := error_count w; trace := t |}.

(** What the external steps of one run of [send_email] do: every step
    succeeds and the message is handed to the SMTP server, or one of them
    raises. *)
Inductive Transport : Type :=
| Delivered
| Fails (e : exn).

(** The oracles. *)
Record Env : Type := {
  utcnow_at : nat -> datetime;      (* the k-th reading of the clock *)
  uuid4_at : nat -> N;              (* the k-th identifier drawn *)
  transport_at : nat -> Transport   (* the k-th run of the external email steps *)
}.

(** A method call: the object it is called on, and the world. *)
Record Obj : Type := {
  self : Notification;
  world : World
}.

Definition in_world {A} (c : M World A) : M Obj A :=
  fun o =>
    let (r, w') := c (world o) in
    (r, {| self := self o; world := w' |}).

Definition update_self (f : Notification -> Notification) : M Obj unit :=
  modify (fun o => {| self := f (self o); world := world o |}).

Definition log (e : Event) : M World unit :=
  modify (fun w => set_trace (trace w ++ [e]) w).

(** [valid_transitions] of [update_status]. *)
Definition valid_transitions (s : NotificationStatus) : list NotificationStatus :=
  match s with
  | PENDING => [SENT; FAILED; CANCELLED]
  | FAILED => [PENDING; CANCELLED]
  | SENT => [FAILED]
  | CANCELLED => []
  end.

(** [x in set]. *)
Definition status_in (x : NotificationStatus) (l : list NotificationStatus) : bool :=
  existsb (status_eqb x) l.

(** [max(error["timestamp"] for error in self.error_messages)
     if self.error_messages else self.created_at]. *)
Definition last_attempt (n : Notification) : datetime :=
  match error_messages n with
  | [] => created_at n
  | e :: es => fold_left Z.max (map err_timestamp es) (err_timestamp e)
  end.

(** [delta.total_seconds() >= secs] for a [timedelta] of [delta]
    microseconds and an integer number of seconds [secs]. The quotient
    [delta / 10^6] is a correctly rounded float; for [secs] below 2^33
    the float comparison agrees with the integer one. *)
Definition total_seconds_ge (delta secs : Z) : bool :=
  secs * 1000000 <=? delta.

Section Model.

Variable env : Env.

Definition utcnow : M World datetime :=
  fun w => (Returned (utcnow_at env (reads w)), set_reads (S (reads w)) w).

Definition uuid4 : M World N :=
  fun w => (Returned (uuid4_at env (draws w)), set_draws (S (draws w)) w).

(** [Notification.can_retry]. *)
Definition can_retry : M Obj bool :=
  n <- gets self ;;
  attempts <- Config_attribute "NOTIFICATION_RETRY_ATTEMPTS" ;;
  if attempts <=? Z.of_nat (retry_count n) then ret false
  else if negb (status_eqb (status n) FAILED) then ret false
  else
    base_delay <- Config_attribute "NOTIFICATION_RETRY_DELAY" ;;
    let current_delay := base_delay * 2 ^ Z.of_nat (retry_count n) in
    let last := last_attempt n in
    now <- in_world utcnow ;;
    ret (total_seconds_ge (now - last) current_delay).

(** [Notification.update_status]. *)
Definition update_status (new_status : NotificationStatus)
    (error_message : option string) : M Obj unit :=
  n <- gets self ;;
  if negb (status_in new_status (valid_transitions (status n))) then
    raise (ValueError
             (String.append "Invalid status transition from "
                (String.append (status_value (status n))
                   (String.append " to " (status_value new_status)))))
  else
    update_self (set_status new_status) ;;
    t <- in_world utcnow ;;
    update_self (set_updated_at t) ;;
    (if truthy_opt error_message && status_eqb new_status FAILED then
       t_err <- in_world utcnow ;;
       n1 <- gets self ;;
       update_self (set_error_messages
                      (error_messages n1 ++
                       [ {| err_timestamp := t_err;
                            err_message := match error_message with
                                           | Some m => m
                                           | None => EmptyString
                                           end;
                            err_retry_count := retry_count n1 |} ])) ;;
       update_self (fun n2 => set_retry_count (S (retry_count n2)) n2)
     else ret tt) ;;
    t_last <- in_world utcnow ;;
    t_entry <- in_world utcnow ;;
    n3 <- gets self ;;
    match get_status_history (metadata n3) with
    | NotAList v => raise (concat_TypeError v)
    | AList _ _ =>
        update_self
          (set_metadata (metadata_status_change t_last t_entry new_status
                           error_message (metadata n3)))
    end.

(** The keyword arguments of [Notification(...)] as the call sites pass
    them; no call site passes one of the auto-generated fields. *)
Record NotificationArgs : Type := {
  arg_template_name : PyVal;
  arg_notification_type : NotificationType;
  arg_content : PyVal;
  arg_recipients : list string;
  arg_priority : NotificationPriority;
  arg_metadata : list (string * PyVal);
  arg_scheduled_for : option pydatetime
}.

(** The generated [__init__]: the fields take the arguments or, in field
    order, their defaults. *)
Definition init_fields (a : NotificationArgs) : M World Notification :=
  i <- uuid4 ;;
  c <- utcnow ;;
  u <- utcnow ;;
  ret {| template_name := arg_template_name a;
         notification_type := arg_notification_type a;
         content := arg_content a;
         recipients := arg_recipients a;
         priority := arg_priority a;
         metadata :=
           {| user_entries := arg_metadata a; correlation_id := None;
              source_service := None; priority_level := None;
              md_notification_type := None; last_status_change := None;
              status_history := [] |};
         scheduled_for := arg_scheduled_for a;
         id := i;
         status := PENDING;
         created_at := c;
         updated_at := u;
         retry_count := 0%nat;
         error_messages := [] |}.

(** [Notification.__post_init__]. *)
Definition post_init : M Obj unit :=
  n <- gets self ;;
  if negb (truthy (template_name n)) || negb (isinstance_str (template_name n)) then
    raise (ValueError "Invalid template name")
  else if Nat.eqb (List.length (recipients n)) 0 then
    raise (ValueError "Recipients list cannot be empty")
  else if negb (isinstance_dict (content n)) then
    raise (ValueError "Content must be a dictionary")
  else
    (match scheduled_for n with
     | Some scheduled =>
         now <- in_world utcnow ;;
         match scheduled with
         | Naive t =>
             if t <? now then raise (ValueError "Scheduled time cannot be in the past")
             else ret tt
         | Aware _ => raise compare_TypeError
         end
     | None => ret tt
     end) ;;
    c <- in_world uuid4 ;;
    update_self (fun n1 =>
      set_metadata (metadata_tracking c (priority n1) (notification_type n1)
                      (metadata n1)) n1).

(** [Notification(...)]: the object exists for the caller only when
    [__post_init__] returns. *)
Definition new_Notification (a : NotificationArgs) : M World Notification :=
  n <- init_fields a ;;
  fun w =>
    match post_init {| self := n; world := w |} with
    | (Returned _, o) => (Returned (self o), world o)
    | (Raised e, o) => (Raised e, world o)
    | (Suspended, o) => (Suspended, world o)
    | (Unfinished, o) => (Unfinished, world o)
    end.

(* ===================================================================== *)
(** ** The retry decorators                                               *)
(* ===================================================================== *)

(** [@backoff.on_exception(backoff.expo, classes, max_tries=...)]: the
    call is repeated while it raises one of the classes, at most
    [max_tries] times in all; the last exception is re-raised as it is.
    [extra] is the number of tries after the first. The waits between
    tries only let the clock advance. *)
Fixpoint on_exception {S A} (extra : nat) (retryable : exn -> bool) (c : M S A)
    : M S A :=
  match extra with
  | O => c
  | S k =>
      try_except c
        (fun e => if retryable e then on_exception k retryable c else raise e)
  end.

(** [@retry(stop=stop_after_attempt(...), wait=...)] of tenacity: the call
    is repeated while it raises, and [RetryError] is raised when the last
    allowed attempt raised too. [extra] is the number of attempts after
    the first. *)
Fixpoint retry {S A} (extra : nat) (c : M S A) : M S A :=
  match extra with
  | O => try_except c (fun e => raise (RetryError e))
  | S k => try_except c (fun _ => retry k c)
  end.

(* ===================================================================== *)
(** ** services/email_service.py                                          *)
(* ===================================================================== *)

Definition MAX_RETRIES : nat := 3.

Definition is_SMTPException (e : exn) : bool :=
  match e with SMTPException _ => true | _ => false end.

Definition is_ConnectionError (e : exn) : bool :=
  match e with ConnectionError _ => true | _ => false end.

(** [EmailService._handle_smtp_error]. *)
Definition _handle_smtp_error (error : exn) : M Obj unit :=
  let error_msg := String.append "SMTP Error: " (str error) in
  update_status FAILED (Some error_msg) ;;
  in_world (modify (fun w => set_error_count (S (error_count w)) w)).

(** [EmailService._handle_error]. *)
Definition _handle_error (error : exn) : M Obj unit :=
  let error_msg := String.append "Error sending email: " (str error) in
  update_status FAILED (Some error_msg) ;;
  in_world (modify (fun w => set_error_count (S (error_count w)) w)).

(** The steps of [send_email] between the type check and
    [notification.update_status]: recipient check, message building,
    template rendering, [connect()] and [smtp.send_message]. Here their
    outcome is the next reading of the transport oracle, and the
    properties of the service are proved for every oracle. [email_steps],
    further down, spells the steps out over the template manager: as
    the code stands they never get to the SMTP server, so the oracle of
    a real run answers [Fails] at every reading. *)
Definition external_steps : M World unit :=
  k <- gets sends ;;
  modify (set_sends (S k)) ;;
  match transport_at env k with
  | Delivered => ret tt
  | Fails e => raise e
  end.

(** The body of [EmailService.send_email]. *)
Definition send_email_body : M Obj bool :=
  try_except
    (n <- gets self ;;
     (if negb (type_eqb (notification_type n) EMAIL) then
        raise (ValueError "Invalid notification type for email service")
      else ret tt) ;;
     in_world external_steps ;;
     update_status SENT None ;;
     in_world (modify (fun w => set_sent_count (S (sent_count w)) w)) ;;
     ret true)
    (fun e =>
       if is_SMTPException e then _handle_smtp_error e ;; raise e
       else _handle_error e ;; raise e).

(** [EmailService.send_email], decorated. *)
Definition send_email : M Obj bool :=
  on_exception (Nat.pred MAX_RETRIES)
    (fun e => is_SMTPException e || is_ConnectionError e) send_email_body.

(* ===================================================================== *)
(** ** services/notification_service.py                                   *)
(* ===================================================================== *)

(** The state [NotificationService.__init__] sets up. *)
Definition initial_queues : PriorityQueues :=
  {| q_urgent := {| maxsize := 1000; items := [] |};
     q_high := {| maxsize := 2000; items := [] |};
     q_medium := {| maxsize := 5000; items := [] |};
     q_low := {| maxsize := 10000; items := [] |} |}.

Definition initial_rate_limiters : RateLimiters :=
  {| email_rate := 0; in_app_rate := 0; system_rate := 0 |}.

Definition initial_world : World :=
  {| reads := 0; draws := 0; sends := 0;
     rate_limiters := initial_rate_limiters;
     priority_queues := initial_queues;
     notifications_total := [];
     sent_count := 0; error_count := 0;
     trace := [] |}.

(** [max_rates] of [_check_rate_limit]. *)
Definition max_rates (t : NotificationType) : Z :=
  match t with
  | EMAIL => 100
  | IN_APP => 1000
  | SYSTEM => 500
  end.

(** [NotificationService._check_rate_limit]. *)
Definition _check_rate_limit (t : NotificationType) : M World bool :=
  r <- gets rate_limiters ;;
  let current_rate := rate_of t r in
  ret (current_rate <? max_rates t).

(** [await queue.put(item)]: waits while the queue is full. *)
Definition queue_put (p : NotificationPriority) (n : Notification) : M World unit :=
  qs <- gets priority_queues ;;
  let q := queue_of p qs in
  if queue_full q then suspend
  else
    modify (set_priority_queues
              (set_queue p {| maxsize := maxsize q; items := items q ++ [n] |} qs)) ;;
    log (EvPut p (id n)).

(** [await queue.get()]: waits while the queue is empty. *)
Definition queue_get (p : NotificationPriority) : M World Notification :=
  qs <- gets priority_queues ;;
  let q := queue_of p qs in
  match items q with
  | [] => suspend
  | n :: rest =>
      modify (set_priority_queues
                (set_queue p {| maxsize := maxsize q; items := rest |} qs)) ;;
      log (EvGet p (id n)) ;;
      ret n
  end.

(** [NotificationService._process_email_notification]. *)
Definition _process_email_notification : M Obj bool :=
  n <- gets self ;;
  in_world (log (EvDeliver EMAIL (id n))) ;;
  try_except send_email (fun _ => ret false).

(** [NotificationService._process_in_app_notification]. *)
Definition _process_in_app_notification : M Obj bool :=
  n <- gets self ;;
  in_world (log (EvDeliver IN_APP (id n))) ;;
  ret true.

(** [NotificationService._process_system_notification]. *)
Definition _process_system_notification : M Obj bool :=
  n <- gets self ;;
  in_world (log (EvDeliver SYSTEM (id n))) ;;
  ret true.

(** [NOTIFICATION_METRICS.labels(type=..., status=..., priority=...).inc()]. *)
Definition metrics_inc (t : NotificationType) (success : bool)
    (p : NotificationPriority) : M World unit :=
  modify (fun w =>
    set_notifications_total
      (notifications_total w ++
       [(type_value t, (if success then "success" else "failure")%string,
         priority_value p)]) w).

(** The body of [NotificationService.send_notification]. Its first test,
    that the argument is a [Notification], holds by typing. *)
Definition send_notification_body (p : NotificationPriority) : M Obj bool :=
  try_except
    (n <- gets self ;;
     admitted <- in_world (_check_rate_limit (notification_type n)) ;;
     if negb admitted then
       in_world (queue_put p n) ;;
       ret false
     else
       success <- match notification_type n with
                  | EMAIL => _process_email_notification
                  | IN_APP => _process_in_app_notification
                  | SYSTEM => _process_system_notification
                  end ;;
       in_world (metrics_inc (notification_type n) success p) ;;
       update_status (if success then SENT else FAILED) None ;;
       ret success)
    (fun e =>
       update_status FAILED (Some (str e)) ;;
       raise e).

(** [NotificationService.send_notification], decorated with
    [RETRY_POLICY] (three attempts). *)
Definition send_notification (p : NotificationPriority) : M Obj bool :=
  retry 2 (send_notification_body p).

(** A call [self.send_notification(notification, priority)] from code
    that holds the notification. *)
Definition call_send_notification (n : Notification) (p : NotificationPriority)
    : M World bool :=
  fun w =>
    let (r, o) := send_notification p {| self := n; world := w |} in
    (r, world o).

(** The inner loop of [process_queued_notifications]:
    [while not queue.empty(): ...]. [fuel] bounds the number of tests of
    the loop condition. *)
Fixpoint drain (fuel : nat) (p : NotificationPriority) : M World unit :=
  match fuel with
  | O => fun w => (Unfinished, w)
  | S k =>
      qs <- gets priority_queues ;;
      let e := queue_empty (queue_of p qs) in
      log (EvEmpty p e) ;;
      if e then ret tt
      else
        n <- queue_get p ;;
        call_send_notification n p ;;
        drain k p
  end.

(** [for priority in ...: body]. *)
Fixpoint for_each {S} (l : list NotificationPriority)
    (body : NotificationPriority -> M S unit) : M S unit :=
  match l with
  | [] => ret tt
  | p :: ps => body p ;; for_each ps body
  end.

(** One pass of the [for] loop over the priorities. *)
Definition scan (fuel : nat) : M World unit :=
  for_each NotificationPriority_members (drain fuel).

(** One iteration of [while True]: the pass and the sleep, or the
    handler's sleep when the pass raised. *)
Definition cycle (fuel : nat) : M World unit :=
  try_except (scan fuel) (fun _ => ret tt).

(** [NotificationService.process_queued_notifications], cut after
    [cycles] iterations of [while True] (the loop itself never ends). *)
Fixpoint process_queued_notifications (cycles fuel : nat) : M World unit :=
  match cycles with
  | O => fun w => (Unfinished, w)
  | S k => cycle fuel ;; process_queued_notifications k fuel
  end.

(* ===================================================================== *)
(** ** controllers/notification_controller.py                             *)
(* ===================================================================== *)

(** A validated [NotificationRequest] (the fields the handler reads). *)
Record NotificationRequest : Type := {
  req_template_name : string;
  req_notification_type : NotificationType;
  req_content : list (string * string);
  req_recipients : list string;
  req_priority : NotificationPriority;
  req_metadata : list (string * PyVal);
  req_scheduled_for : option pydatetime
}.

(** The [JSONResponse] of [create_notification]. *)
Record JSONResponse : Type := {
  status_code : Z;
  resp_notification_id : N;
  resp_status : string;
  resp_scheduled_for : option pydatetime;
  resp_correlation_id : option N;
  resp_created_at : datetime;
  resp_priority : string
}.

(** A task registered with [background_tasks.add_task]:
    [send_notification] applied to a notification and a priority. *)
Definition Task : Type := (Notification * NotificationPriority)%type.

(** [create_notification]: the response, and the background tasks the
    handler registered, which the framework runs once the response has
    been sent. The handler's own request counter and latency histogram
    are write-only and left out. *)
Definition create_notification (request : NotificationRequest)
    : M World (JSONResponse * list Task) :=
  try_except
    (notification <-
       new_Notification
         {| arg_template_name := PyStr (req_template_name request);
            arg_notification_type := req_notification_type request;
            arg_content := PyDict (req_content request);
            arg_recipients := req_recipients request;
            arg_priority := req_priority request;
            arg_metadata := req_metadata request;
            arg_scheduled_for := req_scheduled_for request |} ;;
     later <- match scheduled_for notification with
              | Some scheduled =>
                  now <- utcnow ;;
                  match scheduled with
                  | Naive t => ret (now <? t)
                  | Aware _ => raise compare_TypeError
                  end
              | None => ret false
              end ;;
     outcome <-
       (if later : bool then
          ret (PENDING, [(notification, priority notification)])
        else
          success <- call_send_notification notification (priority notification) ;;
          ret (if success : bool then SENT else FAILED, [])) ;;
     let (status, tasks) := outcome : NotificationStatus * list Task in
     ret ({| status_code := if status_eqb status PENDING then 202 else 200;
             resp_notification_id := id notification;
             resp_status := status_value status;
             resp_scheduled_for := scheduled_for notification;
             resp_correlation_id := correlation_id (metadata notification);
             resp_created_at := created_at notification;
             resp_priority := priority_value (priority notification) |},
          tasks))
    (fun e =>
       match e with
       | ValueError m => raise (HTTPException 400 m)
       | _ => raise (HTTPException 500 "Internal server error")
       end).

(** The framework running the registered tasks in order, each awaited;
    a task that raises ends the run. The result lists the notifications
    as the tasks that ran left them. *)
Fixpoint run_background_tasks (tasks : list Task) (w : World)
    : Outcome unit * list Notification * World :=
  match tasks with
  | [] => (Returned tt, [], w)
  | (n, p) :: rest =>
      match send_notification p {| self := n; world := w |} with
      | (Returned _, o) =>
          let '(r, done, w') := run_background_tasks rest (world o) in
          (r, self o :: done, w')
      | (Raised e, o) => (Raised e, [self o], world o)
      | (Suspended, o) => (Suspended, [self o], world o)
      | (Unfinished, o) => (Unfinished, [self o], world o)
      end
  end.

(** A request served: the handler, then, when it returned a response, the
    background tasks. *)
Definition serve (request : NotificationRequest) (w : World)
    : Outcome JSONResponse * list Notification * World :=
  match create_notification request w with
  | (Returned (resp, tasks), w1) =>
      let '(_, done, w2) := run_background_tasks tasks w1 in
      (Returned resp, done, w2)
  | (Raised e, w1) => (Raised e, [], w1)
  | (Suspended, w1) => (Suspended, [], w1)
  | (Unfinished, w1) => (Unfinished, [], w1)
  end.

End Model.

(* ===================================================================== *)
(** ** Regular expressions, as [re.match] decides them                     *)
(* ===================================================================== *)

(** The constructs the service's pattern uses: character classes,
    concatenation and repetition ([Alt] and [Void] only arise while
    matching). A string is a list of characters; a character outside
    ASCII is in none of the pattern's classes. *)
Inductive regex : Type :=
| Void
| Eps
| Chr (class : ascii -> bool)
| Cat (r1 r2 : regex)
| Alt (r1 r2 : regex)
| Star (r : regex).

(** [r+]. *)
Definition plus (r : regex) : regex := Cat r (Star r).

Fixpoint nullable (r : regex) : bool :=
  match r with
  | Void => false
  | Eps => true
  | Chr _ => false
  | Cat r1 r2 => nullable r1 && nullable r2
  | Alt r1 r2 => nullable r1 || nullable r2
  | Star _ => true
  end.

(** What is left of [r] to match once the character [a] has been read. *)
Fixpoint deriv (a : ascii) (r : regex) : regex :=
  match r with
  | Void => Void
  | Eps => Void
  | Chr class => if class a then Eps else Void
  | Cat r1 r2 =>
      if nullable r1 then Alt (Cat (deriv a r1) r2) (deriv a r2)
      else Cat (deriv a r1) r2
  | Alt r1 r2 => Alt (deriv a r1) (deriv a r2)
  | Star r0 => Cat (deriv a r0) (Star r0)
  end.

(** Some way of matching [r] consumes exactly [s]. *)
Fixpoint fullmatch (r : regex) (s : list ascii) : bool :=
  match s with
  | [] => nullable r
  | a :: s' => fullmatch (deriv a r) s'
  end.

(** [re.match("^" + r + "$", s)] is not [None]: without [re.MULTILINE],
    [$] matches at the end of the string and also just before a newline
    that ends the string. *)
Definition re_match (r : regex) (s : string) : bool :=
  let l := list_ascii_of_string s in
  fullmatch r l
  || match rev l with
     | c :: before => Ascii.eqb c "010"%char && fullmatch r (rev before)
     | [] => false
     end.

Definition in_range (lo hi : nat) (c : ascii) : bool :=
  Nat.leb lo (nat_of_ascii c) && Nat.leb (nat_of_ascii c) hi.

(** [[a-zA-Z]]. *)
Definition alpha (c : ascii) : bool :=
  in_range 97 122 c || in_range 65 90 c.

(** [[a-zA-Z0-9]]. *)
Definition alnum (c : ascii) : bool :=
  alpha c || in_range 48 57 c.

(** [[a-zA-Z0-9._%+-]]. *)
Definition local_class (c : ascii) : bool :=
  alnum c || Ascii.eqb c "." || Ascii.eqb c "_" || Ascii.eqb c "%"
  || Ascii.eqb c "+" || Ascii.eqb c "-".

(** [[a-zA-Z0-9.-]]. *)
Definition domain_class (c : ascii) : bool :=
  alnum c || Ascii.eqb c "." || Ascii.eqb c "-".

(** [email_pattern], between its [^] and its [$]:
    [[a-zA-Z0-9._%+-]+@[a-zA-Z0-9.-]+\.[a-zA-Z]{2,}]. *)
Definition email_pattern : regex :=
  Cat (plus (Chr local_class))
    (Cat (Chr (Ascii.eqb "@"))
       (Cat (plus (Chr domain_class))
          (Cat (Chr (Ascii.eqb "."))
             (Cat (Chr alpha) (Cat (Chr alpha) (Star (Chr alpha))))))).

(** [re.match(email_pattern, recipient)] is not [None]. *)
Definition email_match (recipient : string) : bool :=
  re_match email_pattern recipient.

(* ===================================================================== *)
(** ** The validators of recipients and template names                    *)
(* ===================================================================== *)

(** [EmailService._validate_recipients]. *)
Definition _validate_recipients (recipients : list string) : list string :=
  filter email_match recipients.

(** The [for] loop of [NotificationRequest.validate_recipients]. *)
Fixpoint check_email_formats (v : list string) : Outcome unit :=
  match v with
  | [] => Returned tt
  | recipient :: rest =>
      if negb (email_match recipient) then
        Raised (ValueError (String.append "Invalid email format: " recipient))
      else check_email_formats rest
  end.

(** [NotificationRequest.validate_recipients]. *)
Definition validate_recipients (v : list string) : Outcome (list string) :=
  if Nat.eqb (List.length v) 0 then
    Raised (ValueError "Recipients list cannot be empty")
  else if Nat.ltb 1000 (List.length v) then
    Raised (ValueError "Too many recipients")
  else
    match check_email_formats v with
    | Returned _ => Returned v
    | Raised e => Raised e
    | Suspended => Suspended
    | Unfinished => Unfinished
    end.

(** [NotificationRequest.validate_template_name]. The length of a string
    is its number of characters. *)
Definition validate_template_name (v : PyVal) : Outcome PyVal :=
  if negb (truthy v) || negb (isinstance_str v) then
    Raised (ValueError "Invalid template name")
  else
    match v with
    | PyStr s =>
        if Nat.ltb 100 (String.length s) then
          Raised (ValueError "Template name too long")
        else Returned v
    | _ => Returned v
    end.


(* ===================================================================== *)
(** ** utils/templates.py                                                 *)
(* ===================================================================== *)

(** The values a template context can hold. [PyOther] is an object of
    any other type, with the text of its [type(...)]. Values are finite
    trees, nested less deep than the interpreter's recursion limit. *)
#[warnings="-register-all"] Inductive PyObj : Type :=
| ONone
| OBool (b : bool)
| OInt (z : Z)
| OFloat (bits : Z)
| OStr (s : string)
| OList (l : list PyObj)
| OTuple (l : list PyObj)
| ODict (d : list (PyObj * PyObj))
| OOther (type_repr : string).

Definition is_OStr (v : PyObj) : bool :=
  match v with OStr _ => true | _ => false end.

(** [validate_value] of [TemplateManager._validate_context]: the first
    offence met, in iteration order, raises. *)
Fixpoint validate_value (value : PyObj) : Outcome unit :=
  match value with
  | ODict d =>
      (fix items (d : list (PyObj * PyObj)) : Outcome unit :=
         match d with
         | [] => Returned tt
         | (k, v) :: rest =>
             if negb (is_OStr k) then
               Raised (ValueError "Dictionary keys must be strings")
             else
               match validate_value v with
               | Returned _ => items rest
               | r => r
               end
         end) d
  | OList l | OTuple l =>
      (fix each (l : list PyObj) : Outcome unit :=
         match l with
         | [] => Returned tt
         | item :: rest =>
             match validate_value item with
             | Returned _ => each rest
             | r => r
             end
         end) l
  | OOther type_repr =>
      Raised (ValueError (String.append "Invalid context value type: " type_repr))
  | _ => Returned tt
  end.

(** [TemplateManager._validate_context]. *)
Definition _validate_context (context : PyObj) : Outcome unit :=
  match context with
  | ODict _ => validate_value context
  | _ => Raised (ValueError "Context must be a dictionary")
  end.

(** [s.replace(c, by)] for a one-character [c]. *)
Fixpoint replace_char (c : ascii) (by_ : string) (s : string) : string :=
  match s with
  | EmptyString => EmptyString
  | String a rest =>
      if Ascii.eqb a c then String.append by_ (replace_char c by_ rest)
      else String a (replace_char c by_ rest)
  end.

(** [html.escape(s)] with [quote=True]: five replacements, the ampersand
    first. *)
Definition html_escape (s : string) : string :=
  replace_char "039" "&#x27;"
    (replace_char "034" "&quot;"
       (replace_char ">" "&gt;"
          (replace_char "<" "&lt;"
             (replace_char "&" "&amp;" s)))).

(** [TemplateManager._html_escape_filter]. *)
Definition _html_escape_filter (value : string) : string := html_escape value.


(** *** Loading and rendering templates *)

Definition TEMPLATE_CACHE_TTL : Z := 3600.
Definition MAX_TEMPLATE_SIZE : Z := 1048576.

(** A compiled Jinja template, known by the text it was compiled from. *)
Record Template : Type := { compiled_from : string }.

(** The attributes of a [TemplateManager] that its methods read and
    write. Times are in seconds. *)
Record TemplateManager : Type := {
  _template_cache : list (string * Template);
  _cache_timestamps : list (string * Z);
  _template_versions : list (string * string);
  _cache_ttl : Z
}.

Definition set_template_cache (c : list (string * Template)) (tm : TemplateManager)
  : TemplateManager :=
  {| _template_cache := c; _cache_timestamps := _cache_timestamps tm;
     _template_versions := _template_versions tm; _cache_ttl := _cache_ttl tm |}.

Definition set_cache_timestamps (c : list (string * Z)) (tm : TemplateManager)
  : TemplateManager :=
  {| _template_cache := _template_cache tm; _cache_timestamps := c;
     _template_versions := _template_versions tm; _cache_ttl := _cache_ttl tm |}.

Definition set_template_versions (c : list (string * string)) (tm : TemplateManager)
  : TemplateManager :=
  {| _template_cache := _template_cache tm;
     _cache_timestamps := _cache_timestamps tm;
     _template_versions := c; _cache_ttl := _cache_ttl tm |}.

(** [TemplateManager.__init__]: [cache_ttl or TEMPLATE_CACHE_TTL]. *)
Definition new_TemplateManager (cache_ttl : option Z) : TemplateManager :=
  {| _template_cache := []; _cache_timestamps := []; _template_versions := [];
     _cache_ttl := match cache_ttl with
                   | Some t => if t =? 0 then TEMPLATE_CACHE_TTL else t
                   | None => TEMPLATE_CACHE_TTL
                   end |}.

(** What the template directory and the Jinja environment answer. A
    template file is addressed by notification type and template name. *)
Record TemplateEnv : Type := {
  template_path : NotificationType -> string -> string;  (* [str(template_path)] *)
  is_file : NotificationType -> string -> bool;
  st_size : NotificationType -> string -> Z;
  read_text : NotificationType -> string -> exn + string;
  parse : string -> option exn;            (* [self._jinja_env.parse]: what it raises *)
  sandbox_parse : string -> option exn;    (* [sandbox_env.parse]: what it raises *)
  from_string : string -> exn + Template;
  render : Template -> PyObj -> bool -> NotificationType -> exn + string;
  _compute_template_hash : string -> string;
  is_dir : NotificationType -> bool;
  glob : NotificationType -> list string   (* the stems of [type_dir.glob("*.html")] *)
}.

(** [NameError] and [FileNotFoundError] are exceptions of classes no
    handler of the service singles out: an [Exception] with its message. *)
Definition NameError (name : string) : exn :=
  Exception (String.append "name '" (String.append name "' is not defined")).

Definition FileNotFoundError (msg : string) : exn := Exception msg.

(** [time.time()] in [utils/templates.py]. The module uses the name
    [time] and never imports it: looking it up raises [NameError]. *)
Definition time_time {S} : M S Z := raise (NameError "time").

(** The outcome of a call into the file system or Jinja. *)
Definition call {S A} (r : exn + A) : M S A :=
  match r with
  | inl e => raise e
  | inr a => ret a
  end.

(** A pure function that may raise, run as a step. *)
Definition step {S A} (r : Outcome A) : M S A := fun s => (r, s).

(** [f"{error}"] for an [Optional[str]]. *)
Definition format_optional (error : option string) : string :=
  match error with Some s => s | None => "None"%string end.

Definition NotificationType_members : list NotificationType :=
  [EMAIL; IN_APP; SYSTEM].

Section TemplateModel.

Variable tenv : TemplateEnv.

(** [TemplateManager.validate_template] without [required_variables],
    as [load_template] calls it. *)
Definition validate_template (template_content : string) : bool * option string :=
  if MAX_TEMPLATE_SIZE <? Z.of_nat (String.length template_content) then
    (false, Some "Template exceeds maximum size limit"%string)
  else
    match parse tenv template_content with
    | Some e => (false, Some (str e))
    | None =>
        match sandbox_parse tenv template_content with
        | Some e => (false, Some (str e))
        | None => (true, None)
        end
    end.

(** [TemplateManager.load_template]. *)
Definition load_template (template_name : string)
    (notification_type : NotificationType) (bypass_cache : bool)
  : M TemplateManager Template :=
  let cache_key :=
    String.append (type_value notification_type) (String.append ":" template_name) in
  tm <- gets (fun tm => tm) ;;
  hit <- (if negb bypass_cache && dict_mem cache_key (_template_cache tm) then
            now <- time_time ;;
            ret (if now <? match dict_get cache_key (_cache_timestamps tm) with
                           | Some t => t
                           | None => 0
                           end + _cache_ttl tm
                 then dict_get cache_key (_template_cache tm)
                 else None)
          else ret None) ;;
  match hit with
  | Some template => ret template
  | None =>
      let path := template_path tenv notification_type template_name in
      try_except
        ((if negb (is_file tenv notification_type template_name) then
            raise (FileNotFoundError (String.append "Template not found: " path))
          else ret tt) ;;
         (if MAX_TEMPLATE_SIZE <? st_size tenv notification_type template_name then
            raise (ValueError (String.append "Template exceeds size limit: " path))
          else ret tt) ;;
         template_content <- call (read_text tenv notification_type template_name) ;;
         let (validation_result, error) := validate_template template_content in
         (if negb validation_result then
            raise (ValueError (String.append "Template validation failed: "
                                 (format_optional error)))
          else ret tt) ;;
         template <- call (from_string tenv template_content) ;;
         modify (fun tm =>
                   set_template_cache
                     (dict_set cache_key template (_template_cache tm)) tm) ;;
         now <- time_time ;;
         modify (fun tm =>
                   set_cache_timestamps
                     (dict_set cache_key now (_cache_timestamps tm)) tm) ;;
         modify (fun tm =>
                   set_template_versions
                     (dict_set cache_key
                        (_compute_template_hash tenv template_content)
                        (_template_versions tm)) tm) ;;
         ret template)
        (fun e => raise e)
  end.

(** [TemplateManager.render_template]. *)
Definition render_template (template_name : string)
    (notification_type : NotificationType) (context : PyObj) (escape_html : bool)
  : M TemplateManager string :=
  try_except
    (step (_validate_context context) ;;
     template <- load_template template_name notification_type false ;;
     rendered_content <-
       call (render tenv template context escape_html notification_type) ;;
     ret (if escape_html then _html_escape_filter rendered_content
          else rendered_content))
    (fun e => raise e).

(** The inner loop of [reload_templates], over the template files of one
    type. *)
Fixpoint reload_files (notification_type : NotificationType)
    (template_names : list string) (reload_status : list (string * bool))
  : M TemplateManager (list (string * bool)) :=
  match template_names with
  | [] => ret reload_status
  | template_name :: rest =>
      loaded <- try_except
                  (load_template template_name notification_type true ;; ret true)
                  (fun _ => ret false) ;;
      reload_files notification_type rest
        (dict_set template_name loaded reload_status)
  end.

(** The outer loop of [reload_templates], over the notification types. *)
Fixpoint reload_types (types : list NotificationType)
    (reload_status : list (string * bool))
  : M TemplateManager (list (string * bool)) :=
  match types with
  | [] => ret reload_status
  | notification_type :: rest =>
      if negb (is_dir tenv notification_type) then reload_types rest reload_status
      else
        reload_status' <-
          reload_files notification_type (glob tenv notification_type) reload_status ;;
        reload_types rest reload_status'
  end.

(** [TemplateManager.reload_templates]. *)
Definition reload_templates : M TemplateManager (list (string * bool)) :=
  try_except
    (modify (set_template_cache []) ;;
     modify (set_cache_timestamps []) ;;
     reload_types NotificationType_members [])
    (fun e => raise e).

(** [json] values as the template context holds them. *)
Definition context_of (v : PyVal) : PyObj :=
  match v with
  | PyNone => ONone
  | PyBool b => OBool b
  | PyInt z => OInt z
  | PyStr s => OStr s
  | PyList l => OList (map OStr l)
  | PyDict d => ODict (map (fun kv => (OStr (fst kv), OStr (snd kv))) d)
  end.

(** The steps of [EmailService.send_email] between the type check and
    [notification.update_status], on the fields of the notification they
    read: the recipients are filtered and must leave one at least, the
    message is built, the template is rendered with the content as
    context, and the message goes to the SMTP server, whose answer is
    [smtp]. *)
Definition email_steps (smtp : Transport) (template_name : string)
    (notification_type : NotificationType) (content : PyVal)
    (recipients : list string) : M TemplateManager unit :=
  let recipients := _validate_recipients recipients in
  if Nat.eqb (List.length recipients) 0 then
    raise (ValueError "No valid recipients provided")
  else
    html_content <-
      render_template template_name notification_type (context_of content) true ;;
    match smtp with
    | Delivered => ret tt
    | Fails e => raise e
    end.

End TemplateModel.

(* ===================================================================== *)
(** ** app.py                                                             *)
(* ===================================================================== *)

(** The dictionary the [send_notification] endpoint returns. *)
Record SendResult : Type := {
  res_notification_id : N;
  res_status : string;
  res_success : bool
}.

(** The [POST /api/v1/notifications] endpoint of [app.py]. The response
    is built from the notification as the service call left it. *)
Definition app_send_notification (env : Env) (notification : Notification)
  : M World SendResult :=
  fun w =>
    match send_notification env (priority notification)
            {| self := notification; world := w |} with
    | (Returned success, o) =>
        (Returned {| res_notification_id := id (self o);
                     res_status := status_value (status (self o));
                     res_success := success |},
         world o)
    | (Raised e, o) =>
        (Raised (HTTPException 500
                   (String.append "Failed to send notification: " (str e))),
         world o)
    | (Suspended, o) => (Suspended, world o)
    | (Unfinished, o) => (Unfinished, world o)
    end.


(* ===================================================================== *)
(** ** Definitions used to state the properties                           *)
(* ===================================================================== *)

(** The transition table as the specification words it: the statuses
    allowed after each status. *)
Definition transition_table (current requested : NotificationStatus) : bool :=
  match current, requested with
  | PENDING, SENT | PENDING, FAILED | PENDING, CANCELLED => true
  | FAILED, PENDING | FAILED, CANCELLED => true
  | SENT, FAILED => true
  | _, _ => false
  end.

(** The error an invalid transition raises. *)
Definition InvalidTransition (current requested : NotificationStatus) : exn :=
  ValueError
    (String.append "Invalid status transition from "
       (String.append (status_value current)
          (String.append " to " (status_value requested)))).

(** The value under ["status_history"] is a list: [update_status] can
    append to it. *)
Definition history_ok (m : Metadata) : bool :=
  match get_status_history m with
  | AList _ _ => true
  | NotAList _ => false
  end.

(** How the last step of a valid [update_status] ends: the history is
    appended to, or [+] raises on a value that is not a list. *)
Definition history_outcome (m : Metadata) : Outcome unit :=
  match get_status_history m with
  | AList _ _ => Returned tt
  | NotAList v => Raised (concat_TypeError v)
  end.

(** [retry_count] equals the length of the error history. *)
Definition counts_errors (n : Notification) : Prop :=
  retry_count n = List.length (error_messages n).

(** The arguments [__post_init__] rejects, [now] being the clock reading
    it compares [scheduled_for] with. *)
Definition rejected (a : NotificationArgs) (now : datetime) : bool :=
  negb (truthy (arg_template_name a)) || negb (isinstance_str (arg_template_name a))
  || Nat.eqb (List.length (arg_recipients a)) 0
  || negb (isinstance_dict (arg_content a))
  || match arg_scheduled_for a with
     | Some (Naive t) => t <? now
     | Some (Aware _) => true
     | None => false
     end.

(** The notifications taken from the queues, in order: the [EvGet]
    events of a trace. *)
Fixpoint dequeued (tr : list Event) : list (NotificationPriority * N) :=
  match tr with
  | [] => []
  | EvGet p n :: tr' => (p, n) :: dequeued tr'
  | _ :: tr' => dequeued tr'
  end.

(** The channels asked to deliver, in order: the [EvDeliver] events. *)
Fixpoint deliveries (tr : list Event) : list (NotificationType * N) :=
  match tr with
  | [] => []
  | EvDeliver t n :: tr' => (t, n) :: deliveries tr'
  | _ :: tr' => deliveries tr'
  end.

(** The rate limiter admits type [t] in world [w]. *)
Definition admits (t : NotificationType) (w : World) : bool :=
  rate_of t (rate_limiters w) <? max_rates t.

(** What a call on a notification never changes: the rate limiters, the
    notification's type and id, the sequence of dequeued notifications. *)
Definition frame_weak (o o' : Obj) : Prop :=
  rate_limiters (world o') = rate_limiters (world o) /\
  notification_type (self o') = notification_type (self o) /\
  id (self o') = id (self o) /\
  dequeued (trace (world o')) = dequeued (trace (world o)).

(** The same, and the queues too. *)
Definition frame_full (o o' : Obj) : Prop :=
  frame_weak o o' /\ priority_queues (world o') = priority_queues (world o).

(** What [send_notification] keeps: the weak frame, and the queues when
    the rate limiter admits the notification. *)
Definition frame_send (o o' : Obj) : Prop :=
  frame_weak o o' /\
  (admits (notification_type (self o)) (world o) = true ->
   priority_queues (world o') = priority_queues (world o)).

(** A computation keeps a relation between the state it starts from and
    the state it reaches, however it ends. *)
Definition preserves {St A} (R : St -> St -> Prop) (c : M St A) : Prop :=
  forall s, R s (snd (c s)).

(** Calls of [send_notification] made one after another, whatever each
    of them does; the outcomes are collected. *)
Fixpoint send_all (env : Env) (l : list Task) (w : World)
    : list (Outcome bool) * World :=
  match l with
  | [] => ([], w)
  | (n, p) :: rest =>
      let (r, w1) := call_send_notification env n p w in
      let (rs, w2) := send_all env rest w1 in
      (r :: rs, w2)
  end.



(** The rate limiter admits the notification the call is about. *)
Definition admitted (o : Obj) : Prop :=
  admits (notification_type (self o)) (world o) = true.




(** Where an admitted email ends, from the status it starts in: every
    status but Cancelled ends Failed. *)
Definition email_final_status (s : NotificationStatus) : NotificationStatus :=
  match s with
  | CANCELLED => CANCELLED
  | _ => FAILED
  end.

(** A queue within its capacity, as [asyncio.Queue] keeps it. *)
Definition within_capacity (q : Queue) : Prop :=
  maxsize q <= 0 \/ Z.of_nat (List.length (items q)) <= maxsize q.

(** The head of a list moved to its end. *)
Definition rotate {A} (l : list A) : list A :=
  match l with
  | [] => []
  | x :: rest => rest ++ [x]
  end.

(** Each entry of the error history records its own position: the
    recorded retry counts are 0, 1, 2, ... up to [retry_count]. *)
Definition indexed_history (n : Notification) : Prop :=
  map err_retry_count (error_messages n) = seq 0 (retry_count n).

(** The messages of the audit trail's entries for a transition to
    Failed that carried a message. *)
Fixpoint failed_errors (h : list StatusChange) : list string :=
  match h with
  | [] => []
  | c :: h' =>
      match sc_error c with
      | Some m =>
          if String.eqb (sc_status c) (status_value FAILED)
          then m :: failed_errors h' else failed_errors h'
      | None => failed_errors h'
      end
  end.

(** The audit trail in [metadata] agrees with the notification: what is
    under ["status_history"] is a list of status changes only (nothing of
    the caller's), its last entry names the current status (a
    notification without entries is Pending), and the error history
    holds the messages of its Failed entries, in order. *)
Definition audit_trail (n : Notification) : Prop :=
  exists entries,
    get_status_history (metadata n) = AList [] entries /\
    last (map sc_status entries) (status_value PENDING) = status_value (status n) /\
    map err_message (error_messages n) = failed_errors entries.

(** A clock that never goes back. *)
Definition monotone_clock (env : Env) : Prop :=
  forall i j, (i <= j)%nat -> utcnow_at env i <= utcnow_at env j.

(** The timestamps of a notification are in order and not ahead of the
    clock: the failures are recorded chronologically, after the creation
    and not later than the next clock reading, and the last update is not
    earlier than the creation. *)
Definition chronological (env : Env) (o : Obj) : Prop :=
  StronglySorted Z.le (map err_timestamp (error_messages (self o))) /\
  Forall (fun t => created_at (self o) <= t /\ t <= utcnow_at env (reads (world o)))
    (map err_timestamp (error_messages (self o))) /\
  created_at (self o) <= utcnow_at env (reads (world o)) /\
  created_at (self o) <= updated_at (self o).

(** The strings a regular expression describes. *)
Inductive lang : regex -> list ascii -> Prop :=
| lang_eps : lang Eps []
| lang_chr class a : class a = true -> lang (Chr class) [a]
| lang_cat r1 r2 s1 s2 : lang r1 s1 -> lang r2 s2 -> lang (Cat r1 r2) (s1 ++ s2)
| lang_alt_l r1 r2 s : lang r1 s -> lang (Alt r1 r2) s
| lang_alt_r r1 r2 s : lang r2 s -> lang (Alt r1 r2) s
| lang_star_nil r : lang (Star r) []
| lang_star_app r s1 s2 : lang r s1 -> lang (Star r) s2 -> lang (Star r) (s1 ++ s2).

(** An email address as the pattern sees it: a local part, [@], a
    domain, a dot and a top-level name of at least two letters. *)
Definition email_shape (l : list ascii) : Prop :=
  exists local domain tld,
    l = local ++ ["@"%char] ++ domain ++ ["."%char] ++ tld /\
    local <> [] /\ forallb local_class local = true /\
    domain <> [] /\ forallb domain_class domain = true /\
    (2 <= List.length tld)%nat /\ forallb alpha tld = true.




(** The character-by-character reading of [html.escape]. *)
Definition escape_char (a : ascii) : string :=
  if Ascii.eqb a "&" then "&amp;"
  else if Ascii.eqb a "<" then "&lt;"
  else if Ascii.eqb a ">" then "&gt;"
  else if Ascii.eqb a "034" then "&quot;"
  else if Ascii.eqb a "039" then "&#x27;"
  else String a EmptyString.

Fixpoint escape_each (s : string) : string :=
  match s with
  | EmptyString => EmptyString
  | String a rest => String.append (escape_char a) (escape_each rest)
  end.

(** A character that opens or closes markup or an attribute value. *)
Definition markup_char (a : ascii) : bool :=
  Ascii.eqb a "<" || Ascii.eqb a ">" || Ascii.eqb a "034" || Ascii.eqb a "039".

Fixpoint has_markup (s : string) : bool :=
  match s with
  | EmptyString => false
  | String a rest => markup_char a || has_markup rest
  end.


(** The key under which [load_template] caches a template. *)
Definition cache_key (notification_type : NotificationType) (template_name : string)
  : string :=
  String.append (type_value notification_type) (String.append ":" template_name).

(** A template file that passes every check of [load_template]: it
    exists, is within the size limit, can be read, parses in both
    environments and compiles to [template]. *)
Definition loadable (tenv : TemplateEnv) (notification_type : NotificationType)
    (template_name : string) (template : Template) : Prop :=
  is_file tenv notification_type template_name = true /\
  st_size tenv notification_type template_name <= MAX_TEMPLATE_SIZE /\
  exists template_content,
    read_text tenv notification_type template_name = inr template_content /\
    Z.of_nat (String.length template_content) <= MAX_TEMPLATE_SIZE /\
    parse tenv template_content = None /\
    sandbox_parse tenv template_content = None /\
    from_string tenv template_content = inr template.

(* ===================================================================== *)
(** ** Concrete inputs                                                    *)
(* ===================================================================== *)

(** A clock that advances one microsecond per reading, identifiers
    counted from 0, and an email transport that always delivers. *)
Definition sample_env : Env :=
  {| utcnow_at := fun k => Z.of_nat k;
     uuid4_at := fun k => N.of_nat k;
     transport_at := fun _ => Delivered |}.

(** A freshly created, Pending notification of type [t] with id [i]. *)
Definition pending_notification (t : NotificationType) (i : N) : Notification :=
  {| template_name := PyStr "welcome_email";
     notification_type := t;
     content := PyDict [("user_name", "John Doe")%string];
     recipients := ["john@example.com"%string];
     priority := HIGH;
     metadata := metadata_tracking i HIGH t empty_metadata;
     scheduled_for := None;
     id := i;
     status := PENDING;
     created_at := 0;
     updated_at := 0;
     retry_count := 0%nat;
     error_messages := [] |}.

(** That notification in the service as constructed. *)
Definition pending_call (t : NotificationType) : Obj :=
  {| self := pending_notification t 0; world := initial_world |}.

(** The service with its Urgent queue filled to capacity. *)
Definition urgent_full_world : World :=
  set_priority_queues
    (set_queue URGENT
       {| maxsize := 1000; items := repeat (pending_notification IN_APP 0) 1000 |}
       initial_queues)
    initial_world.


(** An environment whose clock reads [t] at every reading. *)
Definition frozen_env (t : datetime) : Env :=
  {| utcnow_at := fun _ => t;
     uuid4_at := fun k => N.of_nat k;
     transport_at := fun _ => Delivered |}.

(** One hour, in microseconds. *)
Definition one_hour : Z := 3600 * 1000000.

(** An in-app request scheduled one hour after the epoch of
    [sample_env]'s clock. *)
Definition scheduled_request : NotificationRequest :=
  {| req_template_name := "welcome_email";
     req_notification_type := IN_APP;
     req_content := [("user_name", "John Doe")%string];
     req_recipients := ["john@example.com"%string];
     req_priority := HIGH;
     req_metadata := [];
     req_scheduled_for := Some (Naive one_hour) |}.

(** An in-app notification whose caller put a string under the metadata
    key ["status_history"]. *)
Definition imported_notification : Notification :=
  set_metadata
    (metadata_tracking 0 HIGH IN_APP
       {| user_entries := [("status_history"%string, PyStr "imported")];
          correlation_id := None;
          source_service := None;
          priority_level := None;
          md_notification_type := None;
          last_status_change := None;
          status_history := [] |})
    (pending_notification IN_APP 0).

(** The arguments of an email whose [scheduled_for] is timezone-aware and
    one hour in the past of a clock that reads two hours. *)
Definition aware_args : NotificationArgs :=
  {| arg_template_name := PyStr "welcome_email";
     arg_notification_type := EMAIL;
     arg_content := PyDict [("user_name", "John Doe")%string];
     arg_recipients := ["john@example.com"%string];
     arg_priority := HIGH;
     arg_metadata := [];
     arg_scheduled_for := Some (Aware one_hour) |}.

(** The service with its email counter at the limit of 100 and two
    emails waiting in the High queue. *)
Definition throttled_world : World :=
  {| reads := 0; draws := 0; sends := 0;
     rate_limiters := {| email_rate := 100; in_app_rate := 0; system_rate := 0 |};
     priority_queues :=
       set_queue HIGH
         {| maxsize := 2000;
            items := [pending_notification EMAIL 1; pending_notification EMAIL 2] |}
         initial_queues;
     notifications_total := [];
     sent_count := 0; error_count := 0;
     trace := [] |}.

(** A request whose [scheduled_for] is the epoch, served on a clock that
    reads one hour. *)
Definition overdue_request : NotificationRequest :=
  {| req_template_name := "welcome_email";
     req_notification_type := IN_APP;
     req_content := [("user_name", "John Doe")%string];
     req_recipients := ["john@example.com"%string];
     req_priority := HIGH;
     req_metadata := [];
     req_scheduled_for := Some (Naive 0) |}.

(** A template directory with one email template, [welcome_email], that
    Jinja parses and compiles. *)
Definition sample_templates : TemplateEnv :=
  {| template_path := fun t name =>
       String.append "templates/"
         (String.append (type_value t) (String.append "/" (String.append name ".html")));
     is_file := fun t name => type_eqb t EMAIL && String.eqb name "welcome_email";
     st_size := fun _ _ => 30;
     read_text := fun _ _ => inr "<p>Hello {{ user_name }}</p>"%string;
     parse := fun _ => None;
     sandbox_parse := fun _ => None;
     from_string := fun template_content => inr {| compiled_from := template_content |};
     render := fun _ _ _ _ => inr "<p>Hello John Doe</p>"%string;
     _compute_template_hash := fun template_content => template_content;
     is_dir := fun t => type_eqb t EMAIL;
     glob := fun t => if type_eqb t EMAIL then ["welcome_email"%string] else [] |}.

(* ===================================================================== *)
(** ** Properties of the Notification state machine                       *)
(* ===================================================================== *)

Ltac run_monad :=
  unfold bind, ret, raise, suspend, gets, modify, try_except, in_world,
    update_self, utcnow, uuid4, log; simpl.

Lemma concat_message_nonempty (v : PyVal) :
  String.eqb (concat_message v) EmptyString = false.
Proof. destruct v; reflexivity. Qed.

(** Appending to the history leaves a list under the key, the caller's
    items first. *)
Lemma get_status_history_change (t_last t_entry : datetime) (s : NotificationStatus)
    (error_message : option string) (m : Metadata) :
  get_status_history (metadata_status_change t_last t_entry s error_message m)
  = match get_status_history m with
    | NotAList v => NotAList v
    | AList caller_items entries =>
        AList caller_items
          (entries ++
           [ {| sc_status := status_value s;
                sc_timestamp := t_entry;
                sc_error := if truthy_opt error_message then error_message
                            else None |} ])
    end.
Proof.
  unfold get_status_history, metadata_status_change. simpl.
  destruct (dict_get "status_history" (user_entries m)) as [[] |]; reflexivity.
Qed.

Ltac history_steps Hv :=
  repeat (rewrite ?get_status_history_change, ?Hv, ?concat_message_nonempty; simpl).

Section Properties.

Variable env : Env.

Lemma status_in_table (current requested : NotificationStatus) :
  status_in requested (valid_transitions current) = transition_table current requested.
Proof. destruct current, requested; reflexivity. Qed.

(** An invalid request raises before anything is written. *)
Lemma update_status_invalid (o : Obj) (s : NotificationStatus) (m : option string) :
  status_in s (valid_transitions (status (self o))) = false ->
  update_status env s m o = (Raised (InvalidTransition (status (self o)) s), o).
Proof.
  intros H. unfold update_status, InvalidTransition. run_monad.
  rewrite H. reflexivity.
Qed.

(** What a valid request leaves behind, field by field, whether its
    last step, the update of the metadata, returns or raises. The
    metadata is written only when it returns. *)
Lemma update_status_valid (o : Obj) (s : NotificationStatus) (m : option string) :
  status_in s (valid_transitions (status (self o))) = true ->
  exists o',
    update_status env s m o = (history_outcome (metadata (self o)), o') /\
    status (self o') = s /\
    updated_at (self o') = utcnow_at env (reads (world o)) /\
    created_at (self o') = created_at (self o) /\
    id (self o') = id (self o) /\
    notification_type (self o') = notification_type (self o) /\
    priority (self o') = priority (self o) /\
    rate_limiters (world o') = rate_limiters (world o) /\
    priority_queues (world o') = priority_queues (world o) /\
    trace (world o') = trace (world o) /\
    sends (world o') = sends (world o) /\
    (if truthy_opt m && status_eqb s FAILED then
       error_messages (self o') =
         error_messages (self o) ++
         [ {| err_timestamp := utcnow_at env (S (reads (world o)));
              err_message := match m with Some x => x | None => EmptyString end;
              err_retry_count := retry_count (self o) |} ] /\
       retry_count (self o') = S (retry_count (self o))
     else
       error_messages (self o') = error_messages (self o) /\
       retry_count (self o') = retry_count (self o)) /\
    user_entries (metadata (self o')) = user_entries (metadata (self o)) /\
    (history_ok (metadata (self o)) = false ->
     metadata (self o') = metadata (self o)).
Proof.
  intros H. unfold update_status, history_outcome, history_ok. run_monad.
  rewrite H. simpl.
  destruct (truthy_opt m && status_eqb s FAILED); simpl;
    destruct (get_status_history (metadata (self o))); simpl;
    eexists; (split; [reflexivity | simpl; repeat split; try reflexivity]);
    discriminate.
Qed.

(** The caller's entries are never written, so whether the history can be
    appended to never changes. *)
Lemma update_status_user_entries (o : Obj) (s : NotificationStatus)
    (m : option string) :
  user_entries (metadata (self (snd (update_status env s m o))))
  = user_entries (metadata (self o)).
Proof.
  destruct (status_in s (valid_transitions (status (self o)))) eqn:V.
  - destruct (update_status_valid o s m V) as (o' & E & H).
    rewrite E. simpl. apply H.
  - unfold update_status. run_monad. rewrite V. reflexivity.
Qed.

(** C1 on the code. A request that is in the transition table does not
    always succeed. The last step of [update_status] appends to what it
    finds under ["status_history"] in the metadata, the caller's
    dictionary; when the caller put a value there that is not a list, the
    append raises [TypeError], after the status, [updated_at] and the
    error bookkeeping have been written: the call fails, not with the
    invalid-transition error, and the notification is not as before. *)
Theorem valid_transition_raises_on_caller_history (o : Obj)
    (s : NotificationStatus) (m : option string) (v : PyVal) :
  transition_table (status (self o)) s = true ->
  get_status_history (metadata (self o)) = NotAList v ->
  exists o',
    update_status env s m o = (Raised (concat_TypeError v), o') /\
    status (self o') = s /\
    status (self o') <> status (self o) /\
    updated_at (self o') = utcnow_at env (reads (world o)) /\
    metadata (self o') = metadata (self o) /\
    (s = FAILED -> truthy_opt m = true ->
     retry_count (self o') = S (retry_count (self o))).
Proof.
  intros T Hv. rewrite <- status_in_table in T.
  destruct (update_status_valid o s m T)
    as (o' & E & Hs & Hu & _ & _ & _ & _ & _ & _ & _ & _ & He & _ & Hm).
  unfold history_outcome in E. rewrite Hv in E.
  exists o'. split; [exact E |]. split; [exact Hs |].
  split.
  { rewrite Hs. intros ->. rewrite status_in_table in T.
    destruct (status (self o)); discriminate T. }
  split; [exact Hu |]. split.
  { apply Hm. unfold history_ok. rewrite Hv. reflexivity. }
  intros -> Tm. rewrite Tm in He. simpl in He. apply He.
Qed.

(** The transition table, where the metadata lets the history be
    appended to: [update_status] succeeds exactly when the requested
    status is in the
    transition table; on success the status is the requested one and
    [updated_at] is the clock reading taken by the call; on an invalid
    pair the call raises the invalid-transition [ValueError] and the
    notification and the world are exactly as before. *)
Lemma update_status_transition_table (o : Obj) (s : NotificationStatus)
    (m : option string) :
  history_ok (metadata (self o)) = true ->
  (transition_table (status (self o)) s = true /\
   exists o',
     update_status env s m o = (Returned tt, o') /\
     status (self o') = s /\
     updated_at (self o') = utcnow_at env (reads (world o)))
  \/
  (transition_table (status (self o)) s = false /\
   update_status env s m o = (Raised (InvalidTransition (status (self o)) s), o)).
Proof.
  intros Ok. destruct (transition_table (status (self o)) s) eqn:T.
  - left. split; [reflexivity |].
    rewrite <- status_in_table in T.
    destruct (update_status_valid o s m T) as (o' & E & Hs & Hu & _).
    exists o'. unfold history_outcome in E. unfold history_ok in Ok.
    destruct (get_status_history (metadata (self o))); [discriminate Ok | auto].
  - right. split; [reflexivity |].
    rewrite <- status_in_table in T.
    apply update_status_invalid; assumption.
Qed.

Lemma status_eqb_eq (a b : NotificationStatus) : status_eqb a b = true <-> a = b.
Proof. destruct a, b; simpl; split; intros H; try reflexivity; discriminate H. Qed.

(** [last_attempt] is the latest timestamp of the history: it bounds every
    entry from above and belongs to one of them. *)
Lemma fold_max_ge (l : list Z) (a : Z) :
  a <= fold_left Z.max l a /\ forall x, In x l -> x <= fold_left Z.max l a.
Proof.
  revert a. induction l as [| y l IH]; intros a; simpl.
  - split; [lia | intros x []].
  - destruct (IH (Z.max a y)) as [Ha Hl]. split; [lia |].
    intros x [-> | Hx]; [lia | auto].
Qed.

Lemma last_attempt_upper (n : Notification) (e : ErrorEntry) :
  In e (error_messages n) -> err_timestamp e <= last_attempt n.
Proof.
  unfold last_attempt. destruct (error_messages n) as [| e0 es]; [intros [] |].
  intros [-> | H].
  - apply (proj1 (fold_max_ge _ _)).
  - apply (proj2 (fold_max_ge _ _)). apply in_map. exact H.
Qed.

(** [can_retry] writes nothing to the notification. *)
Lemma can_retry_keeps_self (o : Obj) :
  self (snd (can_retry env o)) = self o.
Proof. reflexivity. Qed.

(** In a history whose timestamps never decrease, the latest timestamp
    is the one of the entry recorded last. *)
Lemma last_cons_default (l : list Z) (x a b : Z) :
  last (x :: l) a = last (x :: l) b.
Proof.
  revert x. induction l as [| y l IH]; intros x; [reflexivity |].
  change (last (y :: l) a = last (y :: l) b). apply IH.
Qed.

Lemma fold_max_sorted (l : list Z) (a : Z) :
  StronglySorted Z.le (a :: l) -> fold_left Z.max l a = last l a.
Proof.
  revert a. induction l as [| b l IH]; intros a H; [reflexivity |].
  inversion H as [| ? ? Hs Hall]; subst.
  inversion Hall as [| ? ? Hab _]; subst.
  cbn [fold_left]. rewrite Z.max_r by exact Hab.
  rewrite (IH b Hs). destruct l as [| z l]; [reflexivity |].
  change (last (z :: l) b = last (z :: l) a). apply last_cons_default.
Qed.

Lemma last_attempt_chronological (n : Notification) (e : ErrorEntry)
    (es : list ErrorEntry) :
  error_messages n = es ++ [e] ->
  StronglySorted Z.le (map err_timestamp (error_messages n)) ->
  last_attempt n = err_timestamp e.
Proof.
  intros E H. unfold last_attempt. rewrite E in *.
  destruct es as [| e0 es]; simpl in *; [reflexivity |].
  rewrite fold_max_sorted by exact H.
  rewrite map_app. simpl. apply last_last.
Qed.

(** C2 on the code. [can_retry] never answers. Its first comparison
    reads [Config.NOTIFICATION_RETRY_ATTEMPTS] on the class [Config], which
    has no such attribute: every call raises [AttributeError] at once,
    whatever the status, the retry count and the clock, and reads no
    clock and changes nothing. *)
Theorem can_retry_raises_AttributeError (o : Obj) :
  can_retry env o
  = (Raised (AttributeError
               "type object 'Config' has no attribute 'NOTIFICATION_RETRY_ATTEMPTS'"),
     o).
Proof. destruct o. reflexivity. Qed.


(** [update_status] keeps [counts_errors], whether it succeeds or raises. *)
Lemma update_status_counts_errors (o : Obj) (s : NotificationStatus)
    (m : option string) :
  counts_errors (self o) -> counts_errors (self (snd (update_status env s m o))).
Proof.
  unfold counts_errors. intros I.
  destruct (status_in s (valid_transitions (status (self o)))) eqn:V.
  - destruct (update_status_valid o s m V)
      as (o1 & E1 & _ & _ & _ & _ & _ & _ & _ & _ & _ & _ & H & _).
    rewrite E1. simpl.
    destruct (truthy_opt m && status_eqb s FAILED); destruct H as [H1 H2];
      rewrite H1, H2.
    + rewrite length_app. simpl. lia.
    + exact I.
  - rewrite (update_status_invalid o s m V). exact I.
Qed.

(** A constructed notification is the argument record with the generated
    fields filled in. A rejected construction raises [ValueError], or
    [TypeError] when every other check passes and [scheduled_for] is
    timezone-aware. *)
Lemma new_Notification_cases (a : NotificationArgs) (w : World) :
  let now := utcnow_at env (S (S (reads w))) in
  (rejected a now = true /\
   exists e w',
     new_Notification env a w = (Raised e, w') /\
     ((exists msg, e = ValueError msg) \/
      (e = compare_TypeError /\ exists t, arg_scheduled_for a = Some (Aware t))))
  \/
  (rejected a now = false /\
   exists n w',
     new_Notification env a w = (Returned n, w') /\
     template_name n = arg_template_name a /\
     recipients n = arg_recipients a /\
     content n = arg_content a /\
     scheduled_for n = arg_scheduled_for a /\
     notification_type n = arg_notification_type a /\
     priority n = arg_priority a /\
     status n = PENDING /\
     retry_count n = 0%nat /\
     error_messages n = [] /\
     trace w' = trace w /\
     priority_queues w' = priority_queues w /\
     rate_limiters w' = rate_limiters w /\
     sends w' = sends w /\
     reads w' = (match arg_scheduled_for a with
                 | Some _ => 3 | None => 2 end + reads w)%nat).
Proof.
  unfold rejected, new_Notification, init_fields, post_init. run_monad.
  destruct (negb (truthy (arg_template_name a))
            || negb (isinstance_str (arg_template_name a))) eqn:T; simpl.
  { left. split; [reflexivity | eauto 7]. }
  destruct (Nat.eqb (List.length (arg_recipients a)) 0) eqn:R; simpl.
  { left. split; [reflexivity | eauto 7]. }
  destruct (negb (isinstance_dict (arg_content a))) eqn:C; simpl.
  { left. split; [reflexivity | eauto 7]. }
  destruct (arg_scheduled_for a) as [[t | t] |]; simpl.
  - destruct (t <? utcnow_at env (S (S (reads w)))) eqn:P; simpl.
    + left. split; [reflexivity | eauto 7].
    + right. split; [reflexivity |].
      eexists. eexists. split; [reflexivity |]. simpl. repeat split; reflexivity.
  - left. split; [reflexivity |]. do 2 eexists. split; [reflexivity |].
    right. eauto.
  - right. split; [reflexivity |].
    eexists. eexists. split; [reflexivity |]. simpl. repeat split; reflexivity.
Qed.

(** The metadata of a constructed notification holds the caller's
    entries as given, and no status history yet. *)
Lemma new_Notification_metadata (a : NotificationArgs) (w : World)
    (n : Notification) (w' : World) :
  new_Notification env a w = (Returned n, w') ->
  user_entries (metadata n) = arg_metadata a /\
  status_history (metadata n) = [] /\
  id n = uuid4_at env (draws w).
Proof.
  unfold new_Notification, init_fields, post_init. run_monad.
  destruct (negb (truthy (arg_template_name a))
            || negb (isinstance_str (arg_template_name a))); simpl;
    [discriminate |].
  destruct (Nat.eqb (List.length (arg_recipients a)) 0); simpl; [discriminate |].
  destruct (negb (isinstance_dict (arg_content a))); simpl; [discriminate |].
  destruct (arg_scheduled_for a) as [[t | t] |]; simpl.
  - destruct (t <? utcnow_at env (S (S (reads w)))); simpl; [discriminate |].
    intros H. injection H as <- _. simpl. auto.
  - discriminate.
  - intros H. injection H as <- _. simpl. auto.
Qed.

(** C10 on the code. A [scheduled_for] that is timezone-aware is not
    validated: the comparison with the naive [datetime.utcnow()] raises
    [TypeError], whether the time lies in the past or in the future. With
    every other argument valid, a past aware [scheduled_for] is refused
    with [TypeError] where [ValueError] is promised, and a future one,
    that no check objects to, does not construct either. *)
Theorem aware_scheduled_for_raises_TypeError (a : NotificationArgs) (w : World)
    (t : datetime) :
  truthy (arg_template_name a) = true ->
  isinstance_str (arg_template_name a) = true ->
  arg_recipients a <> [] ->
  isinstance_dict (arg_content a) = true ->
  arg_scheduled_for a = Some (Aware t) ->
  exists w',
    new_Notification env a w = (Raised compare_TypeError, w') /\
    (forall msg, compare_TypeError <> ValueError msg) /\
    reads w' = (3 + reads w)%nat.
Proof.
  intros T1 T2 R C S.
  unfold new_Notification, init_fields, post_init. run_monad.
  rewrite T1, T2, C, S. simpl.
  destruct (arg_recipients a) as [| r rs]; [congruence |]. simpl.
  eexists. split; [reflexivity |]. split; [discriminate | reflexivity].
Qed.

(** The validation, for naive times. Constructing a Notification raises
    [ValueError] when the template name is empty or not a string, when
    the recipients list is empty, when the content is not a dictionary,
    or when [scheduled_for] is a naive time earlier than the clock
    reading of the check. Every constructed Notification has a non-empty
    string as template name, at least one recipient, a dictionary as
    content, and a [scheduled_for] that is unset or naive and not in the
    past. *)
Lemma new_Notification_validation (a : NotificationArgs) (w : World) :
  let now := utcnow_at env (S (S (reads w))) in
  ((truthy (arg_template_name a) = false \/
    isinstance_str (arg_template_name a) = false \/
    arg_recipients a = [] \/
    isinstance_dict (arg_content a) = false \/
    (exists t, arg_scheduled_for a = Some (Naive t) /\ t < now)) ->
   exists msg w', new_Notification env a w = (Raised (ValueError msg), w'))
  /\
  (rejected a now = false ->
   exists n w', new_Notification env a w = (Returned n, w'))
  /\
  (forall n w',
     new_Notification env a w = (Returned n, w') ->
     (exists name, template_name n = PyStr name /\ name <> EmptyString) /\
     recipients n <> [] /\
     (exists d, content n = PyDict d) /\
     (forall s, scheduled_for n = Some s -> exists t, s = Naive t /\ now <= t)).
Proof.
  intros now. split; [| split].
  - intros Bad.
    unfold new_Notification, init_fields, post_init. run_monad.
    destruct (negb (truthy (arg_template_name a))
              || negb (isinstance_str (arg_template_name a))) eqn:T; simpl;
      [eauto |].
    apply orb_false_iff in T. destruct T as [S0 S1].
    apply negb_false_iff in S0, S1.
    destruct (Nat.eqb (List.length (arg_recipients a)) 0) eqn:R; simpl; [eauto |].
    destruct (negb (isinstance_dict (arg_content a))) eqn:C; simpl; [eauto |].
    apply negb_false_iff in C.
    destruct Bad as [B | [B | [B | [B | (t & B & Lt)]]]]; try congruence.
    + rewrite B in R. discriminate R.
    + rewrite B. simpl. fold now.
      assert (P : (t <? now) = true) by (apply Z.ltb_lt; exact Lt).
      rewrite P. simpl. eauto.
  - intros Rj.
    destruct (new_Notification_cases a w) as [(Rj' & _) | (_ & n & w' & E & _)];
      [fold now in Rj'; congruence | eauto].
  - intros n w' E.
    destruct (new_Notification_cases a w)
      as [(_ & e & w1 & E1 & _) | (Rj & n1 & w1 & E1 & Ht & Hr & Hc & Hs & _)];
      rewrite E1 in E; [discriminate E |].
    injection E as <- <-. fold now in Rj.
    unfold rejected in Rj.
    apply orb_false_iff in Rj. destruct Rj as [Rj S4].
    apply orb_false_iff in Rj. destruct Rj as [Rj S3].
    apply orb_false_iff in Rj. destruct Rj as [Rj S2].
    apply orb_false_iff in Rj. destruct Rj as [S0 S1].
    apply negb_false_iff in S0, S1, S3.
    rewrite Ht, Hr, Hc, Hs. repeat split.
    + destruct (arg_template_name a) as [| | | name | |]; try discriminate S1.
      exists name. split; [reflexivity |]. intros ->. discriminate S0.
    + intros B. rewrite B in S2. discriminate S2.
    + destruct (arg_content a) as [| | | | | d]; try discriminate S3. eauto.
    + intros sch Et. rewrite Et in S4. destruct sch as [t | t]; [| discriminate S4].
      exists t. split; [reflexivity |]. apply Z.ltb_ge in S4. exact S4.
Qed.

(** C7. [retry_count] equals the length of the error history from the
    moment a notification is constructed, and every operation on a
    notification keeps the equality: [update_status] when it succeeds and
    when it raises, and [can_retry]. *)
Theorem retry_count_counts_errors :
  (forall a w n w',
     new_Notification env a w = (Returned n, w') -> counts_errors n)
  /\
  (forall o s m,
     counts_errors (self o) ->
     counts_errors (self (snd (update_status env s m o))))
  /\
  (forall o,
     counts_errors (self o) ->
     counts_errors (self (snd (can_retry env o)))).
Proof.
  split; [| split].
  - intros a w n w' E.
    destruct (new_Notification_cases a w)
      as [(_ & e & w1 & E1 & _) | (_ & n1 & w1 & E1 & _ & _ & _ & _ & _ & _ & _ & Hc & He & _)];
      rewrite E1 in E; [discriminate E |].
    injection E as <- <-. unfold counts_errors. rewrite Hc, He. reflexivity.
  - intros o s m. apply update_status_counts_errors.
  - intros o I. rewrite can_retry_keeps_self. exact I.
Qed.

End Properties.

(* ===================================================================== *)
(** ** Frame rules                                                        *)
(* ===================================================================== *)

Section Frame.

Context {St : Type} (R : St -> St -> Prop) `{!PreOrder R}.

Lemma preserves_ret {A} (a : A) : preserves R (ret a).
Proof. intros s. simpl. reflexivity. Qed.

Lemma preserves_raise {A} (e : exn) : preserves R (@raise St A e).
Proof. intros s. simpl. reflexivity. Qed.

Lemma preserves_suspend {A} : preserves R (@suspend St A).
Proof. intros s. simpl. reflexivity. Qed.

Lemma preserves_gets {A} (f : St -> A) : preserves R (gets f).
Proof. intros s. simpl. reflexivity. Qed.

Lemma preserves_modify (f : St -> St) :
  (forall s, R s (f s)) -> preserves R (modify f).
Proof. intros H s. simpl. apply H. Qed.

Lemma preserves_bind {A B} (c : M St A) (k : A -> M St B) :
  preserves R c -> (forall a, preserves R (k a)) -> preserves R (bind c k).
Proof.
  intros Hc Hk s. unfold bind. specialize (Hc s).
  destruct (c s) as [[a | e | |] s1]; simpl in *; try exact Hc.
  transitivity s1; [exact Hc | apply Hk].
Qed.

Lemma preserves_try_except {A} (c : M St A) (h : exn -> M St A) :
  preserves R c -> (forall e, preserves R (h e)) -> preserves R (try_except c h).
Proof.
  intros Hc Hh s. unfold try_except. specialize (Hc s).
  destruct (c s) as [[a | e | |] s1]; simpl in *; try exact Hc.
  transitivity s1; [exact Hc | apply Hh].
Qed.

Lemma preserves_on_exception {A} (extra : nat) (retryable : exn -> bool)
    (c : M St A) :
  preserves R c -> preserves R (on_exception extra retryable c).
Proof.
  intros Hc. induction extra as [| k IH]; simpl; [exact Hc |].
  apply preserves_try_except; [exact Hc |].
  intros e. destruct (retryable e); [exact IH | apply preserves_raise].
Qed.

Lemma preserves_retry {A} (extra : nat) (c : M St A) :
  preserves R c -> preserves R (retry extra c).
Proof.
  intros Hc. induction extra as [| k IH]; simpl.
  - apply preserves_try_except; [exact Hc | intros e; apply preserves_raise].
  - apply preserves_try_except; [exact Hc | intros _; exact IH].
Qed.

End Frame.

Section Settle.

Context {St : Type} (P : St -> Prop).








End Settle.

#[local] Instance frame_weak_preorder : PreOrder frame_weak.
Proof.
  split.
  - intros o. repeat split.
  - intros a b c (H1 & H2 & H3 & H4) (K1 & K2 & K3 & K4).
    repeat split; congruence.
Qed.

#[local] Instance frame_full_preorder : PreOrder frame_full.
Proof.
  split.
  - intros o. split; reflexivity.
  - intros a b c (H1 & H2) (K1 & K2). split; [etransitivity; eassumption | congruence].
Qed.

#[local] Instance frame_send_preorder : PreOrder frame_send.
Proof.
  split.
  - intros o. split; [reflexivity | auto].
  - intros a b c (H1 & H2) (K1 & K2). split; [etransitivity; eassumption |].
    intros Ad. rewrite K2, H2; auto.
    destruct H1 as (Hr & Ht & _). unfold admits in *. rewrite Hr, Ht. exact Ad.
Qed.

Lemma frame_full_send (o o' : Obj) : frame_full o o' -> frame_send o o'.
Proof. intros [H Q]. split; auto. Qed.

Lemma dequeued_app (tr1 tr2 : list Event) :
  dequeued (tr1 ++ tr2) = dequeued tr1 ++ dequeued tr2.
Proof.
  induction tr1 as [| e tr1 IH]; simpl; [reflexivity |].
  destruct e; simpl; rewrite IH; reflexivity.
Qed.

Section ServiceProperties.

Variable env : Env.

Lemma update_status_frame (s : NotificationStatus) (m : option string) :
  preserves frame_full (update_status env s m).
Proof.
  intros o.
  destruct (status_in s (valid_transitions (status (self o)))) eqn:V.
  - destruct (update_status_valid env o s m V)
      as (o1 & E1 & _ & _ & _ & Hi & Ht & _ & Hr & Hq & Htr & _).
    rewrite E1. simpl. repeat split; congruence.
  - rewrite (update_status_invalid env o s m V). simpl. reflexivity.
Qed.

Lemma in_world_frame_full {A} (c : M World A) :
  (forall w, rate_limiters (snd (c w)) = rate_limiters w /\
             dequeued (trace (snd (c w))) = dequeued (trace w) /\
             priority_queues (snd (c w)) = priority_queues w) ->
  preserves frame_full (in_world c).
Proof.
  intros H o. unfold in_world. specialize (H (world o)).
  destruct (c (world o)) as [r w']. simpl in *.
  destruct H as (H1 & H2 & H3). repeat split; assumption.
Qed.

Lemma send_email_frame : preserves frame_full (send_email env).
Proof.
  unfold send_email. apply preserves_on_exception; [typeclasses eauto |].
  unfold send_email_body, _handle_smtp_error, _handle_error.
  apply preserves_try_except; [typeclasses eauto | |].
  - apply preserves_bind; [typeclasses eauto | apply preserves_gets; typeclasses eauto |].
    intros n. apply preserves_bind; [typeclasses eauto | |].
    { destruct (negb (type_eqb (notification_type n) EMAIL));
        [apply preserves_raise | apply preserves_ret]; typeclasses eauto. }
    intros _. apply preserves_bind; [typeclasses eauto | |].
    { apply in_world_frame_full. intros w. unfold external_steps. run_monad.
      destruct (transport_at env (sends w)); simpl; repeat split. }
    intros _. apply preserves_bind; [typeclasses eauto | apply update_status_frame |].
    intros _. apply preserves_bind; [typeclasses eauto | |].
    { apply in_world_frame_full. intros w. simpl. repeat split. }
    intros _. apply preserves_ret; typeclasses eauto.
  - intros e. destruct (is_SMTPException e).
    + apply preserves_bind; [typeclasses eauto | |].
      { apply preserves_bind; [typeclasses eauto | apply update_status_frame |].
        intros _. apply in_world_frame_full. intros w. simpl. repeat split. }
      intros _. apply preserves_raise; typeclasses eauto.
    + apply preserves_bind; [typeclasses eauto | |].
      { apply preserves_bind; [typeclasses eauto | apply update_status_frame |].
        intros _. apply in_world_frame_full. intros w. simpl. repeat split. }
      intros _. apply preserves_raise; typeclasses eauto.
Qed.

Lemma preserves_weaken {St A} (R R' : St -> St -> Prop) (c : M St A) :
  (forall a b, R a b -> R' a b) -> preserves R c -> preserves R' c.
Proof. intros H Hc s. apply H, Hc. Qed.

Lemma bind_gets {St A B} (f : St -> A) (k : A -> M St B) (s : St) :
  bind (gets f) k s = k (f s) s.
Proof. reflexivity. Qed.

Lemma check_rate_limit_reads (t : NotificationType) (w : World) :
  _check_rate_limit t w = (Returned (admits t w), w).
Proof. reflexivity. Qed.

Lemma bind_check_rate_limit {B} (t : NotificationType) (k : bool -> M Obj B)
    (n : Notification) (w : World) :
  bind (in_world (_check_rate_limit t)) k {| self := n; world := w |}
  = k (admits t w) {| self := n; world := w |}.
Proof. reflexivity. Qed.

Lemma log_frame (e : Event) :
  (forall p n, e <> EvGet p n) ->
  preserves frame_full (in_world (log e)).
Proof.
  intros H. apply in_world_frame_full. intros w. simpl.
  repeat split. rewrite dequeued_app. simpl.
  destruct e; try (rewrite app_nil_r; reflexivity).
  exfalso. eapply H. reflexivity.
Qed.

Lemma process_frame (n : Notification) :
  preserves frame_full
    (match notification_type n with
     | EMAIL => _process_email_notification env
     | IN_APP => _process_in_app_notification
     | SYSTEM => _process_system_notification
     end).
Proof.
  destruct (notification_type n);
    unfold _process_email_notification, _process_in_app_notification,
      _process_system_notification;
    (apply preserves_bind; [typeclasses eauto | apply preserves_gets; typeclasses eauto |]);
    intros n0;
    (apply preserves_bind; [typeclasses eauto | apply log_frame; discriminate |]);
    intros _.
  - apply preserves_try_except; [typeclasses eauto | apply send_email_frame |].
    intros e. apply preserves_ret; typeclasses eauto.
  - apply preserves_ret; typeclasses eauto.
  - apply preserves_ret; typeclasses eauto.
Qed.

Lemma queue_put_frame (p : NotificationPriority) (n : Notification) :
  preserves frame_weak (in_world (queue_put p n)).
Proof.
  intros o. unfold in_world, queue_put. run_monad.
  destruct (queue_full (queue_of p (priority_queues (world o)))); simpl.
  - repeat split.
  - repeat split. simpl. rewrite dequeued_app. simpl. apply app_nil_r.
Qed.

Lemma attempt_frame (p : NotificationPriority) (n : Notification) :
  preserves frame_full
    (success <- match notification_type n with
                | EMAIL => _process_email_notification env
                | IN_APP => _process_in_app_notification
                | SYSTEM => _process_system_notification
                end ;;
     in_world (metrics_inc (notification_type n) success p) ;;
     update_status env (if success then SENT else FAILED) None ;;
     ret success).
Proof.
  apply preserves_bind; [typeclasses eauto | apply process_frame |].
  intros success.
  apply preserves_bind; [typeclasses eauto | |].
  { apply in_world_frame_full. intros w0. simpl. repeat split. }
  intros _.
  apply preserves_bind; [typeclasses eauto | apply update_status_frame |].
  intros _. apply preserves_ret; typeclasses eauto.
Qed.

Lemma requeue_frame (p : NotificationPriority) (n : Notification) :
  preserves frame_weak (in_world (queue_put p n) ;; ret false).
Proof.
  apply preserves_bind; [typeclasses eauto | apply queue_put_frame |].
  intros _. apply preserves_ret; typeclasses eauto.
Qed.

Lemma send_notification_body_frame (p : NotificationPriority) :
  preserves frame_send (send_notification_body env p).
Proof.
  unfold send_notification_body.
  apply preserves_try_except; [typeclasses eauto | |].
  - intros [n w]. rewrite bind_gets. simpl self.
    rewrite bind_check_rate_limit.
    destruct (admits (notification_type n) w) eqn:Ad; cbn [negb].
    + apply frame_full_send. apply (attempt_frame p n).
    + split.
      * apply (requeue_frame p n).
      * simpl. rewrite Ad. discriminate.
  - intros e. apply (preserves_weaken frame_full); [apply frame_full_send |].
    apply preserves_bind; [typeclasses eauto | apply update_status_frame |].
    intros _. apply preserves_raise; typeclasses eauto.
Qed.

Lemma send_notification_frame (p : NotificationPriority) :
  preserves frame_send (send_notification env p).
Proof.
  unfold send_notification. apply preserves_retry; [typeclasses eauto |].
  apply send_notification_body_frame.
Qed.

(** No call of [send_notification] changes a rate counter. *)
Lemma call_send_notification_rate (n : Notification) (p : NotificationPriority)
    (w : World) :
  rate_limiters (snd (call_send_notification env n p w)) = rate_limiters w.
Proof.
  unfold call_send_notification.
  pose proof (send_notification_frame p {| self := n; world := w |}) as H.
  destruct (send_notification env p {| self := n; world := w |}) as [r o'].
  simpl in *. destruct H as ((Hr & _) & _). exact Hr.
Qed.

Lemma send_all_rate (l : list Task) (w : World) :
  rate_limiters (snd (send_all env l w)) = rate_limiters w.
Proof.
  revert w. induction l as [| [n p] rest IH]; intros w; simpl; [reflexivity |].
  pose proof (call_send_notification_rate n p w) as H.
  destruct (call_send_notification env n p w) as [r w1]. simpl in H.
  specialize (IH w1). destruct (send_all env rest w1) as [rs w2]. simpl in *.
  congruence.
Qed.

(** C3 on the code. The rate limiter only reads a counter that nothing
    increments: a check returns whether the counter is below the
    threshold and leaves it as it was, and no [send_notification] changes
    it either. So, starting from the service as constructed, after any
    number of sends (101 emails, say) the limiter still admits every
    type and every counter is still 0: the call after the threshold is
    not denied. *)
Theorem rate_limiter_never_counts (l : list Task) (t : NotificationType) :
  let w := snd (send_all env l initial_world) in
  _check_rate_limit t w = (Returned true, w) /\
  rate_of t (rate_limiters w) = 0.
Proof.
  intros w. rewrite check_rate_limit_reads. unfold admits.
  unfold w. rewrite send_all_rate. destruct t; split; reflexivity.
Qed.

Ltac run_service :=
  cbv [send_notification send_notification_body _process_email_notification
       _process_in_app_notification _process_system_notification send_email
       send_email_body _handle_smtp_error _handle_error external_steps
       metrics_inc _check_rate_limit update_status MAX_RETRIES Nat.pred
       on_exception retry bind ret raise suspend gets modify try_except
       in_world update_self utcnow uuid4 log];
  simpl.

(** An email attempt on a notification that is already Failed raises
    whatever the transport does, and leaves it Failed. *)
Lemma send_email_attempt_from_failed (o : Obj) (p : NotificationPriority) :
  notification_type (self o) = EMAIL ->
  status (self o) = FAILED ->
  admits EMAIL (world o) = true ->
  exists o',
    send_notification_body env p o
    = (Raised (InvalidTransition FAILED FAILED), o') /\
    notification_type (self o') = EMAIL /\
    status (self o') = FAILED /\
    admits EMAIL (world o') = true /\
    error_messages (self o') = error_messages (self o) /\
    retry_count (self o') = retry_count (self o).
Proof.
  destruct o as [n w]. destruct n. simpl. intros -> -> Ad.
  unfold admits in Ad. simpl in Ad.
  run_service. rewrite Ad. simpl.
  destruct (transport_at env (sends w)) as [| e]; simpl.
  - eexists. split; [reflexivity |]. simpl. auto.
  - destruct (is_SMTPException e); simpl;
      (eexists; split; [reflexivity |]; simpl; auto).
Qed.

(** C8 on the code: a delivery that succeeds. The in-app and system
    channels always report success. When the caller's metadata holds
    something that is not a list under ["status_history"], the
    notification does not end Sent: the transition to Sent raises
    [TypeError] on its last step, the handler of [send_notification]
    records that error and moves the notification to Failed, and the two
    further attempts of the retry policy hand the notification to its
    channel again and are refused by the state machine. The channel is
    asked to deliver three times, the notification ends Failed and
    [send_notification] raises [RetryError]. *)
Theorem delivered_notification_ends_failed (o : Obj) (p : NotificationPriority)
    (v : PyVal) :
  notification_type (self o) <> EMAIL ->
  status (self o) = PENDING ->
  admitted o ->
  get_status_history (metadata (self o)) = NotAList v ->
  exists o',
    send_notification env p o
    = (Raised (RetryError (InvalidTransition FAILED FAILED)), o') /\
    status (self o') = FAILED /\
    error_messages (self o') =
      error_messages (self o) ++
      [ {| err_timestamp := utcnow_at env (4 + reads (world o));
           err_message := str (concat_TypeError v);
           err_retry_count := retry_count (self o) |} ] /\
    retry_count (self o') = S (retry_count (self o)) /\
    deliveries (trace (world o')) =
      deliveries (trace (world o)) ++
      [ (notification_type (self o), id (self o));
        (notification_type (self o), id (self o));
        (notification_type (self o), id (self o)) ].
Proof.
  destruct o as [n w]. destruct n. unfold admitted, admits. simpl.
  intros Ty -> Ad Hv.
  assert (D : forall tr t i,
            deliveries (tr ++ [EvDeliver t i]) = deliveries tr ++ [(t, i)]).
  { intros tr t i. induction tr as [| e tr IH]; simpl; [reflexivity |].
    destruct e; simpl in *; rewrite IH; reflexivity. }
  destruct notification_type0; [congruence | |];
    run_service; simpl in Ad;
    repeat (rewrite ?Ad, ?Hv, ?concat_message_nonempty; simpl);
    (eexists; split; [reflexivity |]; simpl; repeat split; auto);
    rewrite !D; rewrite <- !app_assoc; reflexivity.
Qed.

(** A delivery through a channel that always succeeds. *)
Lemma stub_channel_send (o : Obj) (p : NotificationPriority) :
  notification_type (self o) <> EMAIL ->
  status (self o) = PENDING ->
  admitted o ->
  history_ok (metadata (self o)) = true ->
  exists o',
    send_notification env p o = (Returned true, o') /\
    status (self o') = SENT /\
    error_messages (self o') = error_messages (self o) /\
    retry_count (self o') = retry_count (self o) /\
    deliveries (trace (world o')) =
      deliveries (trace (world o)) ++ [(notification_type (self o), id (self o))] /\
    id (self o') = id (self o) /\
    scheduled_for (self o') = scheduled_for (self o) /\
    reads (world o') = (3 + reads (world o))%nat.
Proof.
  destruct o as [n w]. destruct n. unfold admitted, admits, history_ok. simpl.
  intros Ty -> Ad Ok.
  assert (D : forall tr (e : NotificationType * N),
            deliveries (tr ++ [EvDeliver (fst e) (snd e)]) = deliveries tr ++ [e]).
  { intros tr [t i]. induction tr as [| e tr IH]; simpl; [reflexivity |].
    destruct e; simpl in *; rewrite IH; reflexivity. }
  destruct (get_status_history metadata0) as [v | items entries] eqn:Hv;
    [discriminate Ok |].
  destruct notification_type0; [congruence | |];
    run_service; simpl in Ad; rewrite Ad; simpl; rewrite Hv; simpl;
    (eexists; split; [reflexivity |]; simpl; repeat split; auto).
  - apply (D (trace w) (IN_APP, id0)).
  - apply (D (trace w) (SYSTEM, id0)).
Qed.

(** X1. The in-app and system channels: an admitted Pending notification
    whose metadata has a list, or nothing, under ["status_history"] is
    handed to its channel once, ends Sent, and [send_notification]
    returns [True]; its error history and retry count are untouched. *)
Theorem stub_channel_delivery_ends_sent (o : Obj) (p : NotificationPriority) :
  notification_type (self o) <> EMAIL ->
  status (self o) = PENDING ->
  admitted o ->
  history_ok (metadata (self o)) = true ->
  exists o',
    send_notification env p o = (Returned true, o') /\
    status (self o') = SENT /\
    error_messages (self o') = error_messages (self o) /\
    retry_count (self o') = retry_count (self o) /\
    deliveries (trace (world o')) =
      deliveries (trace (world o)) ++ [(notification_type (self o), id (self o))].
Proof.
  intros Ty St Ad Ok.
  destruct (stub_channel_send o p Ty St Ad Ok) as (o' & E & H1 & H2 & H3 & H4 & _).
  exists o'. auto.
Qed.

(** X2. The email channel when the transmission fails: the error handler of
    [send_email] makes the transition to Failed and records the delivery
    error with the retry count before the increment; everything that
    follows (a second try of [send_email], the bookkeeping of
    [send_notification], its two further attempts) is refused by the
    state machine and changes nothing more. The notification ends Failed
    with the delivery error recorded once, and [send_notification]
    raises [RetryError]. *)
Theorem failed_email_records_delivery_error (o : Obj) (p : NotificationPriority)
    (e : exn) :
  notification_type (self o) = EMAIL ->
  status (self o) = PENDING ->
  admits EMAIL (world o) = true ->
  transport_at env (sends (world o)) = Fails e ->
  exists o',
    send_notification env p o
    = (Raised (RetryError (InvalidTransition FAILED FAILED)), o') /\
    status (self o') = FAILED /\
    error_messages (self o') =
      error_messages (self o) ++
      [ {| err_timestamp := utcnow_at env (1 + reads (world o));
           err_message :=
             String.append
               (if is_SMTPException e then "SMTP Error: " else "Error sending email: ")
               (str e);
           err_retry_count := retry_count (self o) |} ] /\
    retry_count (self o') = S (retry_count (self o)).
Proof.
  intros Ty St Ad Tr.
  assert (First : exists o1,
            send_notification_body env p o
            = (Raised (InvalidTransition FAILED FAILED), o1) /\
            notification_type (self o1) = EMAIL /\
            status (self o1) = FAILED /\
            admits EMAIL (world o1) = true /\
            error_messages (self o1) =
              error_messages (self o) ++
              [ {| err_timestamp := utcnow_at env (1 + reads (world o));
                   err_message :=
                     String.append
                       (if is_SMTPException e then "SMTP Error: "
                        else "Error sending email: ")
                       (str e);
                   err_retry_count := retry_count (self o) |} ] /\
            retry_count (self o1) = S (retry_count (self o))).
  { destruct o as [n w]. destruct n. simpl in *. subst.
    unfold admits in Ad. simpl in Ad.
    run_service. rewrite Ad. simpl. rewrite Tr. simpl.
    destruct (get_status_history metadata0) as [v | items entries] eqn:Hv;
      destruct e; simpl; rewrite ?Hv; simpl;
      try (eexists; split; [reflexivity |]; simpl; repeat split; auto; fail);
      destruct (transport_at env (S (sends w))) as [| e2]; simpl;
      try (eexists; split; [reflexivity |]; simpl; repeat split; auto; fail);
      destruct (is_SMTPException e2); simpl;
      (eexists; split; [reflexivity |]; simpl; repeat split; auto). }
  destruct First as (o1 & E1 & Ty1 & St1 & Ad1 & Er1 & Rc1).
  destruct (send_email_attempt_from_failed o1 p Ty1 St1 Ad1)
    as (o2 & E2 & Ty2 & St2 & Ad2 & Er2 & Rc2).
  destruct (send_email_attempt_from_failed o2 p Ty2 St2 Ad2)
    as (o3 & E3 & Ty3 & St3 & Ad3 & Er3 & Rc3).
  exists o3. unfold send_notification. simpl retry. unfold try_except.
  rewrite E1, E2, E3. split; [reflexivity |].
  split; [exact St3 |]. split; [| congruence].
  rewrite Er3, Er2, Er1. reflexivity.
Qed.

(* ===================================================================== *)
(** ** An admitted send always ends                                       *)
(* ===================================================================== *)






(* ===================================================================== *)
(** ** The dispatch loop                                                  *)
(* ===================================================================== *)



Lemma queue_of_set_same (p : NotificationPriority) (q : Queue) (qs : PriorityQueues) :
  queue_of p (set_queue p q qs) = q.
Proof. destruct p; reflexivity. Qed.

Lemma queue_of_set_other (p p' : NotificationPriority) (q : Queue)
    (qs : PriorityQueues) :
  p' <> p -> queue_of p' (set_queue p q qs) = queue_of p' qs.
Proof. destruct p, p'; intros H; try reflexivity; exfalso; apply H; reflexivity. Qed.







(* ===================================================================== *)
(** ** Enqueueing on a full queue                                         *)
(* ===================================================================== *)

(** C5 as the code has it. The queues are built with capacities Urgent
    1000, High 2000, Medium 5000, Low 10000. On a queue that holds as
    many notifications as its capacity the enqueue, an awaited [put],
    raises no error: it does not complete, the caller is suspended on
    it, and the queue and the rest of the world are unchanged. The
    submitter that reached the enqueue, [send_notification] on a
    notification the rate limiter denies, is suspended with it. *)
Theorem put_on_full_queue_suspends (p : NotificationPriority) (o : Obj) :
  maxsize (queue_of p (priority_queues (world o))) = maxsize (queue_of p initial_queues) ->
  Z.of_nat (List.length (items (queue_of p (priority_queues (world o)))))
  = maxsize (queue_of p initial_queues) ->
  maxsize (queue_of p initial_queues)
  = match p with
    | URGENT => 1000 | HIGH => 2000 | MEDIUM => 5000 | LOW => 10000
    end /\
  queue_put p (self o) (world o) = (Suspended, world o) /\
  (admits (notification_type (self o)) (world o) = false ->
   send_notification env p o = (Suspended, o)).
Proof.
  intros Hm Hl.
  assert (Cap : maxsize (queue_of p initial_queues)
                = match p with
                  | URGENT => 1000 | HIGH => 2000 | MEDIUM => 5000 | LOW => 10000
                  end) by (destruct p; reflexivity).
  assert (Full : queue_full (queue_of p (priority_queues (world o))) = true).
  { unfold queue_full. rewrite Hm, Hl.
    destruct (maxsize (queue_of p initial_queues) <=? 0) eqn:Z0.
    - apply Z.leb_le in Z0. rewrite Cap in Z0. destruct p; lia.
    - apply Z.leb_refl. }
  split; [exact Cap |]. split.
  - unfold queue_put. run_monad. rewrite Full. reflexivity.
  - intros Dn. destruct o as [n w]. simpl in *.
    unfold send_notification. simpl retry. unfold try_except.
    assert (B : send_notification_body env p {| self := n; world := w |}
                = (Suspended, {| self := n; world := w |})).
    { unfold send_notification_body, try_except.
      rewrite bind_gets. simpl self. rewrite bind_check_rate_limit.
      rewrite Dn. cbn [negb]. unfold queue_put. run_monad.
      rewrite Full. reflexivity. }
    rewrite B. reflexivity.
Qed.

(* ===================================================================== *)
(** ** Scheduled requests                                                 *)
(* ===================================================================== *)

(** What the handler itself does with a request whose [scheduled_for] is
    in the future: it makes no deliver call, touches no queue, leaves the
    new notification Pending, registers exactly one background task
    ([send_notification] on that notification with its priority) and
    answers 202 with status pending. *)
Lemma scheduled_request_is_deferred (request : NotificationRequest)
    (w : World) (t : datetime) :
  req_scheduled_for request = Some (Naive t) ->
  req_template_name request <> EmptyString ->
  req_recipients request <> [] ->
  utcnow_at env (2 + reads w) <= t ->
  utcnow_at env (3 + reads w) < t ->
  exists resp n w',
    create_notification env request w
    = (Returned (resp, [(n, req_priority request)]), w') /\
    status n = PENDING /\
    scheduled_for n = Some (Naive t) /\
    notification_type n = req_notification_type request /\
    status_code resp = 202 /\
    resp_status resp = "pending"%string /\
    resp_notification_id resp = id n /\
    trace w' = trace w /\
    priority_queues w' = priority_queues w /\
    sends w' = sends w /\
    resp_scheduled_for resp = Some (Naive t) /\
    user_entries (metadata n) = req_metadata request /\
    rate_limiters w' = rate_limiters w /\
    reads w' = (4 + reads w)%nat.
Proof.
  intros Hs Ht Hr Hpast Hfut.
  set (a := {| arg_template_name := PyStr (req_template_name request);
               arg_notification_type := req_notification_type request;
               arg_content := PyDict (req_content request);
               arg_recipients := req_recipients request;
               arg_priority := req_priority request;
               arg_metadata := req_metadata request;
               arg_scheduled_for := req_scheduled_for request |}).
  assert (Rj : rejected a (utcnow_at env (S (S (reads w)))) = false).
  { unfold rejected, a. simpl. rewrite Hs.
    destruct (req_template_name request) as [| c tl]; [congruence |].
    destruct (req_recipients request) as [| r rs]; [congruence |]. simpl.
    apply Z.ltb_ge. exact Hpast. }
  destruct (new_Notification_cases env a w)
    as [(Rj' & _) | (_ & n & w1 & E & _ & _ & _ & Hsch & Hty & Hpr & Hst & _ & _
                     & Htr & Hq & Hrl & Hsd & Hrd)];
    [cbv zeta in Rj'; congruence |].
  destruct (new_Notification_metadata env a w n w1 E) as (Hue & _).
  unfold a in Hsch, Hty, Hpr, Hrd, Hue. simpl in Hsch, Hty, Hpr, Hrd, Hue.
  rewrite Hs in Hsch, Hrd.
  assert (L : (utcnow_at env (reads w1) <? t) = true).
  { rewrite Hrd. apply Z.ltb_lt. exact Hfut. }
  unfold create_notification, try_except. fold a.
  unfold bind at 1. rewrite E. rewrite Hsch. run_monad. rewrite L. simpl.
  rewrite Hpr. eexists. eexists. eexists. split; [reflexivity |].
  simpl. repeat split; auto.
Qed.

(** C9 on the code. A request scheduled for a future time is not held
    until that time. The handler answers 202 with status pending and
    leaves the sending to a background task, which the framework runs as
    soon as the response is out: nothing in the service looks at
    [scheduled_for] again or waits. For an in-app or system notification
    the rate limiter admits, serving the request hands the notification
    to its channel and leaves it Sent, after seven clock readings in all
    and whatever time they show. *)
Theorem future_scheduled_request_is_sent (request : NotificationRequest)
    (w : World) (t : datetime) :
  req_scheduled_for request = Some (Naive t) ->
  req_template_name request <> EmptyString ->
  req_recipients request <> [] ->
  req_notification_type request <> EMAIL ->
  admits (req_notification_type request) w = true ->
  dict_get "status_history" (req_metadata request) = None ->
  utcnow_at env (2 + reads w) <= t ->
  utcnow_at env (3 + reads w) < t ->
  exists resp n w',
    serve env request w = (Returned resp, [n], w') /\
    status_code resp = 202 /\
    resp_status resp = "pending"%string /\
    resp_scheduled_for resp = Some (Naive t) /\
    resp_notification_id resp = id n /\
    scheduled_for n = Some (Naive t) /\
    status n = SENT /\
    deliveries (trace w') =
      deliveries (trace w) ++ [(req_notification_type request, id n)] /\
    reads w' = (7 + reads w)%nat.
Proof.
  intros Hs Ht Hr Hty Had Hmd Hpast Hfut.
  destruct (scheduled_request_is_deferred request w t Hs Ht Hr Hpast Hfut)
    as (resp & n & w1 & E & Hst & Hsch & Hnt & Hc & Hrs & Hid & Htr & _ & _
        & Hrsch & Hue & Hrl & Hrd).
  set (o := {| self := n; world := w1 |}).
  assert (Ty : notification_type (self o) <> EMAIL) by (simpl; congruence).
  assert (Ad : admitted o).
  { unfold admitted, admits, o. simpl. rewrite Hnt, Hrl. exact Had. }
  assert (Ok : history_ok (metadata (self o)) = true).
  { unfold history_ok, get_status_history, o. simpl. rewrite Hue, Hmd. reflexivity. }
  destruct (stub_channel_send o (req_priority request) Ty Hst Ad Ok)
    as (o' & Es & Hs' & _ & _ & Hd & Hid' & Hsch' & Hrd').
  unfold serve. rewrite E. cbn [run_background_tasks]. fold o. rewrite Es.
  exists resp, (self o'), (world o'). split; [reflexivity |].
  repeat split; auto.
  - rewrite Hid'. exact Hid.
  - rewrite Hsch'. exact Hsch.
  - rewrite Hd. simpl. rewrite Htr, Hnt, Hid'. reflexivity.
  - rewrite Hrd'. simpl. rewrite Hrd. reflexivity.
Qed.

End ServiceProperties.

(* ===================================================================== *)
(** ** More on the service: denied and email sends                        *)
(* ===================================================================== *)

Ltac run_calls :=
  cbv [send_notification send_notification_body _process_email_notification
       _process_in_app_notification _process_system_notification send_email
       send_email_body _handle_smtp_error _handle_error external_steps
       metrics_inc _check_rate_limit update_status MAX_RETRIES Nat.pred
       on_exception retry bind ret raise suspend gets modify try_except
       in_world update_self utcnow uuid4 log];
  simpl.

Section SendProperties.

Variable env : Env.

Lemma deliveries_app (tr1 tr2 : list Event) :
  deliveries (tr1 ++ tr2) = deliveries tr1 ++ deliveries tr2.
Proof.
  induction tr1 as [| e tr1 IH]; simpl; [reflexivity |].
  destruct e; simpl; rewrite IH; reflexivity.
Qed.

(** A denied send, effect by effect. *)
Lemma denied_send_spec (o : Obj) (p : NotificationPriority) :
  admits (notification_type (self o)) (world o) = false ->
  queue_full (queue_of p (priority_queues (world o))) = false ->
  exists o',
    send_notification env p o = (Returned false, o') /\
    self o' = self o /\
    items (queue_of p (priority_queues (world o'))) =
      items (queue_of p (priority_queues (world o))) ++ [self o] /\
    maxsize (queue_of p (priority_queues (world o'))) =
      maxsize (queue_of p (priority_queues (world o))) /\
    (forall q, q <> p ->
       queue_of q (priority_queues (world o')) =
       queue_of q (priority_queues (world o))) /\
    deliveries (trace (world o')) = deliveries (trace (world o)) /\
    dequeued (trace (world o')) = dequeued (trace (world o)) /\
    rate_limiters (world o') = rate_limiters (world o) /\
    sends (world o') = sends (world o) /\
    reads (world o') = reads (world o).
Proof.
  destruct o as [n w]. simpl. intros Dn Room.
  unfold send_notification. simpl retry. unfold try_except at 1.
  assert (B : exists o',
            send_notification_body env p {| self := n; world := w |}
            = (Returned false, o') /\
            self o' = n /\
            items (queue_of p (priority_queues (world o'))) =
              items (queue_of p (priority_queues w)) ++ [n] /\
            maxsize (queue_of p (priority_queues (world o'))) =
              maxsize (queue_of p (priority_queues w)) /\
            (forall q, q <> p ->
               queue_of q (priority_queues (world o')) =
               queue_of q (priority_queues w)) /\
            deliveries (trace (world o')) = deliveries (trace w) /\
            dequeued (trace (world o')) = dequeued (trace w) /\
            rate_limiters (world o') = rate_limiters w /\
            sends (world o') = sends w /\
            reads (world o') = reads w).
  { unfold send_notification_body, try_except.
    rewrite bind_gets. simpl self. rewrite bind_check_rate_limit.
    rewrite Dn. cbn [negb]. unfold queue_put. run_monad. rewrite Room. simpl.
    eexists. split; [reflexivity |]. simpl.
    rewrite queue_of_set_same, deliveries_app, dequeued_app. simpl.
    rewrite !app_nil_r. repeat split; auto.
    intros q Hq. apply queue_of_set_other. exact Hq. }
  destruct B as (o' & E & H). rewrite E. exists o'. split; [reflexivity | exact H].
Qed.

(** X3. A notification the rate limiter denies is not attempted:
    [send_notification] asks no channel to deliver, leaves the
    notification as it is, puts it at the tail of the queue of the
    priority it was called with (the other queues untouched) and returns
    [False], provided that queue has room. *)
Theorem denied_send_requeues_at_tail (o : Obj) (p : NotificationPriority) :
  admits (notification_type (self o)) (world o) = false ->
  queue_full (queue_of p (priority_queues (world o))) = false ->
  exists o',
    send_notification env p o = (Returned false, o') /\
    self o' = self o /\
    items (queue_of p (priority_queues (world o'))) =
      items (queue_of p (priority_queues (world o))) ++ [self o] /\
    maxsize (queue_of p (priority_queues (world o'))) =
      maxsize (queue_of p (priority_queues (world o))) /\
    (forall q, q <> p ->
       queue_of q (priority_queues (world o')) =
       queue_of q (priority_queues (world o))) /\
    deliveries (trace (world o')) = deliveries (trace (world o)) /\
    dequeued (trace (world o')) = dequeued (trace (world o)) /\
    rate_limiters (world o') = rate_limiters (world o) /\
    sends (world o') = sends (world o) /\
    reads (world o') = reads (world o).
Proof. apply denied_send_spec. Qed.

(** The inner loop on a queue that is not empty: it takes the head and
    sends it, then goes on. *)
Lemma drain_unfold_nonempty (k : nat) (p : NotificationPriority) (w : World)
    (n : Notification) (rest : list Notification) :
  items (queue_of p (priority_queues w)) = n :: rest ->
  exists w1,
    drain env (S k) p w
    = bind (call_send_notification env n p) (fun _ => drain env k p) w1 /\
    items (queue_of p (priority_queues w1)) = rest /\
    maxsize (queue_of p (priority_queues w1)) = maxsize (queue_of p (priority_queues w)) /\
    deliveries (trace w1) = deliveries (trace w) /\
    rate_limiters w1 = rate_limiters w.
Proof.
  intros E. eexists. split.
  - cbn [drain]. unfold queue_empty, queue_get. run_monad. rewrite E. simpl.
    rewrite E. simpl. reflexivity.
  - simpl. rewrite queue_of_set_same. simpl. rewrite !deliveries_app. simpl.
    rewrite !app_nil_r. auto.
Qed.

(** The inner loop taking the head of a queue whose type is denied: the
    notification goes back to the tail and the loop is where it was, one
    test of its condition later. *)
Lemma drain_step_denied (k : nat) (p : NotificationPriority) (w : World)
    (n : Notification) (rest : list Notification) :
  items (queue_of p (priority_queues w)) = n :: rest ->
  within_capacity (queue_of p (priority_queues w)) ->
  admits (notification_type n) w = false ->
  exists w',
    drain env (S k) p w = drain env k p w' /\
    items (queue_of p (priority_queues w')) = rest ++ [n] /\
    maxsize (queue_of p (priority_queues w')) = maxsize (queue_of p (priority_queues w)) /\
    deliveries (trace w') = deliveries (trace w) /\
    rate_limiters w' = rate_limiters w.
Proof.
  intros E Cap Dn.
  destruct (drain_unfold_nonempty k p w n rest E) as (w1 & Ed & Hi1 & Hm1 & Hd1 & Hr1).
  assert (Room : queue_full (queue_of p (priority_queues w1)) = false).
  { unfold queue_full. rewrite Hm1, Hi1.
    destruct (maxsize (queue_of p (priority_queues w)) <=? 0) eqn:Z0; [reflexivity |].
    apply Z.leb_gt in Z0. apply Z.leb_gt.
    destruct Cap as [Cap | Cap]; [lia |]. rewrite E in Cap. simpl in Cap. lia. }
  assert (Dn1 : admits (notification_type n) w1 = false).
  { unfold admits. rewrite Hr1. exact Dn. }
  destruct (denied_send_spec {| self := n; world := w1 |} p Dn1 Room)
    as (o' & Es & Hs & Hi & Hm & _ & Hd & _ & Hr & _).
  exists (world o'). split.
  - rewrite Ed. unfold bind, call_send_notification. rewrite Es. reflexivity.
  - simpl in Hi, Hm, Hd, Hr. rewrite Hi, Hm, Hd, Hr, Hi1, Hm1, Hd1, Hr1. auto.
Qed.

(** X4. While the rate limiter denies the type of every notification
    waiting in a queue, the inner loop of the dispatch loop never leaves
    that queue: each notification it takes is put back at the tail, so
    after any number of tests of the loop condition the loop is still
    running, the queue holds the same notifications rotated, and no
    channel has been asked to deliver. *)
Theorem drain_spins_while_denied (fuel : nat) (p : NotificationPriority) (w : World) :
  items (queue_of p (priority_queues w)) <> [] ->
  within_capacity (queue_of p (priority_queues w)) ->
  (forall n, In n (items (queue_of p (priority_queues w))) ->
             admits (notification_type n) w = false) ->
  fst (drain env fuel p w) = Unfinished /\
  items (queue_of p (priority_queues (snd (drain env fuel p w)))) =
    Nat.iter fuel rotate (items (queue_of p (priority_queues w))) /\
  deliveries (trace (snd (drain env fuel p w))) = deliveries (trace w) /\
  rate_limiters (snd (drain env fuel p w)) = rate_limiters w.
Proof.
  revert w. induction fuel as [| k IH]; intros w Ne Cap Dn.
  - simpl. auto.
  - destruct (items (queue_of p (priority_queues w))) as [| n rest] eqn:E;
      [congruence |].
    destruct (drain_step_denied k p w n rest E Cap (Dn n (or_introl eq_refl)))
      as (w' & Ed & Hi & Hm & Hd & Hr).
    rewrite Ed.
    assert (Ne' : items (queue_of p (priority_queues w')) <> []).
    { rewrite Hi. destruct rest; discriminate. }
    assert (Cap' : within_capacity (queue_of p (priority_queues w'))).
    { unfold within_capacity in *. rewrite Hm, Hi. rewrite E in Cap.
      rewrite length_app. simpl in *. destruct Cap as [Cap | Cap]; [left | right]; lia. }
    assert (Dn' : forall m, In m (items (queue_of p (priority_queues w'))) ->
                            admits (notification_type m) w' = false).
    { intros m Hm'. rewrite Hi in Hm'. unfold admits. rewrite Hr.
      apply Dn. apply in_app_or in Hm'. destruct Hm' as [H | [<- | []]];
        [right; exact H | left; reflexivity]. }
    destruct (IH w' Ne' Cap' Dn') as (F & I & D & R).
    split; [exact F |]. split.
    + rewrite I, Hi. rewrite Nat.iter_succ_r. reflexivity.
    + split; congruence.
Qed.

Lemma email_final_status_idem (s : NotificationStatus) :
  email_final_status (email_final_status s) = email_final_status s.
Proof. destruct s; reflexivity. Qed.

(** One attempt of [send_notification] on an admitted email, from any
    status and whatever the transport does: it raises, after one or two
    runs of the transport (one when the notification is already Failed or
    Cancelled, or when the first run delivers). *)
Lemma email_attempt_raises (o : Obj) (p : NotificationPriority) :
  notification_type (self o) = EMAIL ->
  admits EMAIL (world o) = true ->
  exists e o',
    send_notification_body env p o = (Raised e, o') /\
    notification_type (self o') = EMAIL /\
    admits EMAIL (world o') = true /\
    status (self o') = email_final_status (status (self o)) /\
    (S (sends (world o)) <= sends (world o') <= S (S (sends (world o))))%nat /\
    (status (self o) = FAILED \/ status (self o) = CANCELLED ->
     sends (world o') = S (sends (world o))) /\
    (transport_at env (sends (world o)) = Delivered ->
     sends (world o') = S (sends (world o))).
Proof.
  destruct o as [n w]. destruct n. simpl. intros -> Ad.
  unfold admits in Ad. simpl in Ad.
  destruct (get_status_history metadata0) as [v | items entries] eqn:Hv;
    destruct status0;
    run_calls; rewrite Ad; simpl;
    history_steps Hv;
    (destruct (transport_at env (sends w)) as [| e1]; simpl;
     history_steps Hv;
     [ eexists; eexists; (split; [reflexivity |]); simpl; repeat split; auto;
       try lia; try (intros [H | H]; discriminate H); try (intros H; discriminate H)
     | destruct e1; simpl;
       history_steps Hv;
       try (eexists; eexists; (split; [reflexivity |]); simpl; repeat split; auto;
            try lia; try (intros [H | H]; discriminate H);
            try (intros H; discriminate H); fail);
       destruct (transport_at env (S (sends w))) as [| e2]; simpl;
       history_steps Hv;
       try (eexists; eexists; (split; [reflexivity |]); simpl; repeat split; auto;
            try lia; try (intros [H | H]; discriminate H);
            try (intros H; discriminate H); fail);
       destruct (is_SMTPException e2); simpl;
       history_steps Hv;
       (eexists; eexists; (split; [reflexivity |]); simpl; repeat split; auto;
        try lia; try (intros [H | H]; discriminate H);
        try (intros H; discriminate H)) ]).
Qed.

(** X5. The email channel never reports success. Whatever its status
    and whatever the transport does, [send_notification] on an email the
    rate limiter admits raises [RetryError]; the notification ends Failed
    (Cancelled when it was Cancelled), never Sent; and the three attempts
    of the retry policy run the transport three or four times: a message
    the server accepts every time is transmitted three times. *)
Theorem admitted_email_send_always_raises (o : Obj) (p : NotificationPriority) :
  notification_type (self o) = EMAIL ->
  admits EMAIL (world o) = true ->
  exists e o',
    send_notification env p o = (Raised (RetryError e), o') /\
    status (self o') = email_final_status (status (self o)) /\
    status (self o') <> SENT /\
    (3 + sends (world o) <= sends (world o') <= 4 + sends (world o))%nat /\
    ((forall k, transport_at env k = Delivered) ->
     sends (world o') = (3 + sends (world o))%nat).
Proof.
  intros Ty Ad.
  destruct (email_attempt_raises o p Ty Ad)
    as (e1 & o1 & E1 & Ty1 & Ad1 & St1 & N1 & _ & D1).
  destruct (email_attempt_raises o1 p Ty1 Ad1)
    as (e2 & o2 & E2 & Ty2 & Ad2 & St2 & _ & F2 & _).
  destruct (email_attempt_raises o2 p Ty2 Ad2)
    as (e3 & o3 & E3 & Ty3 & Ad3 & St3 & _ & F3 & _).
  assert (Fin : forall s, email_final_status s = FAILED \/
                          email_final_status s = CANCELLED)
    by (intros s; destruct s; simpl; auto).
  assert (N2 : sends (world o2) = S (sends (world o1))).
  { apply F2. rewrite St1. apply Fin. }
  assert (N3 : sends (world o3) = S (sends (world o2))).
  { apply F3. rewrite St2. apply Fin. }
  exists e3, o3. unfold send_notification. simpl retry. unfold try_except.
  rewrite E1, E2, E3. split; [reflexivity |].
  assert (St : status (self o3) = email_final_status (status (self o))).
  { rewrite St3, St2, St1, !email_final_status_idem. reflexivity. }
  split; [exact St |]. split.
  { rewrite St. destruct (status (self o)); discriminate. }
  split; [lia |].
  intros All. rewrite N3, N2, (D1 (All _)). reflexivity.
Qed.

End SendProperties.

(* ===================================================================== *)
(** ** The life of a notification                                         *)
(* ===================================================================== *)

Section LifecycleProperties.

Variable env : Env.

(** A constructed notification, field by field. *)
Lemma new_Notification_fields (a : NotificationArgs) (w : World)
    (n : Notification) (w' : World) :
  new_Notification env a w = (Returned n, w') ->
  status n = PENDING /\
  retry_count n = 0%nat /\
  error_messages n = [] /\
  status_history (metadata n) = [] /\
  created_at n = utcnow_at env (reads w) /\
  updated_at n = utcnow_at env (S (reads w)) /\
  id n = uuid4_at env (draws w) /\
  correlation_id (metadata n) = Some (uuid4_at env (S (draws w))) /\
  user_entries (metadata n) = arg_metadata a /\
  (reads w < reads w')%nat.
Proof.
  unfold new_Notification, init_fields, post_init. run_monad.
  destruct (negb (truthy (arg_template_name a))
            || negb (isinstance_str (arg_template_name a))); simpl;
    [discriminate |].
  destruct (Nat.eqb (List.length (arg_recipients a)) 0); simpl; [discriminate |].
  destruct (negb (isinstance_dict (arg_content a))); simpl; [discriminate |].
  destruct (arg_scheduled_for a) as [[t | t] |]; simpl.
  - destruct (t <? utcnow_at env (S (S (reads w)))); simpl; [discriminate |].
    intros E. injection E as <- <-. simpl. repeat split; lia.
  - discriminate.
  - intros E. injection E as <- <-. simpl. repeat split; lia.
Qed.

(** A valid transition, as the audit trail and the clock see it. *)
Lemma update_status_valid_trail (o : Obj) (s : NotificationStatus)
    (m : option string) :
  status_in s (valid_transitions (status (self o))) = true ->
  (exists t_last t,
     history_ok (metadata (self o)) = true ->
     metadata (self (snd (update_status env s m o))) =
     metadata_status_change t_last t s m (metadata (self o))) /\
  (reads (world o) < reads (world (snd (update_status env s m o))))%nat /\
  (truthy_opt m && status_eqb s FAILED = true ->
   (S (reads (world o)) < reads (world (snd (update_status env s m o))))%nat).
Proof.
  intros V. unfold update_status, history_ok. run_monad. rewrite V. simpl.
  destruct (truthy_opt m && status_eqb s FAILED); simpl;
    destruct (get_status_history (metadata (self o))); simpl;
    (split; [first [ exists 0, 0; intros Ok; discriminate Ok
                   | do 2 eexists; intros _; reflexivity ] |]);
    split; try lia; intros; try lia; discriminate.
Qed.

Lemma seq_snoc (k : nat) : seq 0 (S k) = seq 0 k ++ [k].
Proof. rewrite seq_S. reflexivity. Qed.

(** [update_status] only ever adds to the error history and to
    [retry_count]. *)
Lemma update_status_grows (o : Obj) (s : NotificationStatus) (m : option string) :
  (exists added,
     error_messages (self (snd (update_status env s m o))) =
     error_messages (self o) ++ added) /\
  (retry_count (self o)
   <= retry_count (self (snd (update_status env s m o))))%nat.
Proof.
  destruct (status_in s (valid_transitions (status (self o)))) eqn:V.
  - destruct (update_status_valid env o s m V)
      as (o1 & E1 & _ & _ & _ & _ & _ & _ & _ & _ & _ & _ & H & _).
    rewrite E1. simpl.
    destruct (truthy_opt m && status_eqb s FAILED); destruct H as [H1 H2];
      rewrite H1, H2; split; eauto; try lia.
    exists []. rewrite app_nil_r. reflexivity.
  - rewrite (update_status_invalid env o s m V). simpl. split; [| lia].
    exists []. rewrite app_nil_r. reflexivity.
Qed.

(** X6. The error history is append-only and indexed. [update_status]
    never removes or rewrites an entry and never lowers [retry_count];
    and from construction on, the entries record the retry counts
    0, 1, 2, ... in order: the i-th failure carries i. *)
Theorem error_history_is_indexed :
  (forall a w n w',
     new_Notification env a w = (Returned n, w') -> indexed_history n)
  /\
  (forall o s m,
     indexed_history (self o) ->
     indexed_history (self (snd (update_status env s m o))))
  /\
  (forall o s m,
     (exists added,
        error_messages (self (snd (update_status env s m o))) =
        error_messages (self o) ++ added) /\
     (retry_count (self o)
      <= retry_count (self (snd (update_status env s m o))))%nat).
Proof.
  split; [| split].
  - intros a w n w' E.
    destruct (new_Notification_fields a w n w' E) as (_ & Hc & He & _).
    unfold indexed_history. rewrite Hc, He. reflexivity.
  - intros o s m I. unfold indexed_history in *.
    destruct (status_in s (valid_transitions (status (self o)))) eqn:V.
    + destruct (update_status_valid env o s m V)
        as (o1 & E1 & _ & _ & _ & _ & _ & _ & _ & _ & _ & _ & H & _).
      rewrite E1. simpl.
      destruct (truthy_opt m && status_eqb s FAILED); destruct H as [H1 H2];
        rewrite H1, H2; [| exact I].
      rewrite map_app, seq_snoc, I. reflexivity.
    + rewrite (update_status_invalid env o s m V). exact I.
  - apply update_status_grows.
Qed.

Lemma last_snoc {A} (l : list A) (x d : A) : last (l ++ [x]) d = x.
Proof. apply last_last. Qed.

Lemma failed_errors_snoc (h : list StatusChange) (c : StatusChange) :
  failed_errors (h ++ [c]) = failed_errors h ++ failed_errors [c].
Proof.
  induction h as [| c0 h IH]; [reflexivity |].
  cbn [app failed_errors]. rewrite IH.
  destruct (sc_error c0); [destruct (String.eqb _ _) |]; reflexivity.
Qed.

(** X7. The audit trail kept in [metadata] agrees with the notification,
    for a caller that put nothing under ["status_history"]. From
    construction on and after every [update_status], successful or not,
    what is under that key is the list of the status changes made, the
    last entry names the current status (no entry: Pending), and the
    messages of the error history are exactly the errors of the trail's
    Failed entries, in the same order. *)
Theorem audit_trail_agrees :
  (forall a w n w',
     new_Notification env a w = (Returned n, w') ->
     dict_get "status_history" (arg_metadata a) = None ->
     audit_trail n)
  /\
  (forall o s m,
     audit_trail (self o) ->
     audit_trail (self (snd (update_status env s m o)))).
Proof.
  split.
  - intros a w n w' E Hm.
    destruct (new_Notification_fields a w n w' E)
      as (Hs & _ & He & Hh & _ & _ & _ & _ & Hu & _).
    exists []. unfold get_status_history. rewrite Hu, Hm, Hs, He, Hh.
    repeat split.
  - intros o s m (entries & G & L & F). unfold audit_trail.
    destruct (status_in s (valid_transitions (status (self o)))) eqn:V.
    + assert (Ok : history_ok (metadata (self o)) = true).
      { unfold history_ok. rewrite G. reflexivity. }
      destruct (update_status_valid_trail o s m V) as ((t_last & t & Hh) & _).
      specialize (Hh Ok).
      destruct (update_status_valid env o s m V)
        as (o1 & E1 & Hs & _ & _ & _ & _ & _ & _ & _ & _ & _ & H & _).
      rewrite E1 in *. simpl in *.
      eexists. split; [rewrite Hh, get_status_history_change, G; reflexivity |].
      rewrite Hs. split.
      * rewrite map_app. simpl. apply last_snoc.
      * rewrite failed_errors_snoc, <- F. simpl.
        destruct m as [msg |]; simpl in *.
        -- destruct (String.eqb msg EmptyString) eqn:Em; simpl in *.
           ++ destruct H as [H1 _]. rewrite H1, app_nil_r. reflexivity.
           ++ destruct s; simpl in *; destruct H as [H1 _]; rewrite H1;
                rewrite ?map_app, ?app_nil_r; reflexivity.
        -- destruct H as [H1 _]. rewrite H1, app_nil_r. reflexivity.
    + rewrite (update_status_invalid env o s m V). simpl. exists entries. auto.
Qed.

Lemma sorted_snoc (l : list Z) (x : Z) :
  StronglySorted Z.le l -> Forall (fun t => t <= x) l ->
  StronglySorted Z.le (l ++ [x]).
Proof.
  induction l as [| y l IH]; intros S F; simpl.
  - constructor; constructor.
  - inversion S as [| ? ? S' Fy]; subst. inversion F as [| ? ? Hy F']; subst.
    constructor; [apply IH; assumption |].
    apply Forall_app. split; [exact Fy | constructor; [exact Hy | constructor]].
Qed.

(** X8. Under a clock that never goes back, the timestamps of a
    notification are chronological: construction establishes it,
    [update_status] keeps it, and so does any passing of time. The
    reference time of [can_retry] is then the time of the failure
    recorded last. *)
Theorem history_is_chronological :
  monotone_clock env ->
  (forall a w n w',
     new_Notification env a w = (Returned n, w') ->
     chronological env {| self := n; world := w' |})
  /\
  (forall o s m,
     chronological env o -> chronological env (snd (update_status env s m o)))
  /\
  (forall n w w',
     chronological env {| self := n; world := w |} ->
     (reads w <= reads w')%nat ->
     chronological env {| self := n; world := w' |})
  /\
  (forall o e es,
     chronological env o ->
     error_messages (self o) = es ++ [e] ->
     last_attempt (self o) = err_timestamp e).
Proof.
  intros Mono. split; [| split; [| split]].
  - intros a w n w' E.
    destruct (new_Notification_fields a w n w' E)
      as (_ & _ & He & _ & Hc & Hu & _ & _ & _ & Hr).
    unfold chronological. simpl. rewrite He, Hc, Hu. simpl.
    repeat split; try constructor; apply Mono; lia.
  - intros o s m (So & Bo & Cr & Cu). unfold chronological.
    destruct (status_in s (valid_transitions (status (self o)))) eqn:V.
    + destruct (update_status_valid_trail o s m V) as (_ & Hr & Hr2).
      destruct (update_status_valid env o s m V)
        as (o1 & E1 & _ & Hu & Hc & _ & _ & _ & _ & _ & _ & _ & H & _).
      rewrite E1 in *. simpl in *. rewrite Hc, Hu.
      assert (Later : forall t0, t0 <= utcnow_at env (reads (world o)) ->
                                 t0 <= utcnow_at env (reads (world o1))).
      { intros t0 H0. etransitivity; [exact H0 | apply Mono; lia]. }
      destruct (truthy_opt m && status_eqb s FAILED); destruct H as [H1 _];
        rewrite H1.
      * rewrite map_app. simpl. split; [| split; [| split]].
        -- apply sorted_snoc; [exact So |].
           eapply Forall_impl; [| exact Bo]. simpl. intros t0 [_ H0].
           etransitivity; [exact H0 | apply Mono; lia].
        -- apply Forall_app. split.
           ++ eapply Forall_impl; [| exact Bo]. simpl. intros t0 [H0 H0'].
              split; [exact H0 | apply Later; exact H0'].
           ++ constructor; [| constructor]. split.
              ** etransitivity; [exact Cr | apply Mono; lia].
              ** apply Mono. specialize (Hr2 eq_refl). lia.
        -- apply Later. exact Cr.
        -- exact Cr.
      * split; [exact So |]. split; [| split].
        -- eapply Forall_impl; [| exact Bo]. simpl. intros t0 [H0 H0'].
           split; [exact H0 | apply Later; exact H0'].
        -- apply Later. exact Cr.
        -- exact Cr.
    + rewrite (update_status_invalid env o s m V). simpl. auto.
  - intros n w w' (So & Bo & Cr & Cu) Le. unfold chronological. simpl in *.
    split; [exact So |]. split; [| split]; [| | exact Cu].
    + eapply Forall_impl; [| exact Bo]. simpl. intros t0 [H0 H0'].
      split; [exact H0 | etransitivity; [exact H0' | apply Mono; exact Le]].
    + etransitivity; [exact Cr | apply Mono; exact Le].
  - intros o e es (So & _) E.
    apply (last_attempt_chronological (self o) e es E So).
Qed.

End LifecycleProperties.

(* ===================================================================== *)
(** ** Recipient addresses                                                *)
(* ===================================================================== *)

Lemma nullable_lang (r : regex) : nullable r = true <-> lang r [].
Proof.
  induction r as [| | class | r1 IH1 r2 IH2 | r1 IH1 r2 IH2 | r0 IH]; simpl.
  - split; [discriminate | intros H; inversion H].
  - split; [constructor | reflexivity].
  - split; [discriminate | intros H; inversion H].
  - split; intros H.
    + apply andb_true_iff in H. destruct H as [H1 H2].
      change (@nil ascii) with (@nil ascii ++ []).
      constructor; [apply IH1 | apply IH2]; assumption.
    + inversion H; subst.
      match goal with
      | E : _ ++ _ = [] |- _ => apply app_eq_nil in E; destruct E; subst
      end.
      apply andb_true_iff. split; [apply IH1 | apply IH2]; assumption.
  - split; intros H.
    + apply orb_true_iff in H. destruct H as [H | H].
      * apply lang_alt_l. apply IH1. exact H.
      * apply lang_alt_r. apply IH2. exact H.
    + apply orb_true_iff. inversion H; subst.
      * left. apply IH1. assumption.
      * right. apply IH2. assumption.
  - split; [constructor | reflexivity].
Qed.

Lemma deriv_sound (r : regex) : forall a s, lang (deriv a r) s -> lang r (a :: s).
Proof.
  induction r; intros a s H; simpl in H.
  - inversion H.
  - inversion H.
  - destruct (class a) eqn:C; inversion H; subst. constructor. exact C.
  - destruct (nullable r1) eqn:N.
    + inversion H as [| | | ? ? ? HL | ? ? ? HR | |]; subst.
      * inversion HL as [| | ? ? s1 s2 L1 L2 | | | |]; subst.
        change (a :: s1 ++ s2) with ((a :: s1) ++ s2).
        constructor; [apply IHr1 |]; assumption.
      * change (a :: s) with ([] ++ a :: s).
        constructor; [apply nullable_lang; exact N | apply IHr2; exact HR].
    + inversion H as [| | ? ? s1 s2 L1 L2 | | | |]; subst.
      change (a :: s1 ++ s2) with ((a :: s1) ++ s2).
      constructor; [apply IHr1 |]; assumption.
  - inversion H; subst; [apply lang_alt_l, IHr1 | apply lang_alt_r, IHr2]; assumption.
  - inversion H as [| | ? ? s1 s2 L1 L2 | | | |]; subst.
    change (a :: s1 ++ s2) with ((a :: s1) ++ s2).
    constructor; [apply IHr; exact L1 | exact L2].
Qed.

Lemma deriv_complete (r : regex) (l : list ascii) :
  lang r l -> forall a s, l = a :: s -> lang (deriv a r) s.
Proof.
  induction 1 as [| class c C | r1 r2 s1 s2 L1 IH1 L2 IH2 | r1 r2 s0 L IH
                  | r1 r2 s0 L IH | r0 | r0 s1 s2 L1 IH1 L2 IH2];
    intros a s E; simpl.
  - discriminate E.
  - injection E as <- <-. rewrite C. constructor.
  - destruct s1 as [| b s1'].
    + simpl in E. apply nullable_lang in L1. rewrite L1.
      apply lang_alt_r. apply IH2. exact E.
    + injection E as <- <-.
      destruct (nullable r1); [apply lang_alt_l |];
        constructor; auto.
  - apply lang_alt_l. apply IH. exact E.
  - apply lang_alt_r. apply IH. exact E.
  - discriminate E.
  - destruct s1 as [| b s1'].
    + apply IH2. exact E.
    + injection E as <- <-. constructor; auto.
Qed.

(** The matcher decides the language. *)
Lemma fullmatch_lang (s : list ascii) : forall r, fullmatch r s = true <-> lang r s.
Proof.
  induction s as [| a s IH]; intros r; simpl.
  - apply nullable_lang.
  - rewrite IH. split.
    + apply deriv_sound.
    + intros H. apply (deriv_complete r (a :: s) H a s eq_refl).
Qed.

Lemma lang_cat_inv (r1 r2 : regex) (s : list ascii) :
  lang (Cat r1 r2) s <-> exists s1 s2, s = s1 ++ s2 /\ lang r1 s1 /\ lang r2 s2.
Proof.
  split.
  - intros H. inversion H; subst. eauto.
  - intros (s1 & s2 & -> & H1 & H2). constructor; assumption.
Qed.

Lemma lang_chr_inv (class : ascii -> bool) (s : list ascii) :
  lang (Chr class) s <-> exists a, s = [a] /\ class a = true.
Proof.
  split.
  - intros H. inversion H; subst. eauto.
  - intros (a & -> & H). constructor. exact H.
Qed.

Lemma lang_star_chr (class : ascii -> bool) (s : list ascii) :
  lang (Star (Chr class)) s <-> forallb class s = true.
Proof.
  split.
  - intros H. remember (Star (Chr class)) as r eqn:R.
    induction H as [| | | | | r0 | r0 s1 s2 L1 _ L2 IH2]; try discriminate R.
    + reflexivity.
    + injection R as ->. inversion L1; subst. simpl.
      rewrite H0. simpl. apply IH2. reflexivity.
  - induction s as [| a s IH]; simpl; intros H; [constructor |].
    apply andb_true_iff in H. destruct H as [Ha Hs].
    change (a :: s) with ([a] ++ s). constructor; [constructor; exact Ha | auto].
Qed.

Lemma lang_plus_chr (class : ascii -> bool) (s : list ascii) :
  lang (plus (Chr class)) s <-> s <> [] /\ forallb class s = true.
Proof.
  unfold plus. rewrite lang_cat_inv. split.
  - intros (s1 & s2 & -> & H1 & H2).
    apply lang_chr_inv in H1. destruct H1 as (a & -> & Ha).
    apply lang_star_chr in H2. simpl. rewrite Ha, H2. split; [discriminate | reflexivity].
  - intros [Ne H]. destruct s as [| a s]; [congruence |].
    simpl in H. apply andb_true_iff in H. destruct H as [Ha Hs].
    exists [a], s. split; [reflexivity |]. split.
    + constructor. exact Ha.
    + apply lang_star_chr. exact Hs.
Qed.

Lemma ascii_eqb_eq (a b : ascii) : Ascii.eqb a b = true <-> a = b.
Proof. apply Ascii.eqb_eq. Qed.

Lemma email_pattern_shape (l : list ascii) :
  fullmatch email_pattern l = true <-> email_shape l.
Proof.
  rewrite fullmatch_lang. unfold email_pattern, email_shape.
  split.
  - intros H.
    apply lang_cat_inv in H. destruct H as (local & s1 & -> & HL & H).
    apply lang_cat_inv in H. destruct H as (at_ & s2 & -> & HA & H).
    apply lang_cat_inv in H. destruct H as (domain & s3 & -> & HD & H).
    apply lang_cat_inv in H. destruct H as (dot & s4 & -> & HP & H).
    apply lang_cat_inv in H. destruct H as (t1 & s5 & -> & H1 & H).
    apply lang_cat_inv in H. destruct H as (t2 & s6 & -> & H2 & H).
    apply lang_plus_chr in HL, HD. destruct HL as [LN LF]. destruct HD as [DN DF].
    apply lang_chr_inv in HA, HP, H1, H2.
    destruct HA as (a & -> & Ha). destruct HP as (d & -> & Hd).
    destruct H1 as (c1 & -> & Hc1). destruct H2 as (c2 & -> & Hc2).
    apply ascii_eqb_eq in Ha, Hd. subst a d.
    apply lang_star_chr in H.
    exists local, domain, ([c1] ++ [c2] ++ s6).
    repeat split; auto.
    + simpl. lia.
    + simpl. rewrite Hc1, Hc2, H. reflexivity.
  - intros (local & domain & tld & -> & LN & LF & DN & DF & T2 & TF).
    destruct tld as [| c1 [| c2 tl]]; simpl in T2; try lia.
    simpl in TF. apply andb_true_iff in TF. destruct TF as [Hc1 TF].
    apply andb_true_iff in TF. destruct TF as [Hc2 TF].
    constructor; [apply lang_plus_chr; auto |].
    constructor; [constructor; reflexivity |].
    constructor; [apply lang_plus_chr; auto |].
    constructor; [constructor; reflexivity |].
    change (c1 :: c2 :: tl) with ([c1] ++ [c2] ++ tl).
    constructor; [constructor; exact Hc1 |].
    constructor; [constructor; exact Hc2 |].
    apply lang_star_chr. exact TF.
Qed.


Lemma rev_cons_last {A} (l before : list A) (c : A) :
  rev l = c :: before <-> l = rev before ++ [c].
Proof.
  split; intros H.
  - rewrite <- (rev_involutive l), H. reflexivity.
  - rewrite H, rev_app_distr, rev_involutive. reflexivity.
Qed.

Lemma count_occ_class (class : ascii -> bool) (l : list ascii) (c : ascii) :
  forallb class l = true -> class c = false -> count_occ ascii_dec l c = 0%nat.
Proof.
  intros F C. induction l as [| a l IH]; [reflexivity |].
  simpl in F. apply andb_true_iff in F. destruct F as [Fa Fl]. simpl.
  destruct (ascii_dec a c) as [-> | _]; [congruence | auto].
Qed.

Lemma email_shape_one_at (l : list ascii) :
  email_shape l -> count_occ ascii_dec l "@"%char = 1%nat.
Proof.
  intros (local & domain & tld & -> & _ & LF & _ & DF & _ & TF).
  rewrite !count_occ_app.
  rewrite (count_occ_class local_class local "@" LF eq_refl).
  rewrite (count_occ_class domain_class domain "@" DF eq_refl).
  rewrite (count_occ_class alpha tld "@" TF eq_refl).
  reflexivity.
Qed.

(** X12. What the recipient pattern accepts. [re.match] accepts an
    address exactly when it is a non-empty local part over
    [[a-zA-Z0-9._%+-]], an [@], a non-empty domain over [[a-zA-Z0-9.-]],
    a dot and at least two letters, optionally followed by ONE newline
    (the pattern's [$] also matches before a final newline). Every
    accepted address contains exactly one [@]. *)
Theorem email_match_characterised (recipient : string) :
  (email_match recipient = true <->
   email_shape (list_ascii_of_string recipient) \/
   exists l, list_ascii_of_string recipient = l ++ ["010"%char] /\ email_shape l)
  /\
  (email_match recipient = true ->
   count_occ ascii_dec (list_ascii_of_string recipient) "@"%char = 1%nat).
Proof.
  assert (Iff : email_match recipient = true <->
                email_shape (list_ascii_of_string recipient) \/
                exists l, list_ascii_of_string recipient = l ++ ["010"%char]
                          /\ email_shape l).
  { unfold email_match, re_match. cbv zeta. rewrite orb_true_iff.
    rewrite email_pattern_shape. split.
    - intros [H | H]; [left; exact H | right].
      destruct (rev (list_ascii_of_string recipient)) as [| c before] eqn:R;
        [discriminate |].
      apply andb_true_iff in H. destruct H as [Hc Hm].
      apply Ascii.eqb_eq in Hc. subst c.
      apply rev_cons_last in R. apply email_pattern_shape in Hm.
      exists (rev before). split; assumption.
    - intros [H | (l & E & H)]; [left; exact H | right].
      rewrite E, rev_app_distr. simpl. rewrite rev_involutive.
      apply email_pattern_shape. exact H. }
  split; [exact Iff |].
  intros H. apply Iff in H. destruct H as [H | (l & E & H)].
  - apply email_shape_one_at. exact H.
  - rewrite E, count_occ_app, (email_shape_one_at l H). reflexivity.
Qed.

Lemma check_email_formats_spec (v : list string) :
  match check_email_formats v with
  | Returned _ => forallb email_match v = true
  | Raised e =>
      exists good r rest,
        v = good ++ r :: rest /\
        forallb email_match good = true /\
        email_match r = false /\
        e = ValueError (String.append "Invalid email format: " r)
  | Suspended | Unfinished => False
  end.
Proof.
  induction v as [| r v IH]; simpl; [reflexivity |].
  destruct (email_match r) eqn:M; simpl.
  - destruct (check_email_formats v) as [u | e | |]; auto.
    destruct IH as (good & r0 & rest & -> & G & B & E).
    exists (r :: good), r0, rest. simpl. rewrite M, G. auto.
  - exists [], r, v. auto.
Qed.

(** X13. The request validator of the recipients and what it promises
    downstream. [validate_recipients] returns the list as it is exactly
    when it is not empty, has at most 1000 entries and every entry
    matches the pattern; otherwise it raises, naming the FIRST entry that
    does not match when the list has between 1 and 1000 entries. A list
    it returns passes the email service's own filter unchanged and is
    accepted by the constructor's recipients check. *)
Theorem validate_recipients_spec (v : list string) :
  match validate_recipients v with
  | Returned v' =>
      v' = v /\ v <> [] /\ (List.length v <= 1000)%nat /\
      forallb email_match v = true /\
      _validate_recipients v = v
  | Raised e =>
      (v = [] /\ e = ValueError "Recipients list cannot be empty") \/
      ((1000 < List.length v)%nat /\ e = ValueError "Too many recipients") \/
      (v <> [] /\ (List.length v <= 1000)%nat /\
       exists good r rest,
         v = good ++ r :: rest /\
         forallb email_match good = true /\
         email_match r = false /\
         e = ValueError (String.append "Invalid email format: " r))
  | Suspended | Unfinished => False
  end.
Proof.
  unfold validate_recipients.
  destruct (Nat.eqb (List.length v) 0) eqn:E0.
  { left. apply Nat.eqb_eq in E0. destruct v; [auto | discriminate]. }
  destruct (Nat.ltb 1000 (List.length v)) eqn:E1.
  { right. left. apply Nat.ltb_lt in E1. auto. }
  apply Nat.eqb_neq in E0. apply Nat.ltb_ge in E1.
  assert (Ne : v <> []) by (intros ->; apply E0; reflexivity).
  pose proof (check_email_formats_spec v) as C.
  destruct (check_email_formats v) as [u | e | |]; try contradiction.
  - repeat split; auto. unfold _validate_recipients.
    clear - C. induction v as [| r v IH]; [reflexivity |].
    simpl in *. apply andb_true_iff in C. destruct C as [Cr Cv].
    rewrite Cr, (IH Cv). reflexivity.
  - right. right. auto.
Qed.

Section RequestProperties.

Variable env : Env.

Lemma retry_raises_RetryError {St A} (k : nat) (c : M St A) (s s' : St) (e : exn) :
  retry k c s = (Raised e, s') -> exists e0, e = RetryError e0.
Proof.
  revert s. induction k as [| k IH]; intros s; simpl; unfold try_except.
  - destruct (c s) as [[a | e0 | |] s1]; intros H; try discriminate H.
    unfold raise in H. injection H as <- _. eauto.
  - destruct (c s) as [[a | e0 | |] s1]; intros H; try discriminate H.
    apply (IH s1). exact H.
Qed.

Lemma call_send_raises_RetryError (n : Notification) (p : NotificationPriority)
    (w w' : World) (e : exn) :
  call_send_notification env n p w = (Raised e, w') -> exists e0, e = RetryError e0.
Proof.
  unfold call_send_notification.
  destruct (send_notification env p {| self := n; world := w |}) as [r o] eqn:E.
  intros H. injection H as -> _.
  apply (retry_raises_RetryError _ _ _ _ _ E).
Qed.

(** Why the constructor raises, message by message. *)
Lemma new_Notification_raises (a : NotificationArgs) (w w' : World) (e : exn) :
  new_Notification env a w = (Raised e, w') ->
  (e = ValueError "Invalid template name" /\
   negb (truthy (arg_template_name a)) || negb (isinstance_str (arg_template_name a))
   = true) \/
  (e = ValueError "Recipients list cannot be empty" /\ arg_recipients a = []) \/
  (e = ValueError "Content must be a dictionary" /\
   isinstance_dict (arg_content a) = false) \/
  (e = ValueError "Scheduled time cannot be in the past" /\
   exists t, arg_scheduled_for a = Some (Naive t) /\
             t < utcnow_at env (2 + reads w)) \/
  (e = compare_TypeError /\ exists t, arg_scheduled_for a = Some (Aware t)).
Proof.
  unfold new_Notification, init_fields, post_init. run_monad.
  destruct (negb (truthy (arg_template_name a))
            || negb (isinstance_str (arg_template_name a))) eqn:T; simpl.
  { intros H. injection H as <- _. left. auto. }
  destruct (Nat.eqb (List.length (arg_recipients a)) 0) eqn:R; simpl.
  { intros H. injection H as <- _. right. left. split; [reflexivity |].
    apply Nat.eqb_eq in R. destruct (arg_recipients a); [reflexivity | discriminate]. }
  destruct (negb (isinstance_dict (arg_content a))) eqn:C; simpl.
  { intros H. injection H as <- _. right. right. left.
    apply negb_true_iff in C. auto. }
  destruct (arg_scheduled_for a) as [[t | t] |]; simpl.
  - destruct (t <? utcnow_at env (S (S (reads w)))) eqn:P; simpl.
    + intros H. injection H as <- _. right. right. right. left.
      split; [reflexivity |]. exists t. split; [reflexivity |].
      apply Z.ltb_lt. exact P.
    + discriminate.
  - intros H. injection H as <- _. do 4 right. split; [reflexivity |]. eauto.
  - discriminate.
Qed.

(** X14. What a 400 means for a validated request. When the template
    name and the recipients of a request have passed their validators,
    [create_notification] answers 400 only for a [scheduled_for] that lies
    in the past, with the detail "Scheduled time cannot be in the past":
    none of the constructor's other checks can fire, and a failing send
    or a timezone-aware [scheduled_for] answers 500. *)
Theorem validated_request_400_is_past_schedule (request : NotificationRequest)
    (w w' : World) (detail : string) :
  validate_template_name (PyStr (req_template_name request))
  = Returned (PyStr (req_template_name request)) ->
  validate_recipients (req_recipients request) = Returned (req_recipients request) ->
  create_notification env request w = (Raised (HTTPException 400 detail), w') ->
  detail = "Scheduled time cannot be in the past"%string /\
  exists t, req_scheduled_for request = Some (Naive t) /\
            t < utcnow_at env (2 + reads w).
Proof.
  intros Vt Vr.
  assert (Tn : negb (truthy (PyStr (req_template_name request)))
               || negb (isinstance_str (PyStr (req_template_name request))) = false).
  { unfold validate_template_name in Vt.
    destruct (negb (truthy (PyStr (req_template_name request)))
              || negb (isinstance_str (PyStr (req_template_name request))));
      [discriminate Vt | reflexivity]. }
  assert (Rn : req_recipients request <> []).
  { pose proof (validate_recipients_spec (req_recipients request)) as S.
    rewrite Vr in S. apply S. }
  unfold create_notification, try_except.
  set (a := {| arg_template_name := PyStr (req_template_name request);
               arg_notification_type := req_notification_type request;
               arg_content := PyDict (req_content request);
               arg_recipients := req_recipients request;
               arg_priority := req_priority request;
               arg_metadata := req_metadata request;
               arg_scheduled_for := req_scheduled_for request |}).
  unfold bind at 1.
  destruct (new_Notification env a w) as [[n | e | |] w1] eqn:E.
  - run_monad.
    destruct (scheduled_for n) as [[t | t] |]; simpl.
    + destruct (utcnow_at env (reads w1) <? t); simpl; [discriminate |].
      destruct (call_send_notification env n (priority n) (set_reads (S (reads w1)) w1))
        as [[b | e | |] w2] eqn:Es; simpl; try discriminate.
      destruct (call_send_raises_RetryError _ _ _ _ _ Es) as (e0 & ->).
      discriminate.
    + discriminate.
    + destruct (call_send_notification env n (priority n) w1)
        as [[b | e | |] w2] eqn:Es; simpl; try discriminate.
      destruct (call_send_raises_RetryError _ _ _ _ _ Es) as (e0 & ->).
      discriminate.
  - destruct (new_Notification_raises a w w1 e E)
      as [(-> & B) | [(-> & B) | [(-> & B) | [(-> & t & B & Lt) | (-> & t & B)]]]];
      simpl in B.
    + simpl in Tn. congruence.
    + congruence.
    + discriminate B.
    + unfold raise. intros H. injection H as <- _. split; [reflexivity |].
      exists t. auto.
    + discriminate.
  - discriminate.
  - discriminate.
Qed.

End RequestProperties.


(* ===================================================================== *)
(** ** Template contexts and escaping                                     *)
(* ===================================================================== *)

(** Induction over context values, through the lists and dictionaries. *)
Lemma PyObj_nested_ind (P : PyObj -> Prop) :
  P ONone -> (forall b, P (OBool b)) -> (forall z, P (OInt z)) ->
  (forall f, P (OFloat f)) -> (forall s, P (OStr s)) ->
  (forall l, Forall P l -> P (OList l)) ->
  (forall l, Forall P l -> P (OTuple l)) ->
  (forall d, Forall (fun kv => P (snd kv)) d -> P (ODict d)) ->
  (forall t, P (OOther t)) ->
  forall v, P v.
Proof.
  intros HN HB HI HF HS HL HT HD HO.
  fix IH 1. intros [| b | z | f | s | l | l | d | t].
  - exact HN.
  - apply HB.
  - apply HI.
  - apply HF.
  - apply HS.
  - apply HL. induction l as [| x l IHl]; constructor; [apply IH | exact IHl].
  - apply HT. induction l as [| x l IHl]; constructor; [apply IH | exact IHl].
  - apply HD. induction d as [| [k x] d IHd]; constructor; [apply IH | exact IHd].
  - apply HO.
Qed.

Lemma validate_value_ends (v : PyObj) :
  match validate_value v with
  | Returned _ => True
  | Raised (ValueError _) => True
  | _ => False
  end.
Proof.
  induction v as [| b | z | f | s | l IH | l IH | d IH | t] using PyObj_nested_ind;
    simpl; auto.
  - induction IH as [| x l Hx _ IHl]; [exact I |].
    destruct (validate_value x) as [u | [] | |]; auto; contradiction.
  - induction IH as [| x l Hx _ IHl]; [exact I |].
    destruct (validate_value x) as [u | [] | |]; auto; contradiction.
  - induction IH as [| [k x] d Hx _ IHd]; [exact I |].
    simpl in *. destruct (is_OStr k); simpl; [| exact I].
    destruct (validate_value x) as [u | [] | |]; auto; contradiction.
Qed.



Lemma has_markup_append (s t : string) :
  has_markup (String.append s t) = has_markup s || has_markup t.
Proof.
  induction s as [| a s IH]; simpl; [reflexivity |].
  rewrite IH, orb_assoc. reflexivity.
Qed.

Lemma string_append_assoc (s t u : string) :
  String.append s (String.append t u) = String.append (String.append s t) u.
Proof. induction s as [| a s IH]; simpl; [reflexivity |]. rewrite IH. reflexivity. Qed.

Lemma replace_char_append (c : ascii) (b s t : string) :
  replace_char c b (String.append s t)
  = String.append (replace_char c b s) (replace_char c b t).
Proof.
  induction s as [| a s IH]; simpl; [reflexivity |].
  destruct (Ascii.eqb a c); simpl; rewrite IH; [| reflexivity].
  apply string_append_assoc.
Qed.

Lemma html_escape_each (s : string) : html_escape s = escape_each s.
Proof.
  unfold html_escape. induction s as [| a s IH]; [reflexivity |].
  cbn [replace_char escape_each]. unfold escape_char.
  destruct (Ascii.eqb a "&") eqn:E1.
  { rewrite !replace_char_append, IH. reflexivity. }
  cbn [replace_char]. destruct (Ascii.eqb a "<") eqn:E2.
  { rewrite !replace_char_append, IH. reflexivity. }
  cbn [replace_char]. destruct (Ascii.eqb a ">") eqn:E3.
  { rewrite !replace_char_append, IH. reflexivity. }
  cbn [replace_char]. destruct (Ascii.eqb a "034") eqn:E4.
  { rewrite !replace_char_append, IH. reflexivity. }
  cbn [replace_char]. destruct (Ascii.eqb a "039") eqn:E5.
  { rewrite IH. reflexivity. }
  rewrite IH. reflexivity.
Qed.

Lemma escape_each_no_markup (s : string) : has_markup (escape_each s) = false.
Proof.
  induction s as [| a s IH]; [reflexivity |].
  cbn [escape_each]. rewrite has_markup_append, IH, orb_false_r.
  unfold escape_char.
  destruct (Ascii.eqb a "&") eqn:E1; [reflexivity |].
  destruct (Ascii.eqb a "<") eqn:E2; [reflexivity |].
  destruct (Ascii.eqb a ">") eqn:E3; [reflexivity |].
  destruct (Ascii.eqb a "034") eqn:E4; [reflexivity |].
  destruct (Ascii.eqb a "039") eqn:E5; [reflexivity |].
  simpl. unfold markup_char. rewrite E2, E3, E4, E5. reflexivity.
Qed.

Lemma escape_char_cases (a : ascii) :
  a = "&"%char \/ a = "<"%char \/ a = ">"%char \/ a = "034"%char \/ a = "039"%char \/
  (escape_char a = String a EmptyString /\ a <> "&"%char).
Proof.
  unfold escape_char.
  destruct (Ascii.eqb a "&") eqn:E1; [apply Ascii.eqb_eq in E1; auto |].
  destruct (Ascii.eqb a "<") eqn:E2; [apply Ascii.eqb_eq in E2; auto |].
  destruct (Ascii.eqb a ">") eqn:E3; [apply Ascii.eqb_eq in E3; auto |].
  destruct (Ascii.eqb a "034") eqn:E4; [apply Ascii.eqb_eq in E4; auto 6 |].
  destruct (Ascii.eqb a "039") eqn:E5; [apply Ascii.eqb_eq in E5; auto 6 |].
  do 5 right. split; [reflexivity |]. apply Ascii.eqb_neq. exact E1.
Qed.

Lemma escape_each_injective (s t : string) :
  escape_each s = escape_each t -> s = t.
Proof.
  revert t. induction s as [| a s IH]; intros [| b t]; cbn [escape_each]; intros H.
  - reflexivity.
  - destruct (escape_char_cases b) as [-> | [-> | [-> | [-> | [-> | [Eb _]]]]]];
      try rewrite Eb in H; discriminate H.
  - destruct (escape_char_cases a) as [-> | [-> | [-> | [-> | [-> | [Ea _]]]]]];
      try rewrite Ea in H; discriminate H.
  - destruct (escape_char_cases a) as [-> | [-> | [-> | [-> | [-> | [Ea Na]]]]]];
      destruct (escape_char_cases b) as [-> | [-> | [-> | [-> | [-> | [Eb Nb]]]]]];
      try rewrite Ea in H; try rewrite Eb in H; cbn in H;
      try discriminate H;
      try (injection H as H; f_equal; apply IH; exact H);
      try (injection H as Hc H; subst; congruence);
      try (injection H as Hc H; subst; f_equal; apply IH; exact H).
Qed.

(** X16. What [_html_escape_filter] returns. The five replacements of
    [html.escape] do not interfere: the result is the input with each
    [&], [<], [>], double quote and single quote replaced by its entity
    and every other character kept. It contains no [<], [>] or quote,
    and different inputs give different results. *)
Theorem html_escape_filter_output (value : string) :
  _html_escape_filter value = escape_each value /\
  has_markup (_html_escape_filter value) = false /\
  (forall other, _html_escape_filter other = _html_escape_filter value ->
                 other = value).
Proof.
  unfold _html_escape_filter. split; [apply html_escape_each |].
  split; [rewrite html_escape_each; apply escape_each_no_markup |].
  intros other H. rewrite !html_escape_each in H.
  apply escape_each_injective. exact H.
Qed.


(* ===================================================================== *)
(** ** Properties of template loading                                     *)
(* ===================================================================== *)

Lemma dict_get_set_eq {V} (k : string) (v : V) (d : list (string * V)) :
  dict_get k (dict_set k v d) = Some v.
Proof.
  induction d as [| [k' v'] d IH]; simpl.
  - rewrite String.eqb_refl. reflexivity.
  - destruct (String.eqb k' k) eqn:E; simpl.
    + rewrite String.eqb_refl. reflexivity.
    + rewrite E. exact IH.
Qed.

Lemma dict_get_set_neq {V} (k k0 : string) (v : V) (d : list (string * V)) :
  k0 <> k -> dict_get k0 (dict_set k v d) = dict_get k0 d.
Proof.
  intros N. induction d as [| [k' v'] d IH]; simpl.
  - destruct (String.eqb k k0) eqn:E; [| reflexivity].
    apply String.eqb_eq in E. congruence.
  - destruct (String.eqb k' k) eqn:E; simpl.
    + apply String.eqb_eq in E. subst k'.
      destruct (String.eqb k k0) eqn:E0; [| reflexivity].
      apply String.eqb_eq in E0. congruence.
    + destruct (String.eqb k' k0); [reflexivity | exact IH].
Qed.

Lemma dict_mem_set {V} (k k0 : string) (v : V) (d : list (string * V)) :
  dict_mem k0 (dict_set k v d) = String.eqb k k0 || dict_mem k0 d.
Proof.
  unfold dict_mem. destruct (String.eqb k k0) eqn:E.
  - apply String.eqb_eq in E. subst. rewrite dict_get_set_eq. reflexivity.
  - rewrite dict_get_set_neq; [reflexivity |].
    intros ->. rewrite String.eqb_refl in E. discriminate.
Qed.

Section TemplateProperties.

Variable tenv : TemplateEnv.

Ltac run_templates t template_name :=
  unfold load_template, time_time, call, step; run_monad;
  change (String.append (type_value t) (String ":" template_name))
    with (cache_key t template_name).

(** Every path through [load_template] ends in an exception. *)
Lemma load_template_raises (template_name : string) (t : NotificationType)
    (bypass_cache : bool) (tm : TemplateManager) :
  exists e tm',
    load_template tenv template_name t bypass_cache tm = (Raised e, tm') /\
    _cache_timestamps tm' = _cache_timestamps tm /\
    _template_versions tm' = _template_versions tm /\
    _cache_ttl tm' = _cache_ttl tm /\
    (forall k, k <> cache_key t template_name ->
               dict_get k (_template_cache tm') = dict_get k (_template_cache tm)) /\
    (dict_mem (cache_key t template_name) (_template_cache tm) = true ->
     dict_mem (cache_key t template_name) (_template_cache tm') = true) /\
    (bypass_cache = false ->
     dict_mem (cache_key t template_name) (_template_cache tm) = true ->
     e = NameError "time" /\ tm' = tm).
Proof.
  run_templates t template_name.
  destruct (negb bypass_cache
            && dict_mem (cache_key t template_name) (_template_cache tm)) eqn:Hit;
    simpl.
  { do 2 eexists. repeat split; auto. }
  assert (Hmiss : bypass_cache = false ->
                  dict_mem (cache_key t template_name) (_template_cache tm) = true ->
                  False).
  { intros -> Hm. rewrite Hm in Hit. discriminate. }
  destruct (is_file tenv t template_name); simpl;
    [| do 2 eexists; repeat split; auto; intros; exfalso; auto].
  destruct (MAX_TEMPLATE_SIZE <? st_size tenv t template_name); simpl;
    [do 2 eexists; repeat split; auto; intros; exfalso; auto |].
  destruct (read_text tenv t template_name) as [e | template_content]; simpl;
    [do 2 eexists; repeat split; auto; intros; exfalso; auto |].
  destruct (validate_template tenv template_content) as [[] error]; simpl;
    [| do 2 eexists; repeat split; auto; intros; exfalso; auto].
  destruct (from_string tenv template_content) as [e | template]; simpl;
    [do 2 eexists; repeat split; auto; intros; exfalso; auto |].
  do 2 eexists. split; [reflexivity |]. simpl.
  split; [reflexivity |]. split; [reflexivity |]. split; [reflexivity |].
  split; [intros k Hk; apply dict_get_set_neq; exact Hk |].
  split; [intros _; rewrite dict_mem_set, String.eqb_refl; reflexivity |].
  intros Hb Hm. exfalso. auto.
Qed.

(** X17. [load_template] never returns a template. Whatever the
    template directory holds and whatever Jinja answers, every call
    raises: the cache timestamps and template versions are never
    written, entries of the cache under other keys are kept, and a call
    that finds its key in the cache (and does not bypass it) raises
    [NameError] for [time] at once, leaving the manager as it was. *)
Theorem load_template_never_returns (template_name : string)
    (notification_type : NotificationType) (bypass_cache : bool)
    (tm : TemplateManager) :
  exists e tm',
    load_template tenv template_name notification_type bypass_cache tm
    = (Raised e, tm') /\
    _cache_timestamps tm' = _cache_timestamps tm /\
    _template_versions tm' = _template_versions tm /\
    (forall k, k <> cache_key notification_type template_name ->
               dict_get k (_template_cache tm') = dict_get k (_template_cache tm)) /\
    (bypass_cache = false ->
     dict_mem (cache_key notification_type template_name) (_template_cache tm) = true ->
     e = NameError "time" /\ tm' = tm).
Proof.
  destruct (load_template_raises template_name notification_type bypass_cache tm)
    as (e & tm' & H & Hts & Hv & _ & Hk & _ & Hhit).
  exists e, tm'. repeat split; auto; apply Hhit; auto.
Qed.

(** X18. A template file that passes every check is compiled and put in
    the cache, and then the call raises [NameError]: the cache keeps the
    template without a timestamp. *)
Theorem loadable_template_is_cached_then_raises (template_name : string)
    (notification_type : NotificationType) (bypass_cache : bool)
    (template : Template) (tm : TemplateManager) :
  loadable tenv notification_type template_name template ->
  bypass_cache = true \/
  dict_mem (cache_key notification_type template_name) (_template_cache tm) = false ->
  load_template tenv template_name notification_type bypass_cache tm
  = (Raised (NameError "time"),
     set_template_cache
       (dict_set (cache_key notification_type template_name) template
          (_template_cache tm)) tm).
Proof.
  intros (Hfile & Hsize & content & Hread & Hlen & Hparse & Hsand & Hcomp) Hmiss.
  run_templates notification_type template_name.
  assert (Hit : (negb bypass_cache
                 && dict_mem (cache_key notification_type template_name)
                      (_template_cache tm)) = false).
  { destruct Hmiss as [-> | ->]; [reflexivity | apply andb_false_r]. }
  rewrite Hit. simpl. rewrite Hfile. simpl.
  assert (Hs : (MAX_TEMPLATE_SIZE <? st_size tenv notification_type template_name) = false)
    by (apply Z.ltb_ge; exact Hsize).
  rewrite Hs. simpl. rewrite Hread. simpl.
  unfold validate_template.
  assert (Hl : (MAX_TEMPLATE_SIZE <? Z.of_nat (String.length content)) = false)
    by (apply Z.ltb_ge; exact Hlen).
  rewrite Hl, Hparse, Hsand. simpl. rewrite Hcomp. simpl. reflexivity.
Qed.

(** X19. [render_template] never returns rendered content: a context
    that fails validation raises its [ValueError] with the manager
    untouched, and any other call raises out of [load_template]; a
    template already in the cache makes it [NameError]. *)
Theorem render_template_never_returns (template_name : string)
    (notification_type : NotificationType) (context : PyObj) (escape_html : bool)
    (tm : TemplateManager) :
  exists e tm',
    render_template tenv template_name notification_type context escape_html tm
    = (Raised e, tm') /\
    _cache_timestamps tm' = _cache_timestamps tm /\
    (forall e0, _validate_context context = Raised e0 -> e = e0 /\ tm' = tm) /\
    (_validate_context context = Returned tt ->
     dict_mem (cache_key notification_type template_name) (_template_cache tm) = true ->
     e = NameError "time" /\ tm' = tm).
Proof.
  unfold render_template, step. run_monad.
  destruct (_validate_context context) as [[] | e0 | |] eqn:Hv.
  - destruct (load_template_raises template_name notification_type false tm)
      as (e & tm' & H & Hts & _ & _ & _ & _ & Hhit).
    rewrite H. exists e, tm'. repeat split; auto; try discriminate;
      apply Hhit; auto.
  - exists e0, tm. repeat split; auto; try congruence; discriminate.
  - exfalso. unfold _validate_context in Hv. destruct context; try discriminate.
    pose proof (validate_value_ends (ODict d)) as Hends. rewrite Hv in Hends.
    exact Hends.
  - exfalso. unfold _validate_context in Hv. destruct context; try discriminate.
    pose proof (validate_value_ends (ODict d)) as Hends. rewrite Hv in Hends.
    exact Hends.
Qed.

Lemma reload_files_spec (t : NotificationType) (names : list string)
    (status : list (string * bool)) (tm : TemplateManager) :
  exists status' tm',
    reload_files tenv t names status tm = (Returned status', tm') /\
    _cache_timestamps tm' = _cache_timestamps tm /\
    _template_versions tm' = _template_versions tm /\
    (forall name, dict_get name status' =
                  if existsb (String.eqb name) names then Some false
                  else dict_get name status).
Proof.
  revert status tm. induction names as [| n names IH]; intros status tm; simpl.
  - do 2 eexists. split; [reflexivity |]. auto.
  - run_monad.
    destruct (load_template_raises n t true tm)
      as (e & tm1 & H & Hts & Hv & _ & _ & _ & _).
    rewrite H.
    destruct (IH (dict_set n false status) tm1) as (status' & tm' & H' & Hts' & Hv' & Hs').
    rewrite H'. exists status', tm'. split; [reflexivity |].
    split; [congruence |]. split; [congruence |].
    intros name. rewrite Hs'.
    destruct (existsb (String.eqb name) names); [rewrite orb_true_r; reflexivity |].
    rewrite orb_false_r. destruct (String.eqb name n) eqn:E.
    + apply String.eqb_eq in E. subst. apply dict_get_set_eq.
    + apply dict_get_set_neq. intros ->. rewrite String.eqb_refl in E. discriminate.
Qed.

Lemma reload_types_spec (types : list NotificationType)
    (status : list (string * bool)) (tm : TemplateManager) :
  exists status' tm',
    reload_types tenv types status tm = (Returned status', tm') /\
    _cache_timestamps tm' = _cache_timestamps tm /\
    _template_versions tm' = _template_versions tm /\
    (forall name, dict_get name status' =
                  if existsb (fun t => is_dir tenv t
                                       && existsb (String.eqb name) (glob tenv t)) types
                  then Some false
                  else dict_get name status).
Proof.
  revert status tm. induction types as [| t types IH]; intros status tm; simpl.
  - do 2 eexists. split; [reflexivity |]. auto.
  - destruct (is_dir tenv t); simpl.
    + run_monad.
      destruct (reload_files_spec t (glob tenv t) status tm)
        as (s1 & tm1 & H1 & Hts1 & Hv1 & Hs1).
      rewrite H1.
      destruct (IH s1 tm1) as (s2 & tm2 & H2 & Hts2 & Hv2 & Hs2).
      rewrite H2. exists s2, tm2. split; [reflexivity |].
      split; [congruence |]. split; [congruence |].
      intros name. rewrite Hs2, Hs1.
      destruct (existsb (String.eqb name) (glob tenv t)); simpl;
        [| reflexivity].
      destruct (existsb _ types); reflexivity.
    + apply IH.
Qed.

(** X20. [reload_templates] returns, and reports every template it
    finds as not reloaded: the status it returns has [False] for each
    [*.html] file of each existing type directory and no other entry.
    The cache timestamps are empty afterwards and the template versions
    are as before. *)
Theorem reload_templates_reports_failure (tm : TemplateManager) :
  exists reload_status tm',
    reload_templates tenv tm = (Returned reload_status, tm') /\
    (forall template_name,
       dict_get template_name reload_status =
       if existsb (fun t => is_dir tenv t
                            && existsb (String.eqb template_name) (glob tenv t))
            NotificationType_members
       then Some false else None) /\
    _cache_timestamps tm' = [] /\
    _template_versions tm' = _template_versions tm.
Proof.
  unfold reload_templates, try_except, bind, modify. cbv beta iota.
  destruct (reload_types_spec NotificationType_members []
              (set_cache_timestamps [] (set_template_cache [] tm)))
    as (s & tm' & H & Hts & Hv & Hs).
  rewrite H. exists s, tm'. split; [reflexivity |].
  split; [| split; [exact Hts | exact Hv]].
  intros name. rewrite Hs. reflexivity.
Qed.

(** X23. The steps of [send_email] never get to the SMTP server. Whatever
    the notification holds, whatever the template directory and Jinja
    answer and whatever the server would answer, the steps between the
    type check and the status update raise: [ValueError] when no
    recipient passes the filter, with the template manager untouched,
    and otherwise what [render_template] raises. No email is handed to
    the server, and [send_email] cannot return [True]. *)
Theorem email_steps_never_reach_smtp (smtp : Transport) (template_name : string)
    (notification_type : NotificationType) (content : PyVal)
    (recipients : list string) (tm : TemplateManager) :
  exists e tm',
    email_steps tenv smtp template_name notification_type content recipients tm
    = (Raised e, tm') /\
    email_steps tenv smtp template_name notification_type content recipients tm
    = email_steps tenv Delivered template_name notification_type content recipients tm /\
    (_validate_recipients recipients = [] ->
     e = ValueError "No valid recipients provided" /\ tm' = tm) /\
    _cache_timestamps tm' = _cache_timestamps tm.
Proof.
  unfold email_steps.
  destruct (_validate_recipients recipients) as [| r rs] eqn:R; simpl.
  { exists (ValueError "No valid recipients provided"), tm. repeat split. }
  unfold render_template, step. run_monad.
  destruct (_validate_context (context_of content)) as [[] | e0 | |] eqn:Hv.
  - destruct (load_template_raises template_name notification_type false tm)
      as (e & tm' & H & Hts & _).
    rewrite H. exists e, tm'.
    split; [reflexivity |]. split; [reflexivity |].
    split; [intros C; discriminate C | exact Hts].
  - exists e0, tm.
    split; [reflexivity |]. split; [reflexivity |].
    split; [intros C; discriminate C | reflexivity].
  - exfalso. unfold _validate_context in Hv.
    destruct (context_of content); try discriminate.
    pose proof (validate_value_ends (ODict d)) as Hends. rewrite Hv in Hends.
    exact Hends.
  - exfalso. unfold _validate_context in Hv.
    destruct (context_of content); try discriminate.
    pose proof (validate_value_ends (ODict d)) as Hends. rewrite Hv in Hends.
    exact Hends.
Qed.

End TemplateProperties.

(* ===================================================================== *)
(** ** The endpoint of app.py                                             *)
(* ===================================================================== *)

Section EndpointProperties.

Variable env : Env.

(** X21. Posting an email to the endpoint of [app.py] is answered 500.
    For every email notification the rate limiter admits, whatever its
    status and whatever the transport does, the endpoint raises
    [HTTPException] with status code 500, after at least three runs of
    the external email steps. *)
Theorem app_email_post_answers_500 (notification : Notification) (w : World) :
  notification_type notification = EMAIL ->
  admits EMAIL w = true ->
  exists detail w',
    app_send_notification env notification w
    = (Raised (HTTPException 500 detail), w') /\
    (3 + sends w <= sends w')%nat.
Proof.
  intros Ty Ad. set (p := priority notification).
  set (o := {| self := notification; world := w |}).
  destruct (email_attempt_raises env o p Ty Ad)
    as (e1 & o1 & E1 & Ty1 & Ad1 & _ & N1 & _ & _).
  destruct (email_attempt_raises env o1 p Ty1 Ad1)
    as (e2 & o2 & E2 & Ty2 & Ad2 & _ & N2 & _ & _).
  destruct (email_attempt_raises env o2 p Ty2 Ad2)
    as (e3 & o3 & E3 & _ & _ & _ & N3 & _ & _).
  unfold app_send_notification. fold p o.
  unfold send_notification. simpl retry. unfold try_except.
  rewrite E1, E2, E3. unfold raise.
  do 2 eexists. split; [reflexivity |]. simpl in N1. lia.
Qed.

(** X22. A post the rate limiter denies is answered without an error.
    The endpoint returns: [success] is false, the status reported is the
    one the notification came with, nothing is delivered, and the
    notification waits at the tail of the queue of its priority. *)
Theorem app_denied_post_reports_unsent (notification : Notification) (w : World) :
  admits (notification_type notification) w = false ->
  queue_full (queue_of (priority notification) (priority_queues w)) = false ->
  exists w',
    app_send_notification env notification w
    = (Returned {| res_notification_id := id notification;
                   res_status := status_value (status notification);
                   res_success := false |}, w') /\
    items (queue_of (priority notification) (priority_queues w')) =
      items (queue_of (priority notification) (priority_queues w)) ++ [notification] /\
    deliveries (trace w') = deliveries (trace w).
Proof.
  intros Dn Room.
  destruct (denied_send_spec env {| self := notification; world := w |}
              (priority notification) Dn Room)
    as (o' & E & Hs & Hi & _ & _ & Hd & _).
  unfold app_send_notification. rewrite E. rewrite Hs. simpl.
  exists (world o'). split; [reflexivity |]. split; [exact Hi | exact Hd].
Qed.

End EndpointProperties.

(* ===================================================================== *)
(** ** The properties at concrete inputs                                  *)
(* ===================================================================== *)



(** C1 at that notification: the transition Pending -> Sent. *)
Lemma valid_transition_raises_on_caller_history_witness :
  exists o',
    update_status sample_env SENT None
      {| self := imported_notification; world := initial_world |}
    = (Raised (TypeError
                 (String.append "can only concatenate str (not "
                    (String "034" (String.append "list" (String "034" ") to str"))))),
       o') /\
    status (self o') = SENT /\
    status (self o') <> status imported_notification /\
    updated_at (self o') = 0 /\
    metadata (self o') = metadata imported_notification /\
    (SENT = FAILED -> truthy_opt None = true ->
     retry_count (self o') = S (retry_count imported_notification)).
Proof.
  apply (valid_transition_raises_on_caller_history sample_env
           {| self := imported_notification; world := initial_world |}
           SENT None (PyStr "imported")); reflexivity.
Defined.

(** C8 at that notification, the limiter at 0: delivered three times,
    Failed. *)
Lemma delivered_notification_ends_failed_witness :
  exists o',
    send_notification sample_env HIGH
      {| self := imported_notification; world := initial_world |}
    = (Raised (RetryError (InvalidTransition FAILED FAILED)), o') /\
    status (self o') = FAILED /\
    error_messages (self o') =
      [ {| err_timestamp := 4;
           err_message :=
             String.append "can only concatenate str (not "
               (String "034" (String.append "list" (String "034" ") to str")));
           err_retry_count := 0 |} ] /\
    retry_count (self o') = 1%nat /\
    deliveries (trace (world o')) = [(IN_APP, 0%N); (IN_APP, 0%N); (IN_APP, 0%N)].
Proof.
  apply (delivered_notification_ends_failed sample_env
           {| self := imported_notification; world := initial_world |}
           HIGH (PyStr "imported")).
  - discriminate.
  - reflexivity.
  - reflexivity.
  - reflexivity.
Defined.

(** C10 at a timezone-aware [scheduled_for] one hour in the past. *)
Lemma aware_scheduled_for_raises_TypeError_witness :
  exists w',
    new_Notification (frozen_env (2 * one_hour)) aware_args initial_world
    = (Raised compare_TypeError, w') /\
    (forall msg, compare_TypeError <> ValueError msg) /\
    reads w' = 3%nat.
Proof.
  apply (aware_scheduled_for_raises_TypeError (frozen_env (2 * one_hour))
           aware_args initial_world one_hour); try reflexivity.
  discriminate.
Defined.

(** C5, the claim as worded: on the Urgent queue at its capacity of 1000
    the enqueue raises nothing; it suspends the caller. *)
Lemma put_on_full_queue_does_not_raise :
  Z.of_nat (List.length (items (queue_of URGENT (priority_queues urgent_full_world))))
  = maxsize (queue_of URGENT (priority_queues urgent_full_world)) /\
  fst (queue_put URGENT (pending_notification IN_APP 7) urgent_full_world) = Suspended /\
  forall e,
    fst (queue_put URGENT (pending_notification IN_APP 7) urgent_full_world)
    <> Raised e.
Proof.
  split; [reflexivity |]. split; [reflexivity |].
  intros e H. vm_compute in H. discriminate H.
Qed.

(** C5 at the Urgent queue filled to capacity. *)
Lemma put_on_full_queue_suspends_witness :
  queue_put URGENT (pending_notification IN_APP 7) urgent_full_world
  = (Suspended, urgent_full_world).
Proof.
  apply (put_on_full_queue_suspends sample_env URGENT
           {| self := pending_notification IN_APP 7; world := urgent_full_world |});
    reflexivity.
Defined.



(** C9 at a request scheduled one hour ahead, served on a clock that
    has not advanced by ten microseconds: the notification is Sent. *)
Lemma future_scheduled_request_is_sent_witness :
  (exists resp n w',
     serve sample_env scheduled_request initial_world = (Returned resp, [n], w') /\
     status_code resp = 202 /\
     resp_status resp = "pending"%string /\
     resp_scheduled_for resp = Some (Naive one_hour) /\
     resp_notification_id resp = id n /\
     scheduled_for n = Some (Naive one_hour) /\
     status n = SENT /\
     deliveries (trace w') = [] ++ [(IN_APP, id n)] /\
     reads w' = 7%nat) /\
  utcnow_at sample_env 7 < one_hour.
Proof.
  split; [| reflexivity].
  apply (future_scheduled_request_is_sent sample_env scheduled_request
           initial_world one_hour); try reflexivity; discriminate.
Defined.

(** X1 at an in-app notification, admitted and Pending. *)
Lemma stub_channel_delivery_ends_sent_witness :
  exists o',
    send_notification sample_env HIGH (pending_call IN_APP) = (Returned true, o') /\
    status (self o') = SENT /\
    error_messages (self o') = [] /\
    retry_count (self o') = 0%nat /\
    deliveries (trace (world o')) = [(IN_APP, 0%N)].
Proof.
  apply (stub_channel_delivery_ends_sent sample_env (pending_call IN_APP) HIGH).
  - discriminate.
  - reflexivity.
  - reflexivity.
  - reflexivity.
Defined.

(** X2 at an email whose transmission is refused by the SMTP server. *)
Lemma failed_email_records_delivery_error_witness :
  exists o',
    send_notification
      {| utcnow_at := fun k => Z.of_nat k;
         uuid4_at := fun k => N.of_nat k;
         transport_at := fun _ => Fails (SMTPException "550 mailbox unavailable") |}
      HIGH (pending_call EMAIL)
    = (Raised (RetryError (InvalidTransition FAILED FAILED)), o') /\
    status (self o') = FAILED /\
    error_messages (self o') =
      [ {| err_timestamp := 1;
           err_message := "SMTP Error: 550 mailbox unavailable";
           err_retry_count := 0 |} ] /\
    retry_count (self o') = 1%nat.
Proof.
  apply (failed_email_records_delivery_error
           {| utcnow_at := fun k => Z.of_nat k;
              uuid4_at := fun k => N.of_nat k;
              transport_at := fun _ => Fails (SMTPException "550 mailbox unavailable") |}
           (pending_call EMAIL) HIGH (SMTPException "550 mailbox unavailable"));
    reflexivity.
Defined.

(** X3 at an email sent while the email counter is at its limit. *)
Lemma denied_send_requeues_at_tail_witness :
  exists o',
    send_notification sample_env HIGH
      {| self := pending_notification EMAIL 0; world := throttled_world |}
    = (Returned false, o') /\
    self o' = pending_notification EMAIL 0 /\
    items (queue_of HIGH (priority_queues (world o'))) =
      [pending_notification EMAIL 1; pending_notification EMAIL 2;
       pending_notification EMAIL 0] /\
    deliveries (trace (world o')) = [] /\
    sends (world o') = 0%nat.
Proof.
  destruct (denied_send_requeues_at_tail sample_env
              {| self := pending_notification EMAIL 0; world := throttled_world |} HIGH)
    as (o' & E & Hs & Hi & _ & _ & Hd & _ & _ & Hn & _);
    [reflexivity | reflexivity |].
  exists o'. repeat split; assumption.
Defined.

(** X4 at the two waiting emails, the loop condition tested three times. *)
Lemma drain_spins_while_denied_witness :
  fst (drain sample_env 3 HIGH throttled_world) = Unfinished /\
  items (queue_of HIGH (priority_queues (snd (drain sample_env 3 HIGH throttled_world))))
  = [pending_notification EMAIL 2; pending_notification EMAIL 1] /\
  deliveries (trace (snd (drain sample_env 3 HIGH throttled_world))) = [] /\
  rate_limiters (snd (drain sample_env 3 HIGH throttled_world))
  = rate_limiters throttled_world.
Proof.
  apply (drain_spins_while_denied sample_env 3 HIGH throttled_world).
  - discriminate.
  - right. simpl. lia.
  - intros n [<- | [<- | []]]; reflexivity.
Defined.

(** X5 at a Pending email, the limiter at 0, the transport delivering. *)
Lemma admitted_email_send_always_raises_witness :
  exists e o',
    send_notification sample_env HIGH (pending_call EMAIL)
    = (Raised (RetryError e), o') /\
    status (self o') = FAILED /\
    status (self o') <> SENT /\
    (3 <= sends (world o') <= 4)%nat /\
    ((forall k, transport_at sample_env k = Delivered) -> sends (world o') = 3%nat).
Proof.
  apply (admitted_email_send_always_raises sample_env (pending_call EMAIL) HIGH);
    reflexivity.
Defined.

(** X8 on the clock that advances one microsecond per reading. *)
Lemma history_is_chronological_witness :
  (forall a w n w',
     new_Notification sample_env a w = (Returned n, w') ->
     chronological sample_env {| self := n; world := w' |})
  /\
  (forall o s m,
     chronological sample_env o ->
     chronological sample_env (snd (update_status sample_env s m o)))
  /\
  (forall n w w',
     chronological sample_env {| self := n; world := w |} ->
     (reads w <= reads w')%nat ->
     chronological sample_env {| self := n; world := w' |})
  /\
  (forall o e es,
     chronological sample_env o ->
     error_messages (self o) = es ++ [e] ->
     last_attempt (self o) = err_timestamp e).
Proof.
  apply (history_is_chronological sample_env).
  intros i j H. simpl. lia.
Defined.

(** X14 at a request scheduled for the epoch, one hour later. *)
Lemma validated_request_400_is_past_schedule_witness :
  "Scheduled time cannot be in the past"%string
  = "Scheduled time cannot be in the past"%string /\
  exists t, req_scheduled_for overdue_request = Some (Naive t) /\
            t < utcnow_at (frozen_env one_hour) (2 + reads initial_world).
Proof.
  apply (validated_request_400_is_past_schedule (frozen_env one_hour)
           overdue_request initial_world
           (snd (create_notification (frozen_env one_hour) overdue_request
                   initial_world))
           "Scheduled time cannot be in the past");
    reflexivity.
Defined.

(** X18 at the one template of [sample_templates], on a new manager. *)
Lemma loadable_template_is_cached_then_raises_witness :
  load_template sample_templates "welcome_email" EMAIL false (new_TemplateManager None)
  = (Raised (NameError "time"),
     {| _template_cache :=
          [("email:welcome_email"%string,
            {| compiled_from := "<p>Hello {{ user_name }}</p>" |})];
        _cache_timestamps := [];
        _template_versions := [];
        _cache_ttl := 3600 |}).
Proof.
  apply (loadable_template_is_cached_then_raises sample_templates "welcome_email"
           EMAIL false {| compiled_from := "<p>Hello {{ user_name }}</p>" |}
           (new_TemplateManager None)).
  - split; [reflexivity |]. split; [discriminate |].
    exists "<p>Hello {{ user_name }}</p>"%string.
    split; [reflexivity |]. split; [discriminate |].
    split; [reflexivity |]. split; reflexivity.
  - right. reflexivity.
Defined.

(** X21 at a Pending email, the limiter at 0, the transport delivering. *)
Lemma app_email_post_answers_500_witness :
  exists detail w',
    app_send_notification sample_env (pending_notification EMAIL 0) initial_world
    = (Raised (HTTPException 500 detail), w') /\
    (3 <= sends w')%nat.
Proof.
  apply (app_email_post_answers_500 sample_env (pending_notification EMAIL 0)
           initial_world); reflexivity.
Defined.

(** X22 at an email posted while the email counter is at its limit. *)
Lemma app_denied_post_reports_unsent_witness :
  exists w',
    app_send_notification sample_env (pending_notification EMAIL 0) throttled_world
    = (Returned {| res_notification_id := 0;
                   res_status := "pending";
                   res_success := false |}, w') /\
    items (queue_of HIGH (priority_queues w')) =
      [pending_notification EMAIL 1; pending_notification EMAIL 2;
       pending_notification EMAIL 0] /\
    deliveries (trace w') = [].
Proof.
  apply (app_denied_post_reports_unsent sample_env (pending_notification EMAIL 0)
           throttled_world); reflexivity.
Defined.
